(** * Access control of the project-management backend (tactix_api)

    A shallow embedding of the models, schemas, services and route handlers
    of [src/tactix_api/app], followed by the properties of the access-control
    rules that the handlers implement.

    Conventions of the embedding.
    - Integer ids are [Z].  A table with an integer primary key [id] is a
      [gmap Z row]: the key is the [id] column and the row record holds the
      other columns.  An ORM object is the pair of its id and its row.
    - The association tables [workspace_members] and [project_members] have
      the composite primary key (parent id, user id): they are [gset (Z * Z)].
    - A [DateTime] is a [Z].  The columns [created_at] and [updated_at] are
      filled by the server from its clock, the [clock] of the database state:
      both at INSERT ([server_default=func.now()]), and [updated_at] again
      by every UPDATE of the row ([onupdate=func.now()]).
    - A handler is a computation over the committed database state that
      either returns a value or raises.  An exception raised before
      [db.commit()] leaves the committed state untouched. *)

From stdpp Require Import gmap strings list fin_maps.

Local Open Scope Z_scope.

(** ** Models ([app/models]) *)

Inductive TaskPriority := LOW | MEDIUM | HIGH | URGENT.
Inductive TaskStatus := TODO | IN_PROGRESS | REVIEW | DONE.

Global Instance TaskPriority_eq_dec : EqDecision TaskPriority.
Proof. solve_decision. Defined.
Global Instance TaskStatus_eq_dec : EqDecision TaskStatus.
Proof. solve_decision. Defined.

Module User.
(** Modelled from the spec: [app/models/user.py] is not among the sources.
    A User is an identity with an [is_superuser] flag; the handlers read
    nothing else of it. *)
Record t := { is_superuser : bool }.
Global Instance eq_dec : EqDecision t.
Proof. solve_decision. Defined.
End User.

Module Workspace.
Record t := {
  name : string;
  description : option string;
  owner_id : Z;
  created_at : Z;
  updated_at : Z;
}.
Global Instance eq_dec : EqDecision t.
Proof. solve_decision. Defined.
(** Names that [hasattr(Workspace, k)] accepts: columns and relationships. *)
Definition attributes : list string :=
  ["id"; "name"; "description"; "owner_id"; "created_at"; "updated_at";
   "owner"; "members"; "projects"]%string.
End Workspace.

Module Project.
Record t := {
  name : string;
  description : option string;
  workspace_id : Z;
  created_at : Z;
  updated_at : Z;
}.
Global Instance eq_dec : EqDecision t.
Proof. solve_decision. Defined.
Definition attributes : list string :=
  ["id"; "name"; "description"; "workspace_id"; "created_at"; "updated_at";
   "workspace"; "members"; "tasks"]%string.
End Project.

Module Task.
Record t := {
  title : string;
  description : option string;
  status : TaskStatus;
  priority : TaskPriority;
  due_date : option Z;
  project_id : Z;
  assignee_id : option Z;
  created_by_id : Z;
  created_at : Z;
  updated_at : Z;
}.
Global Instance eq_dec : EqDecision t.
Proof. solve_decision. Defined.
Definition attributes : list string :=
  ["id"; "title"; "description"; "status"; "priority"; "due_date";
   "project_id"; "assignee_id"; "created_by_id"; "created_at"; "updated_at";
   "project"; "assignee"; "created_by"]%string.
End Task.

(** The committed database state, with the clock of the server: [clock] is
    what [func.now()] gives to the statements of the current request. *)
Record DB := {
  clock : Z;
  users : gmap Z User.t;
  workspaces : gmap Z Workspace.t;
  workspace_members : gset (Z * Z);
  projects : gmap Z Project.t;
  project_members : gset (Z * Z);
  tasks : gmap Z Task.t;
}.

Definition empty_db : DB :=
  {| clock := 0; users := ∅; workspaces := ∅; workspace_members := ∅;
     projects := ∅; project_members := ∅; tasks := ∅ |}.

(** ** Python values, results and exceptions *)

Inductive pyval :=
  | PNone
  | PInt (z : Z)
  | PStr (s : string)
  | PStatus (s : TaskStatus)
  | PPriority (p : TaskPriority)
  | PDateTime (d : Z).

(** A [dict] with string keys, in insertion order; also keyword arguments. *)
Definition pydict := list (string * pyval).

Definition py_opt {A} (f : A → pyval) (o : option A) : pyval :=
  match o with Some a => f a | None => PNone end.

Fixpoint dict_get (d : pydict) (k : string) : option pyval :=
  match d with
  | [] => None
  | (k', v) :: d' => if String.eqb k' k then Some v else dict_get d' k
  end.

(** [if x:] for an [Optional[int]]: [None] and [0] are false; the value
    when it is true. *)
Definition truthy_int (o : option Z) : option Z :=
  match o with
  | Some z => if z =? 0 then None else Some z
  | None => None
  end.

Inductive Exn :=
  | HTTPException (status_code : Z) (detail : string)
  | AttributeError   (* attribute access on [None] *)
  | TypeError        (* invalid keyword argument of a model constructor *)
  | IntegrityError   (* NOT NULL or FOREIGN KEY violation at flush *)
  | DataError.       (* value rejected by the database *)

Inductive Res (A : Type) :=
  | Ok (a : A)
  | Raise (e : Exn).
Arguments Ok {A} a.
Arguments Raise {A} e.

Global Instance Res_ret : MRet Res := λ A a, Ok a.
Global Instance Res_bind : MBind Res := λ A B f r,
  match r with Ok a => f a | Raise e => Raise e end.
Global Instance Res_fmap : FMap Res := λ A B f r,
  match r with Ok a => Ok (f a) | Raise e => Raise e end.

(** [o.attr] where [o] may be [None]. *)
Definition attr {A B} (o : option A) (f : A → B) : Res B :=
  match o with Some a => Ok (f a) | None => Raise AttributeError end.

(** Short-circuit [or] and [and] over operands that may raise. *)
Definition or_else (a b : Res bool) : Res bool :=
  match a with Ok true => Ok true | Ok false => b | Raise e => Raise e end.
Definition and_then (a b : Res bool) : Res bool :=
  match a with Ok true => b | Ok false => Ok false | Raise e => Raise e end.
Infix "|||" := or_else (at level 50, left associativity).
Infix "&&&" := and_then (at level 40, left associativity).

(** A request handler or service call: reads and commits on the session. *)
Definition M (A : Type) : Type := DB → Res A * DB.

Global Instance M_ret : MRet M := λ A a db, (Ok a, db).
Global Instance M_bind : MBind M := λ A B f m db,
  match m db with
  | (Ok a, db') => f a db'
  | (Raise e, db') => (Raise e, db')
  end.

Definition session : M DB := λ db, (Ok db, db).
Definition commit (f : DB → DB) : M unit := λ db, (Ok (), f db).
Definition lift {A} (r : Res A) : M A := λ db, (r, db).
Definition raise {A} (e : Exn) : M A := lift (Raise e).

(** [x = query.first(); if not x: raise HTTPException(404, detail)] *)
Definition first_or_404 {A} (o : option A) (detail : string) : M A :=
  match o with Some a => mret a | None => raise (HTTPException 404 detail) end.

(** [if not cond: raise HTTPException(status_code, detail)] *)
Definition require (cond : bool) (status_code : Z) (detail : string) : M unit :=
  if cond then mret () else raise (HTTPException status_code detail).

(** [query.offset(skip).limit(limit).all()] on the configured backend,
    PostgreSQL ([DATABASE_URL : PostgresDsn]): OFFSET and LIMIT are [bigint]
    values that must not be negative, so the statement is rejected for a
    negative [skip] or [limit] and for one of [2^63] or more. *)
Definition bigint_max : Z := 2 ^ 63 - 1.
Definition offset_limit {A} (skip limit : Z) (rows : list A) : Res (list A) :=
  if (skip <? 0) || (limit <? 0) || (bigint_max <? skip) || (bigint_max <? limit)
  then Raise DataError
  else Ok (take (Z.to_nat limit) (drop (Z.to_nat skip) rows)).

(** Server-assigned primary key of a new row: an id that is not in use.
    PostgreSQL takes it from the sequence of the table, which never goes
    back; the model takes the successor of the largest stored id, which is
    the same id until the row with the largest id is deleted or an insert
    fails. *)
Definition next_id {A} (tbl : gmap Z A) : Z :=
  1 + foldr Z.max 0 ((map_to_list tbl).*1).

(** ** Relationships *)

(** [Parent.members.any(User.id == uid)], and [user in parent.members] for a
    [user] of the session: a row of the association table joined with
    [users]. *)
Definition in_members (assoc : gset (Z * Z)) (db : DB) (parent_id uid : Z) : bool :=
  bool_decide ((parent_id, uid) ∈ assoc) && bool_decide (is_Some (users db !! uid)).

(** [workspace.owner]: the many-to-one relationship on [owner_id]. *)
Definition owner (db : DB) (w : Workspace.t) : option (Z * User.t) :=
  (λ u, (Workspace.owner_id w, u)) <$> users db !! Workspace.owner_id w.

(** [a != b] for a loaded object [a] and a relationship value [b]: objects of
    one session are equal exactly when they have the same primary key. *)
Definition obj_ne {A} (a : Z * A) (b : option (Z * A)) : bool :=
  match b with Some b => negb (a.1 =? b.1) | None => true end.

(** [x == uid] for a nullable integer column [x]. *)
Definition opt_eqb (x : option Z) (uid : Z) : bool :=
  match x with Some z => z =? uid | None => false end.

(** ** Schemas ([app/schemas]) *)

(** A field of an update schema: [None] when the request left it unset,
    [Some v] when the request set it, possibly to null ([Some None]). *)
Definition field (A : Type) : Type := option (option A).

(** The attribute value of a field: an unset field reads as its default
    [None]. *)
Definition field_value {A} (x : field A) : option A :=
  match x with Some v => v | None => None end.

(** The entry of a field in [dict(exclude_unset=True)]. *)
Definition item {A} (k : string) (f : A → pyval) (x : field A) : pydict :=
  match x with Some v => [(k, py_opt f v)] | None => [] end.

Module WorkspaceCreate.
Record t := { name : string; description : option string }.
Definition dict (w : t) : pydict :=
  [("name", PStr (name w)); ("description", py_opt PStr (description w))]%string.
End WorkspaceCreate.

Module WorkspaceUpdate.
Record t := { name : field string; description : field string }.
Definition dict_exclude_unset (w : t) : pydict :=
  item "name" PStr (name w) ++ item "description" PStr (description w).
End WorkspaceUpdate.

Module ProjectCreate.
Record t := { name : string; description : option string; workspace_id : Z }.
Definition dict (p : t) : pydict :=
  [("name", PStr (name p)); ("description", py_opt PStr (description p));
   ("workspace_id", PInt (workspace_id p))]%string.
End ProjectCreate.

Module ProjectUpdate.
Record t := {
  name : field string;
  description : field string;
  workspace_id : field Z;
}.
Definition dict_exclude_unset (p : t) : pydict :=
  item "name" PStr (name p) ++ item "description" PStr (description p)
  ++ item "workspace_id" PInt (workspace_id p).
End ProjectUpdate.

Module TaskCreate.
Record t := {
  title : string;
  description : option string;
  status : option TaskStatus;
  priority : option TaskPriority;
  due_date : option Z;
  project_id : Z;
  assignee_id : option Z;
}.
Definition dict (x : t) : pydict :=
  [("title", PStr (title x));
   ("description", py_opt PStr (description x));
   ("status", py_opt PStatus (status x));
   ("priority", py_opt PPriority (priority x));
   ("due_date", py_opt PDateTime (due_date x));
   ("project_id", PInt (project_id x));
   ("assignee_id", py_opt PInt (assignee_id x))]%string.
End TaskCreate.

Module TaskUpdate.
Record t := {
  title : field string;
  description : field string;
  status : field TaskStatus;
  priority : field TaskPriority;
  due_date : field Z;
  project_id : field Z;
  assignee_id : field Z;
}.
Definition dict_exclude_unset (x : t) : pydict :=
  item "title" PStr (title x)
  ++ item "description" PStr (description x)
  ++ item "status" PStatus (status x)
  ++ item "priority" PPriority (priority x)
  ++ item "due_date" PDateTime (due_date x)
  ++ item "project_id" PInt (project_id x)
  ++ item "assignee_id" PInt (assignee_id x).
End TaskUpdate.

(** ** Object construction and flush *)

(** Modelled from the spec: [app/core/database.py], which declares the
    declarative [Base] of the models, is not among the sources.  The spec
    records that a keyword which is not a field of the entity is a mismatch
    and not an alias; the default constructor of a declarative base accepts
    a keyword only when the mapped class has an attribute of that name and
    raises [TypeError] otherwise.  The new object holds the keywords as its
    attribute values. *)
Definition declarative_init (attributes : list string) (kwargs : pydict) : Res pydict :=
  if forallb (λ kv : string * pyval, bool_decide (kv.1 ∈ attributes)) kwargs
  then Ok kwargs else Raise TypeError.

(** Column values as the database receives them. *)
Definition as_str (v : option pyval) : Res (option string) :=
  match v with
  | None | Some PNone => Ok None
  | Some (PStr s) => Ok (Some s)
  | Some _ => Raise DataError
  end.
Definition as_int (v : option pyval) : Res (option Z) :=
  match v with
  | None | Some PNone => Ok None
  | Some (PInt z) => Ok (Some z)
  | Some _ => Raise DataError
  end.
Definition as_datetime (v : option pyval) : Res (option Z) :=
  match v with
  | None | Some PNone => Ok None
  | Some (PDateTime d) => Ok (Some d)
  | Some _ => Raise DataError
  end.
Definition as_status (v : option pyval) : Res (option TaskStatus) :=
  match v with
  | None | Some PNone => Ok None
  | Some (PStatus s) => Ok (Some s)
  | Some _ => Raise DataError
  end.
Definition as_priority (v : option pyval) : Res (option TaskPriority) :=
  match v with
  | None | Some PNone => Ok None
  | Some (PPriority p) => Ok (Some p)
  | Some _ => Raise DataError
  end.

(** [nullable=False] *)
Definition notnull {A} (x : option A) : Res A :=
  match x with Some a => Ok a | None => Raise IntegrityError end.

(** [ForeignKey("tbl.id")] on a non-null value. *)
Definition references {A} (tbl : gmap Z A) (id : Z) : Res unit :=
  if bool_decide (is_Some (tbl !! id)) then Ok () else Raise IntegrityError.

(** [ForeignKey("tbl.id")] on a nullable column. *)
Definition references_opt {A} (tbl : gmap Z A) (id : option Z) : Res unit :=
  match id with Some i => references tbl i | None => Ok () end.

(** INSERT of a new object: a column whose attribute is absent or [None]
    takes its [default] or [server_default], the constraints of the table
    are checked. *)
Definition Workspace_insert (db : DB) (o : pydict) : Res Workspace.t :=
  name ← as_str (dict_get o "name") ≫= notnull;
  description ← as_str (dict_get o "description");
  owner_id ← as_int (dict_get o "owner_id") ≫= notnull;
  created_at ← as_datetime (dict_get o "created_at");
  updated_at ← as_datetime (dict_get o "updated_at");
  _ ← references (users db) owner_id;
  Ok {| Workspace.name := name; Workspace.description := description;
        Workspace.owner_id := owner_id;
        Workspace.created_at := default (clock db) created_at;
        Workspace.updated_at := default (clock db) updated_at |}.

Definition Project_insert (db : DB) (o : pydict) : Res Project.t :=
  name ← as_str (dict_get o "name") ≫= notnull;
  description ← as_str (dict_get o "description");
  workspace_id ← as_int (dict_get o "workspace_id") ≫= notnull;
  created_at ← as_datetime (dict_get o "created_at");
  updated_at ← as_datetime (dict_get o "updated_at");
  _ ← references (workspaces db) workspace_id;
  Ok {| Project.name := name; Project.description := description;
        Project.workspace_id := workspace_id;
        Project.created_at := default (clock db) created_at;
        Project.updated_at := default (clock db) updated_at |}.

Definition Task_insert (db : DB) (o : pydict) : Res Task.t :=
  title ← as_str (dict_get o "title") ≫= notnull;
  description ← as_str (dict_get o "description");
  status ← as_status (dict_get o "status");
  priority ← as_priority (dict_get o "priority");
  due_date ← as_datetime (dict_get o "due_date");
  project_id ← as_int (dict_get o "project_id") ≫= notnull;
  assignee_id ← as_int (dict_get o "assignee_id");
  created_by_id ← as_int (dict_get o "created_by_id") ≫= notnull;
  created_at ← as_datetime (dict_get o "created_at");
  updated_at ← as_datetime (dict_get o "updated_at");
  _ ← references (projects db) project_id;
  _ ← references_opt (users db) assignee_id;
  _ ← references (users db) created_by_id;
  Ok {| Task.title := title; Task.description := description;
        Task.status := default TODO status;
        Task.priority := default MEDIUM priority;
        Task.due_date := due_date; Task.project_id := project_id;
        Task.assignee_id := assignee_id; Task.created_by_id := created_by_id;
        Task.created_at := default (clock db) created_at;
        Task.updated_at := default (clock db) updated_at |}.

(** UPDATE of a loaded object: [setattr(obj, k, v)] marks column [k], the
    flush writes the marked columns and checks their constraints.  The keys
    are the fields of an update schema; a name that is not a column is a
    plain Python attribute and writes nothing. *)
Definition Workspace_set (db : DB) (w : Workspace.t) (kv : string * pyval) : Res Workspace.t :=
  let '(k, v) := kv in
  if String.eqb k "name" then
    x ← as_str (Some v) ≫= notnull;
    Ok {| Workspace.name := x; Workspace.description := Workspace.description w;
          Workspace.owner_id := Workspace.owner_id w;
          Workspace.created_at := Workspace.created_at w;
          Workspace.updated_at := Workspace.updated_at w |}
  else if String.eqb k "description" then
    x ← as_str (Some v);
    Ok {| Workspace.name := Workspace.name w; Workspace.description := x;
          Workspace.owner_id := Workspace.owner_id w;
          Workspace.created_at := Workspace.created_at w;
          Workspace.updated_at := Workspace.updated_at w |}
  else Ok w.

Definition Project_set (db : DB) (p : Project.t) (kv : string * pyval) : Res Project.t :=
  let '(k, v) := kv in
  if String.eqb k "name" then
    x ← as_str (Some v) ≫= notnull;
    Ok {| Project.name := x; Project.description := Project.description p;
          Project.workspace_id := Project.workspace_id p;
          Project.created_at := Project.created_at p;
          Project.updated_at := Project.updated_at p |}
  else if String.eqb k "description" then
    x ← as_str (Some v);
    Ok {| Project.name := Project.name p; Project.description := x;
          Project.workspace_id := Project.workspace_id p;
          Project.created_at := Project.created_at p;
          Project.updated_at := Project.updated_at p |}
  else if String.eqb k "workspace_id" then
    x ← as_int (Some v) ≫= notnull;
    _ ← references (workspaces db) x;
    Ok {| Project.name := Project.name p; Project.description := Project.description p;
          Project.workspace_id := x;
          Project.created_at := Project.created_at p;
          Project.updated_at := Project.updated_at p |}
  else Ok p.

Definition Task_set (db : DB) (t : Task.t) (kv : string * pyval) : Res Task.t :=
  let '(k, v) := kv in
  if String.eqb k "title" then
    x ← as_str (Some v) ≫= notnull;
    Ok {| Task.title := x; Task.description := Task.description t;
          Task.status := Task.status t; Task.priority := Task.priority t;
          Task.due_date := Task.due_date t; Task.project_id := Task.project_id t;
          Task.assignee_id := Task.assignee_id t;
          Task.created_by_id := Task.created_by_id t;
          Task.created_at := Task.created_at t;
          Task.updated_at := Task.updated_at t |}
  else if String.eqb k "description" then
    x ← as_str (Some v);
    Ok {| Task.title := Task.title t; Task.description := x;
          Task.status := Task.status t; Task.priority := Task.priority t;
          Task.due_date := Task.due_date t; Task.project_id := Task.project_id t;
          Task.assignee_id := Task.assignee_id t;
          Task.created_by_id := Task.created_by_id t;
          Task.created_at := Task.created_at t;
          Task.updated_at := Task.updated_at t |}
  else if String.eqb k "status" then
    x ← as_status (Some v) ≫= notnull;
    Ok {| Task.title := Task.title t; Task.description := Task.description t;
          Task.status := x; Task.priority := Task.priority t;
          Task.due_date := Task.due_date t; Task.project_id := Task.project_id t;
          Task.assignee_id := Task.assignee_id t;
          Task.created_by_id := Task.created_by_id t;
          Task.created_at := Task.created_at t;
          Task.updated_at := Task.updated_at t |}
  else if String.eqb k "priority" then
    x ← as_priority (Some v) ≫= notnull;
    Ok {| Task.title := Task.title t; Task.description := Task.description t;
          Task.status := Task.status t; Task.priority := x;
          Task.due_date := Task.due_date t; Task.project_id := Task.project_id t;
          Task.assignee_id := Task.assignee_id t;
          Task.created_by_id := Task.created_by_id t;
          Task.created_at := Task.created_at t;
          Task.updated_at := Task.updated_at t |}
  else if String.eqb k "due_date" then
    x ← as_datetime (Some v);
    Ok {| Task.title := Task.title t; Task.description := Task.description t;
          Task.status := Task.status t; Task.priority := Task.priority t;
          Task.due_date := x; Task.project_id := Task.project_id t;
          Task.assignee_id := Task.assignee_id t;
          Task.created_by_id := Task.created_by_id t;
          Task.created_at := Task.created_at t;
          Task.updated_at := Task.updated_at t |}
  else if String.eqb k "project_id" then
    x ← as_int (Some v) ≫= notnull;
    _ ← references (projects db) x;
    Ok {| Task.title := Task.title t; Task.description := Task.description t;
          Task.status := Task.status t; Task.priority := Task.priority t;
          Task.due_date := Task.due_date t; Task.project_id := x;
          Task.assignee_id := Task.assignee_id t;
          Task.created_by_id := Task.created_by_id t;
          Task.created_at := Task.created_at t;
          Task.updated_at := Task.updated_at t |}
  else if String.eqb k "assignee_id" then
    x ← as_int (Some v);
    _ ← references_opt (users db) x;
    Ok {| Task.title := Task.title t; Task.description := Task.description t;
          Task.status := Task.status t; Task.priority := Task.priority t;
          Task.due_date := Task.due_date t; Task.project_id := Task.project_id t;
          Task.assignee_id := x;
          Task.created_by_id := Task.created_by_id t;
          Task.created_at := Task.created_at t;
          Task.updated_at := Task.updated_at t |}
  else Ok t.

(** [for field, value in update_data.items(): setattr(obj, field, value)]
    followed by the flush of [db.commit()]. *)
Fixpoint setattrs {R} (set : R → string * pyval → Res R) (r : R) (update_data : pydict) : Res R :=
  match update_data with
  | [] => Ok r
  | kv :: rest => r' ← set r kv; setattrs set r' rest
  end.

(** The UPDATE of [db.commit()] for a loaded object with the attribute values
    [row]: the flush compares each marked attribute with its loaded value and
    emits an UPDATE only when one has changed; the UPDATE sets [updated_at]
    to [func.now()] ([onupdate]). *)
Definition Workspace_flush (db : DB) (stored row : Workspace.t) : Workspace.t :=
  if bool_decide (row = stored) then stored
  else {| Workspace.name := Workspace.name row;
          Workspace.description := Workspace.description row;
          Workspace.owner_id := Workspace.owner_id row;
          Workspace.created_at := Workspace.created_at row;
          Workspace.updated_at := clock db |}.

Definition Project_flush (db : DB) (stored row : Project.t) : Project.t :=
  if bool_decide (row = stored) then stored
  else {| Project.name := Project.name row;
          Project.description := Project.description row;
          Project.workspace_id := Project.workspace_id row;
          Project.created_at := Project.created_at row;
          Project.updated_at := clock db |}.

Definition Task_flush (db : DB) (stored row : Task.t) : Task.t :=
  if bool_decide (row = stored) then stored
  else {| Task.title := Task.title row; Task.description := Task.description row;
          Task.status := Task.status row; Task.priority := Task.priority row;
          Task.due_date := Task.due_date row; Task.project_id := Task.project_id row;
          Task.assignee_id := Task.assignee_id row;
          Task.created_by_id := Task.created_by_id row;
          Task.created_at := Task.created_at row;
          Task.updated_at := clock db |}.

Global Arguments Workspace_flush : simpl never.
Global Arguments Project_flush : simpl never.
Global Arguments Task_flush : simpl never.

(** [db.delete(project)]: the ORM deletes the rows of the [members]
    association and cascades to the tasks of the project. *)
Definition delete_project_rows (project_id : Z) (db : DB) : DB :=
  {| clock := clock db; users := users db; workspaces := workspaces db;
     workspace_members := workspace_members db;
     projects := delete project_id (projects db);
     project_members := filter (λ r, r.1 ≠ project_id) (project_members db);
     tasks := filter (λ kt, Task.project_id kt.2 ≠ project_id) (tasks db) |}.

(** [db.delete(workspace)]: the same for the workspace, cascading to its
    projects. *)
Definition delete_workspace_rows (workspace_id : Z) (db : DB) : DB :=
  let doomed : list Z :=
    (filter (λ kp, Project.workspace_id kp.2 = workspace_id) (map_to_list (projects db))).*1 in
  let db' := foldr delete_project_rows db doomed in
  {| clock := clock db'; users := users db';
     workspaces := delete workspace_id (workspaces db');
     workspace_members := filter (λ r, r.1 ≠ workspace_id) (workspace_members db');
     projects := projects db'; project_members := project_members db';
     tasks := tasks db' |}.

(** ** Session operations *)

(** [db.query(Model).filter(Model.id == id).first()] *)
Definition first_by_id {A} (tbl : gmap Z A) (id : Z) : option (Z * A) :=
  (λ row, (id, row)) <$> tbl !! id.

Definition with_workspaces (f : gmap Z Workspace.t → gmap Z Workspace.t) (db : DB) : DB :=
  {| clock := clock db; users := users db; workspaces := f (workspaces db);
     workspace_members := workspace_members db; projects := projects db;
     project_members := project_members db; tasks := tasks db |}.
Definition with_workspace_members (f : gset (Z * Z) → gset (Z * Z)) (db : DB) : DB :=
  {| clock := clock db; users := users db; workspaces := workspaces db;
     workspace_members := f (workspace_members db); projects := projects db;
     project_members := project_members db; tasks := tasks db |}.
Definition with_projects (f : gmap Z Project.t → gmap Z Project.t) (db : DB) : DB :=
  {| clock := clock db; users := users db; workspaces := workspaces db;
     workspace_members := workspace_members db; projects := f (projects db);
     project_members := project_members db; tasks := tasks db |}.
Definition with_project_members (f : gset (Z * Z) → gset (Z * Z)) (db : DB) : DB :=
  {| clock := clock db; users := users db; workspaces := workspaces db;
     workspace_members := workspace_members db; projects := projects db;
     project_members := f (project_members db); tasks := tasks db |}.
Definition with_tasks (f : gmap Z Task.t → gmap Z Task.t) (db : DB) : DB :=
  {| clock := clock db; users := users db; workspaces := workspaces db;
     workspace_members := workspace_members db; projects := projects db;
     project_members := project_members db; tasks := f (tasks db) |}.

(** [db.add(obj); db.commit(); db.refresh(obj)] for a new object. *)
Definition add_workspace (o : pydict) : M (Z * Workspace.t) :=
  db ← session;
  row ← lift (Workspace_insert db o);
  let id := next_id (workspaces db) in
  _ ← commit (with_workspaces <[id := row]>);
  mret (id, row).

Definition add_task (o : pydict) : M (Z * Task.t) :=
  db ← session;
  row ← lift (Task_insert db o);
  let id := next_id (tasks db) in
  _ ← commit (with_tasks <[id := row]>);
  mret (id, row).

Definition add_project (o : pydict) : M (Z * Project.t) :=
  db ← session;
  row ← lift (Project_insert db o);
  let id := next_id (projects db) in
  _ ← commit (with_projects <[id := row]>);
  mret (id, row).

(** ** Services ([app/services]) *)

Module WorkspaceService.

Definition get_workspace (db : DB) (workspace_id : Z) : option (Z * Workspace.t) :=
  first_by_id (workspaces db) workspace_id.

(** The inner join of [workspaces] with [workspace_members], the
    owner-or-member filter on the joined rows, then DISTINCT on the
    workspace columns. *)
Definition get_workspaces_by_user (db : DB) (user_id skip limit : Z)
  : Res (list (Z * Workspace.t)) :=
  let joined : list ((Z * Workspace.t) * (Z * Z)) :=
    w ← map_to_list (workspaces db);
    r ← elements (workspace_members db);
    if bool_decide (w.1 = r.1) then [(w, r)] else [] in
  let filtered :=
    filter (λ wr, Workspace.owner_id wr.1.2 = user_id ∨ wr.2.2 = user_id) joined in
  offset_limit skip limit (remove_dups (filtered.*1)).

Definition get_all_workspaces (db : DB) (skip limit : Z) : Res (list (Z * Workspace.t)) :=
  offset_limit skip limit (map_to_list (workspaces db)).

Definition add_member (workspace_id user_id : Z) : M bool :=
  db ← session;
  match first_by_id (workspaces db) workspace_id with
  | None => mret false
  | Some workspace =>
    match first_by_id (users db) user_id with
    | None => mret false
    | Some user =>
      let existing_member := bool_decide ((workspace_id, user_id) ∈ workspace_members db) in
      if existing_member then mret true
      else
        _ ← commit (with_workspace_members (λ rows, {[ (workspace_id, user_id) ]} ∪ rows));
        mret true
    end
  end.

Definition create_workspace (workspace : WorkspaceCreate.t) (owner_id : Z)
  : M (Z * Workspace.t) :=
  o ← lift (declarative_init Workspace.attributes
              [("name", PStr (WorkspaceCreate.name workspace));
               ("description", py_opt PStr (WorkspaceCreate.description workspace));
               ("owner_id", PInt owner_id)]%string);
  db_workspace ← add_workspace o;
  (* Add owner as a member *)
  _ ← add_member db_workspace.1 owner_id;
  mret db_workspace.

Definition remove_member (workspace_id user_id : Z) : M bool :=
  db ← session;
  let rowcount_pos := bool_decide ((workspace_id, user_id) ∈ workspace_members db) in
  _ ← commit (with_workspace_members (λ rows, rows ∖ {[ (workspace_id, user_id) ]}));
  mret rowcount_pos.

Definition is_member (db : DB) (workspace_id user_id : Z) : bool :=
  bool_decide ((workspace_id, user_id) ∈ workspace_members db).

(** [workspace and workspace.owner_id == user_id], as a truth value. *)
Definition is_owner (db : DB) (workspace_id user_id : Z) : bool :=
  match first_by_id (workspaces db) workspace_id with
  | Some workspace => bool_decide (Workspace.owner_id workspace.2 = user_id)
  | None => false
  end.

Definition has_access (db : DB) (workspace_id user_id : Z) : bool :=
  is_owner db workspace_id user_id || is_member db workspace_id user_id.

Definition update_workspace (workspace_id : Z) (workspace_update : WorkspaceUpdate.t)
  : M (option (Z * Workspace.t)) :=
  db ← session;
  match first_by_id (workspaces db) workspace_id with
  | None => mret None
  | Some db_workspace =>
    let update_data := WorkspaceUpdate.dict_exclude_unset workspace_update in
    row ← lift (setattrs (Workspace_set db) db_workspace.2 update_data);
    let row := Workspace_flush db db_workspace.2 row in
    _ ← commit (with_workspaces <[workspace_id := row]>);
    mret (Some (workspace_id, row))
  end.

Definition delete_workspace (workspace_id : Z) : M bool :=
  db ← session;
  match first_by_id (workspaces db) workspace_id with
  | None => mret false
  | Some db_workspace =>
    _ ← commit (delete_workspace_rows workspace_id);
    mret true
  end.

End WorkspaceService.

Module ProjectService.

Definition get_project (db : DB) (project_id : Z) : option (Z * Project.t) :=
  first_by_id (projects db) project_id.

(** The inner join of [projects] with [project_members] filtered on the
    member. *)
Definition get_projects_by_user (db : DB) (user_id skip limit : Z)
  : Res (list (Z * Project.t)) :=
  let joined : list ((Z * Project.t) * (Z * Z)) :=
    p ← map_to_list (projects db);
    r ← elements (project_members db);
    if bool_decide (p.1 = r.1) then [(p, r)] else [] in
  offset_limit skip limit ((filter (λ pr, pr.2.2 = user_id) joined).*1).

Definition is_member (db : DB) (project_id user_id : Z) : bool :=
  bool_decide ((project_id, user_id) ∈ project_members db).

Definition has_access (db : DB) (project_id user_id : Z) : bool :=
  match first_by_id (projects db) project_id with
  | None => false
  | Some project =>
    is_member db project_id user_id
    || WorkspaceService.has_access db (Project.workspace_id project.2) user_id
  end.

Definition add_member (project_id user_id : Z) : M bool :=
  db ← session;
  match first_by_id (projects db) project_id with
  | None => mret false
  | Some project =>
    match first_by_id (users db) user_id with
    | None => mret false
    | Some user =>
      if negb (WorkspaceService.has_access db (Project.workspace_id project.2) user_id)
      then mret false
      else
        let existing_member := bool_decide ((project_id, user_id) ∈ project_members db) in
        if existing_member then mret true
        else
          _ ← commit (with_project_members (λ rows, {[ (project_id, user_id) ]} ∪ rows));
          mret true
    end
  end.

Definition remove_member (project_id user_id : Z) : M bool :=
  db ← session;
  let rowcount_pos := bool_decide ((project_id, user_id) ∈ project_members db) in
  _ ← commit (with_project_members (λ rows, rows ∖ {[ (project_id, user_id) ]}));
  mret rowcount_pos.

Definition get_projects_by_workspace (db : DB) (workspace_id skip limit : Z)
  : Res (list (Z * Project.t)) :=
  offset_limit skip limit
    (filter (λ p, Project.workspace_id p.2 = workspace_id) (map_to_list (projects db))).

Definition get_all_projects (db : DB) (skip limit : Z) : Res (list (Z * Project.t)) :=
  offset_limit skip limit (map_to_list (projects db)).

Definition create_project (project : ProjectCreate.t) (workspace_id creator_id : Z)
  : M (option (Z * Project.t)) :=
  db ← session;
  if negb (WorkspaceService.has_access db workspace_id creator_id) then mret None
  else
    o ← lift (declarative_init Project.attributes
                [("name", PStr (ProjectCreate.name project));
                 ("description", py_opt PStr (ProjectCreate.description project));
                 ("workspace_id", PInt workspace_id)]%string);
    db_project ← add_project o;
    (* Add creator as a member *)
    _ ← add_member db_project.1 creator_id;
    mret (Some db_project).

Definition update_project (project_id : Z) (project_update : ProjectUpdate.t)
  : M (option (Z * Project.t)) :=
  db ← session;
  match first_by_id (projects db) project_id with
  | None => mret None
  | Some db_project =>
    let update_data := ProjectUpdate.dict_exclude_unset project_update in
    row ← lift (setattrs (Project_set db) db_project.2 update_data);
    let row := Project_flush db db_project.2 row in
    _ ← commit (with_projects <[project_id := row]>);
    mret (Some (project_id, row))
  end.

Definition delete_project (project_id : Z) : M bool :=
  db ← session;
  match first_by_id (projects db) project_id with
  | None => mret false
  | Some db_project =>
    _ ← commit (delete_project_rows project_id);
    mret true
  end.

End ProjectService.

Module TaskService.

Definition get_task (db : DB) (task_id : Z) : option (Z * Task.t) :=
  first_by_id (tasks db) task_id.

(** [if status: query = query.filter(Task.status == status)] *)
Definition status_filter (status : option TaskStatus) (t : Z * Task.t) : bool :=
  match status with Some s => bool_decide (Task.status t.2 = s) | None => true end.

(** [get_projects_by_user] is called with its default window (0, 100). *)
Definition get_tasks_by_user_access (db : DB) (user_id : Z) (status : option TaskStatus)
    (skip limit : Z) : Res (list (Z * Task.t)) :=
  user_projects ← ProjectService.get_projects_by_user db user_id 0 100;
  let project_ids := user_projects.*1 in
  match project_ids with
  | [] => Ok []
  | _ =>
    offset_limit skip limit
      (filter (λ t, status_filter status t = true)
         (filter (λ t, Task.project_id t.2 ∈ project_ids) (map_to_list (tasks db))))
  end.

Definition has_access (db : DB) (task_id user_id : Z) : bool :=
  match first_by_id (tasks db) task_id with
  | None => false
  | Some task => ProjectService.has_access db (Task.project_id task.2) user_id
  end.

Definition create_task (task : TaskCreate.t) (project_id creator_id : Z)
  : M (option (Z * Task.t)) :=
  db ← session;
  let construct : M (option (Z * Task.t)) :=
    o ← lift (declarative_init Task.attributes
                [("title", PStr (TaskCreate.title task));
                 ("description", py_opt PStr (TaskCreate.description task));
                 ("status", PStatus (default TODO (TaskCreate.status task)));
                 ("priority", PPriority (default MEDIUM (TaskCreate.priority task)));
                 ("due_date", py_opt PDateTime (TaskCreate.due_date task));
                 ("project_id", PInt project_id);
                 ("assignee_id", py_opt PInt (TaskCreate.assignee_id task));
                 ("creator_id", PInt creator_id)]%string);
    db_task ← add_task o;
    mret (Some db_task) in
  if negb (ProjectService.has_access db project_id creator_id) then mret None
  else
    match truthy_int (TaskCreate.assignee_id task) with
    | Some assignee_id =>
      match first_by_id (users db) assignee_id with
      | None => mret None
      | Some assignee =>
        if negb (ProjectService.has_access db project_id assignee_id) then mret None
        else construct
      end
    | None => construct
    end.

Definition update_task (task_id : Z) (task_update : TaskUpdate.t) (user_id : Z)
  : M (option (Z * Task.t)) :=
  db ← session;
  match first_by_id (tasks db) task_id with
  | None => mret None
  | Some db_task =>
    let update_data := TaskUpdate.dict_exclude_unset task_update in
    let apply : M (option (Z * Task.t)) :=
      row ← lift (setattrs (Task_set db) db_task.2 update_data);
      let row := Task_flush db db_task.2 row in
      _ ← commit (with_tasks <[task_id := row]>);
      mret (Some (task_id, row)) in
    if negb (ProjectService.has_access db (Task.project_id db_task.2) user_id)
    then mret None
    else
      (* "assignee_id" in update_data and update_data["assignee_id"] *)
      match truthy_int (field_value (TaskUpdate.assignee_id task_update)) with
      | Some assignee_id =>
        match first_by_id (users db) assignee_id with
        | None => mret None
        | Some assignee =>
          if negb (ProjectService.has_access db (Task.project_id db_task.2) assignee_id)
          then mret None
          else apply
        end
      | None => apply
      end
  end.

Definition delete_task (task_id user_id : Z) : M bool :=
  db ← session;
  match first_by_id (tasks db) task_id with
  | None => mret false
  | Some db_task =>
    if negb (ProjectService.has_access db (Task.project_id db_task.2) user_id)
    then mret false
    else
      _ ← commit (with_tasks (delete task_id));
      mret true
  end.

Definition get_tasks_by_project (db : DB) (project_id : Z) (status : option TaskStatus)
    (assignee_id : option Z) (skip limit : Z) : Res (list (Z * Task.t)) :=
  let query := filter (λ t, Task.project_id t.2 = project_id) (map_to_list (tasks db)) in
  let query := filter (λ t, status_filter status t = true) query in
  let query :=
    match truthy_int assignee_id with
    | Some a => filter (λ t, Task.assignee_id t.2 = Some a) query
    | None => query
    end in
  offset_limit skip limit query.

Definition get_tasks_by_assignee (db : DB) (assignee_id : Z) (status : option TaskStatus)
    (skip limit : Z) : Res (list (Z * Task.t)) :=
  let query := filter (λ t, Task.assignee_id t.2 = Some assignee_id) (map_to_list (tasks db)) in
  offset_limit skip limit (filter (λ t, status_filter status t = true) query).

Definition get_all_tasks (db : DB) (status : option TaskStatus) (skip limit : Z)
  : Res (list (Z * Task.t)) :=
  offset_limit skip limit
    (filter (λ t, status_filter status t = true) (map_to_list (tasks db))).

Definition update_task_status (task_id : Z) (status : TaskStatus) (user_id : Z)
  : M (option (Z * Task.t)) :=
  db ← session;
  match first_by_id (tasks db) task_id with
  | None => mret None
  | Some db_task =>
    if negb (ProjectService.has_access db (Task.project_id db_task.2) user_id)
    then mret None
    else
      (* db_task.status = status *)
      row ← lift (Task_set db db_task.2 ("status"%string, PStatus status));
      let row := Task_flush db db_task.2 row in
      _ ← commit (with_tasks <[task_id := row]>);
      mret (Some (task_id, row))
  end.

End TaskService.

(** ** Helpers ([app/utils/helpers.py]) *)

Definition paginate_query_params (skip limit : Z) : Z * Z :=
  (* Ensure skip is non-negative *)
  let skip := Z.max 0 skip in
  (* Ensure limit is within reasonable bounds *)
  let limit := Z.max 1 (Z.min limit 1000) in
  (skip, limit).

(** ** Route handlers ([app/api/routes]) *)

Definition forbidden : Exn := HTTPException 403 "Not enough permissions".

Module WorkspacesRouter.

Definition read_workspaces (skip limit : Z) (current_user : Z * User.t)
  : M (list (Z * Workspace.t)) :=
  db ← session;
  if User.is_superuser current_user.2 then
    lift (offset_limit skip limit (map_to_list (workspaces db)))
  else
    lift (offset_limit skip limit
            (filter (λ w, Workspace.owner_id w.2 = current_user.1
                          ∨ in_members (workspace_members db) db w.1 current_user.1 = true)
               (map_to_list (workspaces db)))).

Definition create_workspace (workspace_in : WorkspaceCreate.t) (current_user : Z * User.t)
  : M (Z * Workspace.t) :=
  o ← lift (declarative_init Workspace.attributes
              (WorkspaceCreate.dict workspace_in ++ [("owner_id", PInt current_user.1)]%string));
  add_workspace o.

Definition read_workspace (workspace_id : Z) (current_user : Z * User.t)
  : M (Z * Workspace.t) :=
  db ← session;
  workspace ← first_or_404 (first_by_id (workspaces db) workspace_id) "Workspace not found";
  _ ← require (User.is_superuser current_user.2
               || bool_decide (Workspace.owner_id workspace.2 = current_user.1)
               || in_members (workspace_members db) db workspace.1 current_user.1)
        403 "Not enough permissions";
  mret workspace.

Definition update_workspace (workspace_id : Z) (workspace_in : WorkspaceUpdate.t)
    (current_user : Z * User.t) : M (Z * Workspace.t) :=
  db ← session;
  workspace ← first_or_404 (first_by_id (workspaces db) workspace_id) "Workspace not found";
  _ ← require (User.is_superuser current_user.2
               || bool_decide (Workspace.owner_id workspace.2 = current_user.1))
        403 "Not enough permissions";
  let update_data := WorkspaceUpdate.dict_exclude_unset workspace_in in
  row ← lift (setattrs (Workspace_set db) workspace.2 update_data);
  let row := Workspace_flush db workspace.2 row in
  _ ← commit (with_workspaces <[workspace_id := row]>);
  mret (workspace_id, row).

Definition delete_workspace (workspace_id : Z) (current_user : Z * User.t)
  : M (Z * Workspace.t) :=
  db ← session;
  workspace ← first_or_404 (first_by_id (workspaces db) workspace_id) "Workspace not found";
  _ ← require (User.is_superuser current_user.2
               || bool_decide (Workspace.owner_id workspace.2 = current_user.1))
        403 "Not enough permissions";
  _ ← commit (delete_workspace_rows workspace_id);
  mret workspace.

Definition add_workspace_member (workspace_id user_id : Z) (current_user : Z * User.t)
  : M (Z * Workspace.t) :=
  db ← session;
  workspace ← first_or_404 (first_by_id (workspaces db) workspace_id) "Workspace not found";
  _ ← require (User.is_superuser current_user.2
               || bool_decide (Workspace.owner_id workspace.2 = current_user.1))
        403 "Not enough permissions";
  user ← first_or_404 (first_by_id (users db) user_id) "User not found";
  _ ← require (negb (in_members (workspace_members db) db workspace.1 user.1))
        400 "User already in workspace";
  _ ← commit (with_workspace_members (λ rows, {[ (workspace.1, user.1) ]} ∪ rows));
  mret workspace.

Definition remove_workspace_member (workspace_id user_id : Z) (current_user : Z * User.t)
  : M (Z * Workspace.t) :=
  db ← session;
  workspace ← first_or_404 (first_by_id (workspaces db) workspace_id) "Workspace not found";
  _ ← require (User.is_superuser current_user.2
               || bool_decide (Workspace.owner_id workspace.2 = current_user.1))
        403 "Not enough permissions";
  user ← first_or_404 (first_by_id (users db) user_id) "User not found";
  _ ← require (in_members (workspace_members db) db workspace.1 user.1)
        400 "User not in workspace";
  _ ← commit (with_workspace_members (λ rows, rows ∖ {[ (workspace.1, user.1) ]}));
  mret workspace.

End WorkspacesRouter.

Module ProjectsRouter.

(** [if workspace_id: query = query.filter(Project.workspace_id == workspace_id)] *)
Definition workspace_filter (workspace_id : option Z) (p : Z * Project.t) : bool :=
  match truthy_int workspace_id with
  | Some w => bool_decide (Project.workspace_id p.2 = w)
  | None => true
  end.

Definition read_projects (skip limit : Z) (workspace_id : option Z)
    (current_user : Z * User.t) : M (list (Z * Project.t)) :=
  db ← session;
  if User.is_superuser current_user.2 then
    lift (offset_limit skip limit
            (filter (λ p, workspace_filter workspace_id p = true)
               (map_to_list (projects db))))
  else
    let joined : list ((Z * Project.t) * (Z * Workspace.t)) :=
      p ← map_to_list (projects db);
      match first_by_id (workspaces db) (Project.workspace_id p.2) with
      | Some w => [(p, w)]
      | None => []
      end in
    let visible :=
      filter (λ pw, in_members (project_members db) db pw.1.1 current_user.1 = true
                    ∨ Workspace.owner_id pw.2.2 = current_user.1
                    ∨ in_members (workspace_members db) db pw.2.1 current_user.1 = true)
        joined in
    lift (offset_limit skip limit
            (filter (λ p, workspace_filter workspace_id p = true) (visible.*1))).

Definition create_project (project_in : ProjectCreate.t) (current_user : Z * User.t)
  : M (Z * Project.t) :=
  db ← session;
  workspace ← first_or_404 (first_by_id (workspaces db) (ProjectCreate.workspace_id project_in))
                "Workspace not found";
  _ ← require (User.is_superuser current_user.2
               || bool_decide (Workspace.owner_id workspace.2 = current_user.1)
               || in_members (workspace_members db) db workspace.1 current_user.1)
        403 "Not enough permissions";
  o ← lift (declarative_init Project.attributes (ProjectCreate.dict project_in));
  row ← lift (Project_insert db o);
  (* project.members.append(current_user): add creator as a member *)
  _ ← lift (references (users db) current_user.1);
  let id := next_id (projects db) in
  _ ← commit (λ db, with_project_members (λ rows, {[ (id, current_user.1) ]} ∪ rows)
                      (with_projects <[id := row]> db));
  mret (id, row).

Definition read_project (project_id : Z) (current_user : Z * User.t) : M (Z * Project.t) :=
  db ← session;
  project ← first_or_404 (first_by_id (projects db) project_id) "Project not found";
  let workspace := first_by_id (workspaces db) (Project.workspace_id project.2) in
  allowed ← lift (Ok (User.is_superuser current_user.2)
                  ||| attr workspace (λ w, bool_decide (Workspace.owner_id w.2 = current_user.1))
                  ||| attr workspace (λ w, in_members (workspace_members db) db w.1 current_user.1)
                  ||| Ok (in_members (project_members db) db project.1 current_user.1));
  _ ← require allowed 403 "Not enough permissions";
  mret project.

Definition update_project (project_id : Z) (project_in : ProjectUpdate.t)
    (current_user : Z * User.t) : M (Z * Project.t) :=
  db ← session;
  project ← first_or_404 (first_by_id (projects db) project_id) "Project not found";
  let workspace := first_by_id (workspaces db) (Project.workspace_id project.2) in
  allowed ← lift (Ok (User.is_superuser current_user.2)
                  ||| attr workspace (λ w, bool_decide (Workspace.owner_id w.2 = current_user.1)));
  _ ← require allowed 403 "Not enough permissions";
  let update_data := ProjectUpdate.dict_exclude_unset project_in in
  row ← lift (setattrs (Project_set db) project.2 update_data);
  let row := Project_flush db project.2 row in
  _ ← commit (with_projects <[project_id := row]>);
  mret (project_id, row).

Definition delete_project (project_id : Z) (current_user : Z * User.t) : M (Z * Project.t) :=
  db ← session;
  project ← first_or_404 (first_by_id (projects db) project_id) "Project not found";
  let workspace := first_by_id (workspaces db) (Project.workspace_id project.2) in
  allowed ← lift (Ok (User.is_superuser current_user.2)
                  ||| attr workspace (λ w, bool_decide (Workspace.owner_id w.2 = current_user.1)));
  _ ← require allowed 403 "Not enough permissions";
  _ ← commit (delete_project_rows project_id);
  mret project.

Definition add_project_member (project_id user_id : Z) (current_user : Z * User.t)
  : M (Z * Project.t) :=
  db ← session;
  project ← first_or_404 (first_by_id (projects db) project_id) "Project not found";
  let workspace := first_by_id (workspaces db) (Project.workspace_id project.2) in
  allowed ← lift (Ok (User.is_superuser current_user.2)
                  ||| attr workspace (λ w, bool_decide (Workspace.owner_id w.2 = current_user.1)));
  _ ← require allowed 403 "Not enough permissions";
  user ← first_or_404 (first_by_id (users db) user_id) "User not found";
  _ ← require (negb (in_members (project_members db) db project.1 user.1))
        400 "User already in project";
  _ ← commit (with_project_members (λ rows, {[ (project.1, user.1) ]} ∪ rows));
  mret project.

Definition remove_project_member (project_id user_id : Z) (current_user : Z * User.t)
  : M (Z * Project.t) :=
  db ← session;
  project ← first_or_404 (first_by_id (projects db) project_id) "Project not found";
  let workspace := first_by_id (workspaces db) (Project.workspace_id project.2) in
  allowed ← lift (Ok (User.is_superuser current_user.2)
                  ||| attr workspace (λ w, bool_decide (Workspace.owner_id w.2 = current_user.1)));
  _ ← require allowed 403 "Not enough permissions";
  user ← first_or_404 (first_by_id (users db) user_id) "User not found";
  _ ← require (in_members (project_members db) db project.1 user.1)
        400 "User not in project";
  _ ← commit (with_project_members (λ rows, rows ∖ {[ (project.1, user.1) ]}));
  mret project.

End ProjectsRouter.

Module TasksRouter.

(** The explicit filters of [read_tasks]; each applies when its parameter
    is true as a Python value. *)
Definition explicit_filters (project_id : option Z) (status : option TaskStatus)
    (assignee_id : option Z) (t : Z * Task.t) : bool :=
  match truthy_int project_id with
  | Some p => bool_decide (Task.project_id t.2 = p)
  | None => true
  end
  && match status with
     | Some s => bool_decide (Task.status t.2 = s)
     | None => true
     end
  && match truthy_int assignee_id with
     | Some a => bool_decide (Task.assignee_id t.2 = Some a)
     | None => true
     end.

(** [query.join(Project).join(Workspace)]: the inner joins along the
    foreign keys [project_id] and [workspace_id]. *)
Definition join_project_workspace (db : DB) (rows : list (Z * Task.t))
  : list ((Z * Task.t) * (Z * Project.t) * (Z * Workspace.t)) :=
  t ← rows;
  match first_by_id (projects db) (Task.project_id t.2) with
  | Some p =>
    match first_by_id (workspaces db) (Project.workspace_id p.2) with
    | Some w => [(t, p, w)]
    | None => []
    end
  | None => []
  end.

(** The access filter of [read_tasks] on a joined row. *)
Definition access_filter (db : DB) (uid : Z)
    (tpw : (Z * Task.t) * (Z * Project.t) * (Z * Workspace.t)) : bool :=
  let '(t, p, w) := tpw in
  opt_eqb (Task.assignee_id t.2) uid
  || bool_decide (Task.created_by_id t.2 = uid)
  || in_members (project_members db) db p.1 uid
  || bool_decide (Workspace.owner_id w.2 = uid)
  || in_members (workspace_members db) db w.1 uid.

Definition read_tasks (skip limit : Z) (project_id : option Z) (status : option TaskStatus)
    (assignee_id : option Z) (current_user : Z * User.t) : M (list (Z * Task.t)) :=
  db ← session;
  let query :=
    filter (λ t, explicit_filters project_id status assignee_id t = true)
      (map_to_list (tasks db)) in
  if negb (User.is_superuser current_user.2) then
    lift (offset_limit skip limit
            ((filter (λ tpw, access_filter db current_user.1 tpw = true)
                (join_project_workspace db query)).*1.*1))
  else lift (offset_limit skip limit query).

Definition create_task (task_in : TaskCreate.t) (current_user : Z * User.t)
  : M (Z * Task.t) :=
  db ← session;
  project ← first_or_404 (first_by_id (projects db) (TaskCreate.project_id task_in))
              "Project not found";
  let workspace := first_by_id (workspaces db) (Project.workspace_id project.2) in
  allowed ← lift (Ok (User.is_superuser current_user.2)
                  ||| attr workspace (λ w, bool_decide (Workspace.owner_id w.2 = current_user.1))
                  ||| attr workspace (λ w, in_members (workspace_members db) db w.1 current_user.1)
                  ||| Ok (in_members (project_members db) db project.1 current_user.1));
  _ ← require allowed 403 "Not enough permissions";
  _ ← match truthy_int (TaskCreate.assignee_id task_in) with
      | Some assignee_id =>
        assignee ← first_or_404 (first_by_id (users db) assignee_id) "Assignee not found";
        rejected ← lift (Ok (negb (in_members (project_members db) db project.1 assignee.1))
                         &&& attr workspace (λ w, obj_ne assignee (owner db w.2))
                         &&& attr workspace
                               (λ w, negb (in_members (workspace_members db) db w.1 assignee.1)));
        require (negb rejected) 400 "Assignee must be a member of the project or workspace"
      | None => mret ()
      end;
  o ← lift (declarative_init Task.attributes
              (TaskCreate.dict task_in ++ [("created_by_id", PInt current_user.1)]%string));
  add_task o.

Definition read_task (task_id : Z) (current_user : Z * User.t) : M (Z * Task.t) :=
  db ← session;
  task ← first_or_404 (first_by_id (tasks db) task_id) "Task not found";
  let project := first_by_id (projects db) (Task.project_id task.2) in
  project_workspace_id ← lift (attr project (λ p, Project.workspace_id p.2));
  let workspace := first_by_id (workspaces db) project_workspace_id in
  allowed ← lift (Ok (User.is_superuser current_user.2)
                  ||| attr workspace (λ w, bool_decide (Workspace.owner_id w.2 = current_user.1))
                  ||| attr workspace (λ w, in_members (workspace_members db) db w.1 current_user.1)
                  ||| attr project (λ p, in_members (project_members db) db p.1 current_user.1)
                  ||| Ok (opt_eqb (Task.assignee_id task.2) current_user.1)
                  ||| Ok (bool_decide (Task.created_by_id task.2 = current_user.1)));
  _ ← require allowed 403 "Not enough permissions";
  mret task.

Definition update_task (task_id : Z) (task_in : TaskUpdate.t) (current_user : Z * User.t)
  : M (Z * Task.t) :=
  db ← session;
  task ← first_or_404 (first_by_id (tasks db) task_id) "Task not found";
  let project := first_by_id (projects db) (Task.project_id task.2) in
  project_workspace_id ← lift (attr project (λ p, Project.workspace_id p.2));
  let workspace := first_by_id (workspaces db) project_workspace_id in
  allowed ← lift (Ok (User.is_superuser current_user.2)
                  ||| attr workspace (λ w, bool_decide (Workspace.owner_id w.2 = current_user.1))
                  ||| Ok (bool_decide (Task.created_by_id task.2 = current_user.1))
                  ||| Ok (opt_eqb (Task.assignee_id task.2) current_user.1));
  _ ← require allowed 403 "Not enough permissions";
  _ ← match truthy_int (field_value (TaskUpdate.assignee_id task_in)) with
      | Some assignee_id =>
        if bool_decide (Some assignee_id ≠ Task.assignee_id task.2) then
          assignee ← first_or_404 (first_by_id (users db) assignee_id) "Assignee not found";
          rejected ← lift (attr project
                             (λ p, negb (in_members (project_members db) db p.1 assignee.1))
                           &&& attr workspace (λ w, obj_ne assignee (owner db w.2))
                           &&& attr workspace
                                 (λ w, negb (in_members (workspace_members db) db w.1 assignee.1)));
          require (negb rejected) 400 "Assignee must be a member of the project or workspace"
        else mret ()
      | None => mret ()
      end;
  let update_data := TaskUpdate.dict_exclude_unset task_in in
  row ← lift (setattrs (Task_set db) task.2 update_data);
  let row := Task_flush db task.2 row in
  _ ← commit (with_tasks <[task_id := row]>);
  mret (task_id, row).

Definition delete_task (task_id : Z) (current_user : Z * User.t) : M (Z * Task.t) :=
  db ← session;
  task ← first_or_404 (first_by_id (tasks db) task_id) "Task not found";
  let project := first_by_id (projects db) (Task.project_id task.2) in
  project_workspace_id ← lift (attr project (λ p, Project.workspace_id p.2));
  let workspace := first_by_id (workspaces db) project_workspace_id in
  allowed ← lift (Ok (User.is_superuser current_user.2)
                  ||| attr workspace (λ w, bool_decide (Workspace.owner_id w.2 = current_user.1))
                  ||| Ok (bool_decide (Task.created_by_id task.2 = current_user.1)));
  _ ← require allowed 403 "Not enough permissions";
  _ ← commit (with_tasks (delete task_id));
  mret task.

End TasksRouter.

(** ** Sample database

    The clock reads 5.  Users 1 (owner of workspace 1), 2, 3 and the
    superuser 9.  Workspace 1
    has the single member 1; project 1 of workspace 1 has the single member
    1; task 1 of project 1 was created by 1 and is assigned to 2. *)

Definition plain : User.t := {| User.is_superuser := false |}.
Definition super : User.t := {| User.is_superuser := true |}.

Definition sample_task : Task.t :=
  {| Task.title := "Write report"; Task.description := None;
     Task.status := TODO; Task.priority := HIGH; Task.due_date := None;
     Task.project_id := 1; Task.assignee_id := Some 2; Task.created_by_id := 1;
     Task.created_at := 0; Task.updated_at := 0 |}.

Definition sample_db : DB :=
  {| clock := 5;
     users := {[ 1 := plain; 2 := plain; 3 := plain; 9 := super ]};
     workspaces := {[ 1 := {| Workspace.name := "W"; Workspace.description := None;
                             Workspace.owner_id := 1; Workspace.created_at := 0;
                             Workspace.updated_at := 0 |} ]};
     workspace_members := {[ (1, 1) ]};
     projects := {[ 1 := {| Project.name := "P"; Project.description := None;
                           Project.workspace_id := 1; Project.created_at := 0;
                           Project.updated_at := 0 |} ]};
     project_members := {[ (1, 1) ]};
     tasks := {[ 1 := sample_task ]} |}.

(** The partial update whose payload holds the status field alone, with the
    value [v] ([None] for an explicit null). *)
Definition only_status (v : option TaskStatus) : TaskUpdate.t :=
  {| TaskUpdate.title := None; TaskUpdate.description := None;
     TaskUpdate.status := Some v; TaskUpdate.priority := None;
     TaskUpdate.due_date := None; TaskUpdate.project_id := None;
     TaskUpdate.assignee_id := None |}.

Definition sample_task_in (assignee_id : option Z) : TaskCreate.t :=
  {| TaskCreate.title := "Review"; TaskCreate.description := None;
     TaskCreate.status := None; TaskCreate.priority := None;
     TaskCreate.due_date := None; TaskCreate.project_id := 1;
     TaskCreate.assignee_id := assignee_id |}.

Definition sample_workspace_in : WorkspaceCreate.t :=
  {| WorkspaceCreate.name := "Second"; WorkspaceCreate.description := None |}.

(** The object layer raises [TypeError], [IntegrityError] or [DataError],
    never an [HTTPException]: only the handlers answer with a status code. *)
Definition no_http {A} (r : Res A) : Prop :=
  ∀ status_code detail, r ≠ Raise (HTTPException status_code detail).

(** The sample database after the owner has added user 3 to project 1
    through the projects router: user 3 is a member of the project and has
    no access to workspace 1. *)
Definition stray_member_db : DB :=
  (ProjectsRouter.add_project_member 1 3 (1, plain) sample_db).2.

(** The sample database with 1001 workspaces, all owned by user 1. *)
Definition crowded_db : DB :=
  with_workspaces
    (λ _, list_to_map
            ((λ i, (Z.of_nat i,
                    {| Workspace.name := "W"; Workspace.description := None;
                       Workspace.owner_id := 1; Workspace.created_at := 0;
                       Workspace.updated_at := 0 |})) <$> seq 1 1001))
    sample_db.

(** The sample database after user 2 has created a workspace through the
    workspaces router: workspace 2 is owned by user 2 and has no member. *)
Definition memberless_db : DB :=
  (WorkspacesRouter.create_workspace sample_workspace_in (2, plain) sample_db).2.

(** ** Referential integrity

    The foreign keys declared by the models ([app/models]): every reference
    of a stored row points to a stored row. *)
Record referential_integrity (db : DB) : Prop := {
  ri_workspace_owner :
    map_Forall (λ _ w, is_Some (users db !! Workspace.owner_id w)) (workspaces db);
  ri_workspace_members :
    set_Forall (λ r, is_Some (workspaces db !! r.1) ∧ is_Some (users db !! r.2))
      (workspace_members db);
  ri_project_workspace :
    map_Forall (λ _ p, is_Some (workspaces db !! Project.workspace_id p)) (projects db);
  ri_project_members :
    set_Forall (λ r, is_Some (projects db !! r.1) ∧ is_Some (users db !! r.2))
      (project_members db);
  ri_task_project :
    map_Forall (λ _ t, is_Some (projects db !! Task.project_id t)) (tasks db);
  ri_task_assignee :
    map_Forall (λ _ t, ∀ a, Task.assignee_id t = Some a → is_Some (users db !! a))
      (tasks db);
  ri_task_created_by :
    map_Forall (λ _ t, is_Some (users db !! Task.created_by_id t)) (tasks db);
}.

(** ** Requests

    The requests that the three routers serve, one constructor per handler,
    and the database a request leaves behind. *)
Inductive Request :=
  | Read_workspaces (skip limit : Z)
  | Create_workspace (workspace_in : WorkspaceCreate.t)
  | Read_workspace (workspace_id : Z)
  | Update_workspace (workspace_id : Z) (workspace_in : WorkspaceUpdate.t)
  | Delete_workspace (workspace_id : Z)
  | Add_workspace_member (workspace_id user_id : Z)
  | Remove_workspace_member (workspace_id user_id : Z)
  | Read_projects (skip limit : Z) (workspace_id : option Z)
  | Create_project (project_in : ProjectCreate.t)
  | Read_project (project_id : Z)
  | Update_project (project_id : Z) (project_in : ProjectUpdate.t)
  | Delete_project (project_id : Z)
  | Add_project_member (project_id user_id : Z)
  | Remove_project_member (project_id user_id : Z)
  | Read_tasks (skip limit : Z) (project_id : option Z) (status : option TaskStatus)
      (assignee_id : option Z)
  | Create_task (task_in : TaskCreate.t)
  | Read_task (task_id : Z)
  | Update_task (task_id : Z) (task_in : TaskUpdate.t)
  | Delete_task (task_id : Z).

Definition handle (current_user : Z * User.t) (r : Request) (db : DB) : DB :=
  match r with
  | Read_workspaces skip limit =>
    (WorkspacesRouter.read_workspaces skip limit current_user db).2
  | Create_workspace workspace_in =>
    (WorkspacesRouter.create_workspace workspace_in current_user db).2
  | Read_workspace workspace_id =>
    (WorkspacesRouter.read_workspace workspace_id current_user db).2
  | Update_workspace workspace_id workspace_in =>
    (WorkspacesRouter.update_workspace workspace_id workspace_in current_user db).2
  | Delete_workspace workspace_id =>
    (WorkspacesRouter.delete_workspace workspace_id current_user db).2
  | Add_workspace_member workspace_id user_id =>
    (WorkspacesRouter.add_workspace_member workspace_id user_id current_user db).2
  | Remove_workspace_member workspace_id user_id =>
    (WorkspacesRouter.remove_workspace_member workspace_id user_id current_user db).2
  | Read_projects skip limit workspace_id =>
    (ProjectsRouter.read_projects skip limit workspace_id current_user db).2
  | Create_project project_in =>
    (ProjectsRouter.create_project project_in current_user db).2
  | Read_project project_id =>
    (ProjectsRouter.read_project project_id current_user db).2
  | Update_project project_id project_in =>
    (ProjectsRouter.update_project project_id project_in current_user db).2
  | Delete_project project_id =>
    (ProjectsRouter.delete_project project_id current_user db).2
  | Add_project_member project_id user_id =>
    (ProjectsRouter.add_project_member project_id user_id current_user db).2
  | Remove_project_member project_id user_id =>
    (ProjectsRouter.remove_project_member project_id user_id current_user db).2
  | Read_tasks skip limit project_id status assignee_id =>
    (TasksRouter.read_tasks skip limit project_id status assignee_id current_user db).2
  | Create_task task_in =>
    (TasksRouter.create_task task_in current_user db).2
  | Read_task task_id =>
    (TasksRouter.read_task task_id current_user db).2
  | Update_task task_id task_in =>
    (TasksRouter.update_task task_id task_in current_user db).2
  | Delete_task task_id =>
    (TasksRouter.delete_task task_id current_user db).2
  end.

(** The calls of the three services that write, and the database a call
    leaves behind. *)
Inductive ServiceCall :=
  | Workspace_create (workspace : WorkspaceCreate.t) (owner_id : Z)
  | Workspace_update (workspace_id : Z) (workspace_update : WorkspaceUpdate.t)
  | Workspace_delete (workspace_id : Z)
  | Workspace_add_member (workspace_id user_id : Z)
  | Workspace_remove_member (workspace_id user_id : Z)
  | Project_create (project : ProjectCreate.t) (workspace_id creator_id : Z)
  | Project_update (project_id : Z) (project_update : ProjectUpdate.t)
  | Project_delete (project_id : Z)
  | Project_add_member (project_id user_id : Z)
  | Project_remove_member (project_id user_id : Z)
  | Task_create (task : TaskCreate.t) (project_id creator_id : Z)
  | Task_update (task_id : Z) (task_update : TaskUpdate.t) (user_id : Z)
  | Task_update_status (task_id : Z) (status : TaskStatus) (user_id : Z)
  | Task_delete (task_id user_id : Z).

Definition serve (c : ServiceCall) (db : DB) : DB :=
  match c with
  | Workspace_create workspace owner_id =>
    (WorkspaceService.create_workspace workspace owner_id db).2
  | Workspace_update workspace_id workspace_update =>
    (WorkspaceService.update_workspace workspace_id workspace_update db).2
  | Workspace_delete workspace_id =>
    (WorkspaceService.delete_workspace workspace_id db).2
  | Workspace_add_member workspace_id user_id =>
    (WorkspaceService.add_member workspace_id user_id db).2
  | Workspace_remove_member workspace_id user_id =>
    (WorkspaceService.remove_member workspace_id user_id db).2
  | Project_create project workspace_id creator_id =>
    (ProjectService.create_project project workspace_id creator_id db).2
  | Project_update project_id project_update =>
    (ProjectService.update_project project_id project_update db).2
  | Project_delete project_id =>
    (ProjectService.delete_project project_id db).2
  | Project_add_member project_id user_id =>
    (ProjectService.add_member project_id user_id db).2
  | Project_remove_member project_id user_id =>
    (ProjectService.remove_member project_id user_id db).2
  | Task_create task project_id creator_id =>
    (TaskService.create_task task project_id creator_id db).2
  | Task_update task_id task_update user_id =>
    (TaskService.update_task task_id task_update user_id db).2
  | Task_update_status task_id status user_id =>
    (TaskService.update_task_status task_id status user_id db).2
  | Task_delete task_id user_id =>
    (TaskService.delete_task task_id user_id db).2
  end.

(** The references of a task row point to stored rows. *)
Definition task_refs (db : DB) (t : Task.t) : Prop :=
  is_Some (projects db !! Task.project_id t)
  ∧ (∀ a, Task.assignee_id t = Some a → is_Some (users db !! a))
  ∧ is_Some (users db !! Task.created_by_id t).

(** The clock of the server moves on between requests. *)
Definition with_clock (t : Z) (db : DB) : DB :=
  {| clock := t; users := users db; workspaces := workspaces db;
     workspace_members := workspace_members db; projects := projects db;
     project_members := project_members db; tasks := tasks db |}.

(** A step is a request of some user, a service call, or the passing of
    time; a trace runs its steps in order. *)
Inductive Step :=
  | Request_by (current_user : Z * User.t) (r : Request)
  | Service_call (c : ServiceCall)
  | Time_passes (t : Z).

Definition step (db : DB) (s : Step) : DB :=
  match s with
  | Request_by current_user r => handle current_user r db
  | Service_call c => serve c db
  | Time_passes t => with_clock t db
  end.

Definition run (trace : list Step) (db : DB) : DB := foldl step db trace.

(** The exceptions of the object layer: a rejected constructor keyword, a
    violated constraint, a rejected value. *)
Definition orm_error (e : Exn) : Prop :=
  e = TypeError ∨ e = IntegrityError ∨ e = DataError.

Definition raises_only {A} (P : Exn → Prop) (r : Res A) : Prop :=
  ∀ e, r = Raise e → P e.

(** The sample database without project 1: task 1 refers to a project that
    is not stored. *)
Definition dangling_db : DB := with_projects (delete 1) sample_db.

(** The sample database after the owner has added user 2 to workspace 1. *)
Definition member_db : DB :=
  (WorkspacesRouter.add_workspace_member 1 2 (1, plain) sample_db).2.

(** The sample database after the owner has added user 1's colleague 2 to
    workspace 1 and then to project 1. *)
Definition project_member_db : DB :=
  (ProjectsRouter.add_project_member 1 2 (1, plain) member_db).2.

Definition sample_workspace : Workspace.t :=
  {| Workspace.name := "W"; Workspace.description := None; Workspace.owner_id := 1;
     Workspace.created_at := 0; Workspace.updated_at := 0 |}.
Definition sample_project : Project.t :=
  {| Project.name := "P"; Project.description := None; Project.workspace_id := 1;
     Project.created_at := 0; Project.updated_at := 0 |}.

(** The value of a column after an update: the payload's when the field was
    set, the stored one otherwise. *)
Definition assign {A} (x : field A) (old : option A) : option A :=
  match x with Some v => v | None => old end.

(** The columns of a row that an update payload can assign. *)
Definition Workspace_values (w : Workspace.t) : string * option string :=
  (Workspace.name w, Workspace.description w).

Definition Project_values (p : Project.t) : string * option string * Z :=
  (Project.name p, Project.description p, Project.workspace_id p).

Definition Task_values (t : Task.t)
  : string * option string * TaskStatus * TaskPriority * option Z * Z * option Z :=
  (Task.title t, Task.description t, Task.status t, Task.priority t,
   Task.due_date t, Task.project_id t, Task.assignee_id t).

(** The payloads that set no field. *)
Definition empty_task_update : TaskUpdate.t :=
  {| TaskUpdate.title := None; TaskUpdate.description := None;
     TaskUpdate.status := None; TaskUpdate.priority := None;
     TaskUpdate.due_date := None; TaskUpdate.project_id := None;
     TaskUpdate.assignee_id := None |}.

(** A computation that commits nothing. *)
Definition read_only {A} (m : M A) : Prop := ∀ db, (m db).2 = db.

(** The payload that sets the assignee and nothing else. *)
Definition only_assignee (a : option Z) : TaskUpdate.t :=
  {| TaskUpdate.title := None; TaskUpdate.description := None;
     TaskUpdate.status := None; TaskUpdate.priority := None;
     TaskUpdate.due_date := None; TaskUpdate.project_id := None;
     TaskUpdate.assignee_id := Some a |}.

(** The windows that the database accepts: [OFFSET] and [LIMIT] are bigint
    values that are not negative. *)
Definition in_window (skip limit : Z) : Prop :=
  0 ≤ skip ≤ bigint_max ∧ 0 ≤ limit ≤ bigint_max.

(** A page of a table for the window [skip], [limit] and the filter [P]: at
    most [limit] rows, none twice, each of them stored and passing the
    filter; and every such row when the window starts at 0 and holds the
    whole table. *)
Definition is_page {A} (tbl : gmap Z A) (P : Z * A → Prop) (skip limit : Z)
    (r : Res (list (Z * A))) : Prop :=
  ∃ rows,
    r = Ok rows
    ∧ Z.of_nat (length rows) ≤ limit
    ∧ NoDup rows
    ∧ (∀ x, x ∈ rows → tbl !! x.1 = Some x.2 ∧ P x)
    ∧ (skip = 0 → Z.of_nat (size tbl) ≤ limit →
       ∀ x, tbl !! x.1 = Some x.2 → P x → x ∈ rows).

(** What a listing over a table returns: a page for a window that the
    database accepts, and the error of the database for any other. *)
Definition lists_rows {A} (tbl : gmap Z A) (P : Z * A → Prop) (skip limit : Z)
    (r : Res (list (Z * A))) : Prop :=
  (in_window skip limit → is_page tbl P skip limit r)
  ∧ (¬ in_window skip limit → r = Raise DataError).

(** [if status:] on a listing. *)
Definition status_is (status : option TaskStatus) (t : Z * Task.t) : Prop :=
  ∀ s, status = Some s → Task.status t.2 = s.

(** [if assignee_id:] on a listing: the id 0 is no filter. *)
Definition assignee_is (assignee_id : option Z) (t : Z * Task.t) : Prop :=
  ∀ a, assignee_id = Some a → a ≠ 0 → Task.assignee_id t.2 = Some a.

(** The condition [C] on the row that an inner join finds, if any. *)
Definition joined_with {B} (o : option B) (C : B → Prop) : Prop :=
  match o with Some b => C b | None => False end.

Global Instance joined_with_dec {B} (o : option B) (C : B → Prop)
  `{!∀ b, Decision (C b)} : Decision (joined_with o C).
Proof. destruct o; apply _. Defined.

(** ** Helpers on strings ([app/utils/helpers.py])

    A Python [str] is a sequence of code points. *)
Definition py_str : Type := list N.

Definition str (s : string) : py_str :=
  Ascii.N_of_ascii <$> String.list_ascii_of_string s.

(** [str.isspace] on a code point, which is what [str.strip()] removes. *)
Definition isspace (c : N) : bool :=
  ((9 <=? c) && (c <=? 13) || (28 <=? c) && (c <=? 32) || (c =? 133) || (c =? 160)
   || (c =? 5760) || (8192 <=? c) && (c <=? 8202) || (c =? 8232) || (c =? 8233)
   || (c =? 8239) || (c =? 8287) || (c =? 12288))%N.

Fixpoint lstrip (chars : N → bool) (s : py_str) : py_str :=
  match s with
  | c :: s' => if chars c then lstrip chars s' else s
  | [] => []
  end.
Definition rstrip (chars : N → bool) (s : py_str) : py_str :=
  reverse (lstrip chars (reverse s)).
Definition strip (chars : N → bool) (s : py_str) : py_str :=
  rstrip chars (lstrip chars s).

(** [s[:stop]]: a negative [stop] counts from the end. *)
Definition slice_to {A} (stop : Z) (s : list A) : list A :=
  if 0 <=? stop then take (Z.to_nat stop) s
  else take (length s - Z.to_nat (- stop)) s.

(** An empty string is false, and [None] is. *)
Definition sanitize_string (text : option py_str) (max_length : Z) : option py_str :=
  match text with
  | None | Some [] => text
  | Some text =>
    (* Remove leading/trailing whitespace *)
    let text := strip isspace text in
    (* Truncate if too long *)
    let text := if max_length <? Z.of_nat (length text) then slice_to max_length text
                else text in
    match text with [] => None | _ => Some text end
  end.

(** Character classes by their ranges. *)
Definition in_range (lo hi : string) (c : N) : bool :=
  match str lo, str hi with
  | [l], [h] => ((l <=? c) && (c <=? h))%N
  | _, _ => false
  end.
Definition one_of (chars : string) (c : N) : bool := bool_decide (c ∈ str chars).

(** The patterns of the module are sequences of anchors, single characters
    and repeated character classes. *)
Inductive atom :=
  | Bol                                                    (* ^ *)
  | Eol                                                    (* $ *)
  | Chr (c : string)                                       (* an escaped or plain character *)
  | Many (class : N → bool) (min : nat) (max : option nat). (* [class]{min,max} *)

(** [class]{min,max} from the position before [s], greedy, backtracking into
    the continuation [k]; [k] learns whether the position has moved. *)
Fixpoint many (class : N → bool) (min : nat) (max : option nat)
    (k : bool → py_str → bool) (at_start : bool) (s : py_str) : bool :=
  let more :=
    match s with
    | c :: s' =>
      match max with
      | Some O => false
      | _ => class c && many class (pred min) (pred <$> max) k false s'
      end
    | [] => false
    end in
  more || match min with O => k at_start s | S _ => false end.

(** [re.match(pattern, s) is not None]: the pattern matches a prefix of [s].
    Without [re.MULTILINE], [^] matches at the start of the string and [$] at
    its end or before a newline that ends it. *)
Fixpoint re_match (pattern : list atom) (at_start : bool) (s : py_str) : bool :=
  match pattern with
  | [] => true
  | Bol :: pattern' => at_start && re_match pattern' at_start s
  | Eol :: pattern' =>
    match s with
    | [] => re_match pattern' at_start s
    | [c] => (c =? 10)%N && re_match pattern' at_start s
    | _ => false
    end
  | Chr c :: pattern' =>
    match s with
    | c' :: s' => one_of c c' && re_match pattern' false s'
    | [] => false
    end
  | Many class min max :: pattern' => many class min max (re_match pattern') at_start s
  end.

Definition is_valid_email (email : py_str) : bool :=
  (* r'^[a-zA-Z0-9._%+-]+@[a-zA-Z0-9.-]+\.[a-zA-Z]{2,}$' *)
  let pattern :=
    [Bol;
     Many (λ c, in_range "a" "z" c || in_range "A" "Z" c || in_range "0" "9" c
                || one_of "._%+-" c) 1 None;
     Chr "@";
     Many (λ c, in_range "a" "z" c || in_range "A" "Z" c || in_range "0" "9" c
                || one_of ".-" c) 1 None;
     Chr ".";
     Many (λ c, in_range "a" "z" c || in_range "A" "Z" c) 2 None;
     Eol] in
  re_match pattern true email.

Definition is_valid_username (username : py_str) : bool :=
  (* r'^[a-zA-Z0-9_]{3,30}$' *)
  let pattern :=
    [Bol;
     Many (λ c, in_range "a" "z" c || in_range "A" "Z" c || in_range "0" "9" c
                || one_of "_" c) 3 (Some 30%nat);
     Eol] in
  re_match pattern true username.

(** [re.sub(r'[class]+', repl, s)]: every maximal run of characters of the
    class is replaced by [repl]; [in_run] tells that the run has begun. *)
Fixpoint re_sub_many (class : N → bool) (repl : py_str) (in_run : bool) (s : py_str)
    : py_str :=
  match s with
  | c :: s' =>
    if class c then (if in_run then [] else repl) ++ re_sub_many class repl true s'
    else c :: re_sub_many class repl false s'
  | [] => []
  end.

(** [str.lower] is the lowercase mapping of Unicode; the properties below
    hold for every mapping [lower]. *)
Definition generate_slug (lower : py_str → py_str) (text : py_str) : py_str :=
  (* Convert to lowercase *)
  let text := lower text in
  (* Replace spaces and special characters with hyphens *)
  let text :=
    re_sub_many (λ c, negb (in_range "a" "z" c || in_range "0" "9" c)) (str "-") false text in
  (* Remove leading/trailing hyphens *)
  let text := strip (one_of "-") text in
  (* Limit length *)
  match text with [] => str "untitled" | _ => slice_to 50 text end.

(** The lowercase mapping on the letters A to Z, the identity elsewhere. *)
Definition ascii_lower (s : py_str) : py_str :=
  (λ c, if in_range "A" "Z" c then (c + 32)%N else c) <$> s.

(** * Properties *)

(** ** Running a handler from its head *)

Ltac unfold_handler :=
  repeat progress
    unfold mbind, M_bind, mret, M_ret, session, commit, lift, raise,
      first_or_404, require, first_by_id, attr, or_else, and_then, forbidden in *.

Section Bind.
Context {A B : Type} (f : A → M B) (db : DB).

Lemma bind_ret a : (mret a ≫= f) db = f a db.
Proof. reflexivity. Qed.
Lemma bind_lift_Ok a : (lift (Ok a) ≫= f) db = f a db.
Proof. reflexivity. Qed.
Lemma bind_lift_Raise e : (lift (Raise e) ≫= f) db = (Raise e, db).
Proof. reflexivity. Qed.
Lemma bind_first_Some a detail : (first_or_404 (Some a) detail ≫= f) db = f a db.
Proof. reflexivity. Qed.
Lemma bind_first_None detail :
  (first_or_404 None detail ≫= f) db = (Raise (HTTPException 404 detail), db).
Proof. reflexivity. Qed.
End Bind.

Lemma bind_session {B} (f : DB → M B) db : (session ≫= f) db = f db db.
Proof. reflexivity. Qed.
Lemma bind_commit {B} (g : DB → DB) (f : unit → M B) db :
  (commit g ≫= f) db = f () (g db).
Proof. reflexivity. Qed.
Lemma bind_require_true {B} (f : unit → M B) status_code detail db :
  (require true status_code detail ≫= f) db = f () db.
Proof. reflexivity. Qed.
Lemma bind_require_false {B} (f : unit → M B) status_code detail db :
  (require false status_code detail ≫= f) db
  = (Raise (HTTPException status_code detail), db).
Proof. reflexivity. Qed.

Lemma first_by_id_Some {A} (tbl : gmap Z A) id row :
  tbl !! id = Some row → first_by_id tbl id = Some (id, row).
Proof. unfold first_by_id. by intros ->. Qed.
Lemma first_by_id_None {A} (tbl : gmap Z A) id :
  tbl !! id = None → first_by_id tbl id = None.
Proof. unfold first_by_id. by intros ->. Qed.
Lemma first_by_id_inv {A} (tbl : gmap Z A) id x :
  first_by_id tbl id = Some x → x.1 = id ∧ tbl !! id = Some x.2.
Proof. unfold first_by_id. destruct (tbl !! id); intros [= <-]; auto. Qed.

Lemma or_else_Ok a b : Ok a ||| Ok b = Ok (a || b).
Proof. by destruct a. Qed.

Lemma opt_eqb_true x uid : opt_eqb x uid = true ↔ x = Some uid.
Proof.
  destruct x as [z|]; cbn; [|split; discriminate].
  rewrite Z.eqb_eq. split; congruence.
Qed.

Lemma in_members_true assoc db parent_id uid :
  is_Some (users db !! uid) →
  in_members assoc db parent_id uid = bool_decide ((parent_id, uid) ∈ assoc).
Proof.
  intros Hu. unfold in_members. rewrite (bool_decide_true (is_Some _)) by done.
  by rewrite andb_true_r.
Qed.

(** ** The object layer raises no HTTP error *)

Lemma no_http_Ok {A} (a : A) : no_http (Ok a).
Proof. intros c d; discriminate. Qed.

Lemma no_http_bind {A B} (m : Res A) (f : A → Res B) :
  no_http m → (∀ a, no_http (f a)) → no_http (m ≫= f).
Proof.
  intros Hm Hf c d. destruct m as [a|e]; cbn.
  - apply Hf.
  - intros [= ->]. by apply (Hm c d).
Qed.

Lemma no_http_attr {A B} (o : option A) (f : A → B) : no_http (attr o f).
Proof. intros c d. destruct o; discriminate. Qed.

Lemma no_http_or_else a b : no_http a → no_http b → no_http (a ||| b).
Proof. intros Ha Hb c d. destruct a as [[]|]; cbn; auto; discriminate. Qed.

Lemma no_http_and_then a b : no_http a → no_http b → no_http (a &&& b).
Proof. intros Ha Hb c d. destruct a as [[]|]; cbn; auto; discriminate. Qed.

Lemma no_http_notnull {A} (x : option A) : no_http (notnull x).
Proof. intros c d. destruct x; discriminate. Qed.

Lemma no_http_references {A} (tbl : gmap Z A) id : no_http (references tbl id).
Proof. intros c d. unfold references. case_bool_decide; discriminate. Qed.

Lemma no_http_references_opt {A} (tbl : gmap Z A) id : no_http (references_opt tbl id).
Proof. destruct id; cbn; [apply no_http_references | apply no_http_Ok]. Qed.

Lemma no_http_as_str v : no_http (as_str v).
Proof. intros c d. destruct v as [[]|]; discriminate. Qed.
Lemma no_http_as_int v : no_http (as_int v).
Proof. intros c d. destruct v as [[]|]; discriminate. Qed.
Lemma no_http_as_datetime v : no_http (as_datetime v).
Proof. intros c d. destruct v as [[]|]; discriminate. Qed.
Lemma no_http_as_status v : no_http (as_status v).
Proof. intros c d. destruct v as [[]|]; discriminate. Qed.
Lemma no_http_as_priority v : no_http (as_priority v).
Proof. intros c d. destruct v as [[]|]; discriminate. Qed.

Lemma no_http_declarative_init attributes kwargs :
  no_http (declarative_init attributes kwargs).
Proof. intros c d. unfold declarative_init. case_match; discriminate. Qed.

Create HintDb no_http.
#[local] Hint Resolve no_http_Ok no_http_attr no_http_or_else no_http_and_then
  no_http_notnull no_http_references no_http_references_opt no_http_as_str
  no_http_as_int no_http_as_datetime no_http_as_status no_http_as_priority
  no_http_declarative_init : no_http.

Ltac solve_no_http :=
  repeat first
    [ progress auto with no_http
    | apply no_http_bind; [|intros ?]
    | case_match ].

Lemma no_http_Workspace_insert db o : no_http (Workspace_insert db o).
Proof. unfold Workspace_insert. solve_no_http. Qed.
Lemma no_http_Project_insert db o : no_http (Project_insert db o).
Proof. unfold Project_insert. solve_no_http. Qed.
Lemma no_http_Task_insert db o : no_http (Task_insert db o).
Proof. unfold Task_insert. solve_no_http. Qed.

Lemma no_http_Workspace_set db w kv : no_http (Workspace_set db w kv).
Proof. unfold Workspace_set. solve_no_http. Qed.
Lemma no_http_Project_set db p kv : no_http (Project_set db p kv).
Proof. unfold Project_set. solve_no_http. Qed.
Lemma no_http_Task_set db t kv : no_http (Task_set db t kv).
Proof. unfold Task_set. solve_no_http. Qed.

Lemma no_http_setattrs {R} (set : R → string * pyval → Res R) d :
  (∀ r kv, no_http (set r kv)) → ∀ r, no_http (setattrs set r d).
Proof.
  intros Hset. induction d as [|kv d IH]; intros r; cbn.
  - apply no_http_Ok.
  - apply no_http_bind; auto.
Qed.

#[local] Hint Resolve no_http_Workspace_insert no_http_Project_insert
  no_http_Task_insert no_http_Workspace_set no_http_Project_set
  no_http_Task_set no_http_setattrs : no_http.

(** ** Handlers that do not answer 403

    [(m db).1 ≠ Raise forbidden] is proved along the structure of [m]. *)

Lemma nf_bind {A B} (m : M A) (f : A → M B) db :
  (m db).1 ≠ Raise forbidden →
  (∀ a db', (f a db').1 ≠ Raise forbidden) →
  ((m ≫= f) db).1 ≠ Raise forbidden.
Proof.
  intros Hm Hf. unfold mbind, M_bind.
  destruct (m db) as [[a|e] db']; cbn in *; [apply Hf|].
  intros [= ->]. by apply Hm.
Qed.

Lemma nf_ret {A} (a : A) db : ((mret a : M A) db).1 ≠ Raise forbidden.
Proof. discriminate. Qed.
Lemma nf_session db : (session db).1 ≠ Raise forbidden.
Proof. discriminate. Qed.
Lemma nf_commit g db : (commit g db).1 ≠ Raise forbidden.
Proof. discriminate. Qed.
Lemma nf_lift {A} (r : Res A) db : no_http r → (lift r db).1 ≠ Raise forbidden.
Proof. intros Hr. cbn. apply Hr. Qed.
Lemma nf_first_or_404 {A} (o : option A) detail db :
  (first_or_404 o detail db).1 ≠ Raise forbidden.
Proof. destruct o; discriminate. Qed.
Lemma nf_require_400 cond detail db :
  (require cond 400 detail db).1 ≠ Raise forbidden.
Proof. destruct cond; discriminate. Qed.
Lemma nf_require_true status_code detail db :
  (require true status_code detail db).1 ≠ Raise forbidden.
Proof. discriminate. Qed.

Lemma nf_add_workspace o db : (add_workspace o db).1 ≠ Raise forbidden.
Proof.
  unfold add_workspace. rewrite bind_session.
  apply nf_bind; [apply nf_lift; auto with no_http|].
  intros row db'. rewrite bind_commit. apply nf_ret.
Qed.
Lemma nf_add_task o db : (add_task o db).1 ≠ Raise forbidden.
Proof.
  unfold add_task. rewrite bind_session.
  apply nf_bind; [apply nf_lift; auto with no_http|].
  intros row db'. rewrite bind_commit. apply nf_ret.
Qed.

(** One step along the head of a handler. *)
Ltac nf_step :=
  first
    [ rewrite bind_session
    | rewrite bind_lift_Ok
    | rewrite bind_first_Some
    | rewrite bind_require_true
    | rewrite bind_commit
    | rewrite bind_ret
    | apply nf_ret
    | apply nf_session
    | apply nf_commit
    | apply nf_first_or_404
    | apply nf_require_400
    | apply nf_require_true
    | apply nf_add_task
    | apply nf_add_workspace
    | apply nf_lift; repeat case_match; solve [auto 8 with no_http]
    | lazymatch goal with
      | |- ((lift (_ ||| _) ≫= _) _).1 ≠ _ =>
        progress cbn [or_else attr snd User.is_superuser]
      end
    | apply nf_bind; [|intros ? ?]
    | lazymatch goal with
      | |- ((match ?x with _ => _ end) _).1 ≠ _ => destruct x eqn:?
      | |- ((match ?x with _ => _ end ≫= _) _).1 ≠ _ => destruct x eqn:?
      end
    | progress cbn [or_else and_then attr orb fst snd User.is_superuser] ].
Ltac nf := repeat nf_step.

(** ** The server-assigned id is fresh *)

Lemma le_foldr_max (l : list Z) x : x ∈ l → x ≤ foldr Z.max 0 l.
Proof.
  induction l as [|y l IH]; cbn.
  - by intros ?%elem_of_nil.
  - intros [->|Hin]%elem_of_cons; [lia|]. specialize (IH Hin). lia.
Qed.

Lemma next_id_fresh {A} (tbl : gmap Z A) : tbl !! next_id tbl = None.
Proof.
  destruct (tbl !! next_id tbl) as [row|] eqn:Hrow; [|done].
  apply elem_of_map_to_list in Hrow.
  apply (list_elem_of_fmap_2 fst) in Hrow. apply le_foldr_max in Hrow.
  unfold next_id in Hrow. cbn in Hrow. lia.
Qed.

(** ** C1: who may update and who may delete a task *)

(** C1 (as the code has it).  When the task, its project and its workspace
    exist: the update handler answers 403 exactly when the actor is neither a
    superuser, nor the workspace owner, nor the creator, nor the assignee of
    the task; the delete handler answers 403 exactly when the actor is neither
    a superuser, nor the workspace owner, nor the creator (being the assignee
    does not help); a 403 leaves the database unchanged; an allowed delete
    removes the task and returns it; the service-level delete is decided by
    project access alone and otherwise returns [False] without a change. *)
Theorem task_update_delete_authorization
    (db : DB) (task_id : Z) (task : Task.t) (project : Project.t)
    (workspace : Workspace.t) (current_user : Z * User.t) (task_in : TaskUpdate.t) :
  tasks db !! task_id = Some task →
  projects db !! Task.project_id task = Some project →
  workspaces db !! Project.workspace_id project = Some workspace →
  let uid := current_user.1 in
  let manager := User.is_superuser current_user.2 = true
                 ∨ Workspace.owner_id workspace = uid
                 ∨ Task.created_by_id task = uid in
  let assignee := Task.assignee_id task = Some uid in
  let updated := TasksRouter.update_task task_id task_in current_user db in
  let deleted := TasksRouter.delete_task task_id current_user db in
  (updated.1 = Raise forbidden ↔ ¬ (manager ∨ assignee))
  ∧ (updated.1 = Raise forbidden → updated.2 = db)
  ∧ (deleted.1 = Raise forbidden ↔ ¬ manager)
  ∧ (deleted.1 = Raise forbidden → deleted.2 = db)
  ∧ (manager → deleted = (Ok (task_id, task), with_tasks (delete task_id) db))
  ∧ TaskService.delete_task task_id uid db
    = if ProjectService.has_access db (Task.project_id task) uid
      then (Ok true, with_tasks (delete task_id) db) else (Ok false, db).
Proof.
  intros Ht Hp Hw uid manager assignee updated deleted.
  assert (Hmanager : manager ↔
            User.is_superuser current_user.2
            || bool_decide (Workspace.owner_id workspace = uid)
            || bool_decide (Task.created_by_id task = uid) = true).
  { subst manager. rewrite !orb_true_iff, !bool_decide_eq_true. tauto. }
  assert (Hupd : updated = (Raise forbidden, db) ∧ ¬ (manager ∨ assignee)
                 ∨ updated.1 ≠ Raise forbidden ∧ (manager ∨ assignee)).
  { subst updated. unfold TasksRouter.update_task.
    rewrite bind_session, (first_by_id_Some _ _ _ Ht), bind_first_Some.
    cbn [fst snd]. rewrite (first_by_id_Some _ _ _ Hp). cbn [attr].
    rewrite bind_lift_Ok. cbn [fst snd].
    rewrite (first_by_id_Some _ _ _ Hw). cbn [attr fst snd].
    rewrite !or_else_Ok, bind_lift_Ok. fold uid.
    destruct (_ || opt_eqb _ _) eqn:Hallowed.
    - right. rewrite bind_require_true. split; [nf|].
      apply orb_true_iff in Hallowed as [H|H].
      + left. by apply Hmanager.
      + right. by apply opt_eqb_true.
    - left. rewrite bind_require_false. split; [done|].
      apply orb_false_iff in Hallowed as [Hm Ha]. intros [H|H].
      + apply Hmanager in H. congruence.
      + apply opt_eqb_true in H. congruence. }
  assert (Hdel : deleted = (Raise forbidden, db) ∧ ¬ manager
                 ∨ deleted = (Ok (task_id, task), with_tasks (delete task_id) db) ∧ manager).
  { subst deleted. unfold TasksRouter.delete_task.
    rewrite bind_session, (first_by_id_Some _ _ _ Ht), bind_first_Some.
    cbn [fst snd]. rewrite (first_by_id_Some _ _ _ Hp). cbn [attr].
    rewrite bind_lift_Ok. cbn [fst snd].
    rewrite (first_by_id_Some _ _ _ Hw). cbn [attr fst snd].
    rewrite !or_else_Ok, bind_lift_Ok. fold uid.
    destruct (_ || bool_decide (Task.created_by_id _ = _)) eqn:Hallowed.
    - right. rewrite bind_require_true. split; [done|]. by apply Hmanager.
    - left. rewrite bind_require_false. split; [done|].
      intros H. apply Hmanager in H. congruence. }
  split; [|split; [|split; [|split; [|split]]]].
  - destruct Hupd as [[-> ?]|[? ?]]; cbn; split; done.
  - destruct Hupd as [[-> _]|[? _]]; done.
  - destruct Hdel as [[-> ?]|[-> ?]]; cbn; split; done.
  - destruct Hdel as [[-> _]|[-> _]]; done.
  - intros H. destruct Hdel as [[_ ?]|[-> _]]; done.
  - unfold TaskService.delete_task.
    rewrite bind_session, (first_by_id_Some _ _ _ Ht). cbn [fst snd].
    by destruct (ProjectService.has_access _ _ _).
Qed.

(** User 2 is the assignee of task 1 and nothing else: the update goes
    through, the delete is answered with 403. *)
Lemma task_update_delete_authorization_witness :
  (TasksRouter.update_task 1 (only_status (Some DONE)) (2, plain) sample_db).1 ≠ Raise forbidden
  ∧ (TasksRouter.delete_task 1 (2, plain) sample_db).1 = Raise forbidden.
Proof.
  destruct (task_update_delete_authorization sample_db 1 sample_task
              {| Project.name := "P"; Project.description := None;
                 Project.workspace_id := 1;
                 Project.created_at := 0; Project.updated_at := 0 |}
              {| Workspace.name := "W"; Workspace.description := None;
                 Workspace.owner_id := 1;
                 Workspace.created_at := 0; Workspace.updated_at := 0 |}
              (2, plain) (only_status (Some DONE)) eq_refl eq_refl eq_refl)
    as (Hupd & _ & Hdel & _).
  split.
  - intros H. apply Hupd in H. apply H. right. reflexivity.
  - apply Hdel. cbn. intros [H|[H|H]]; discriminate H.
Defined.

(** C1, counterexample.  The assignee of a task who is neither superuser,
    nor workspace owner, nor creator is refused by the delete handler. *)
Lemma delete_task_refuses_assignee :
  tasks sample_db !! 1 = Some sample_task
  ∧ Task.assignee_id sample_task = Some 2
  ∧ TasksRouter.delete_task 1 (2, plain) sample_db = (Raise forbidden, sample_db).
Proof. split; [|split]; reflexivity. Qed.

(** ** C2: the creator recorded on a new task *)

Lemma M_bind_Ok_inv {A B} (m : M A) (f : A → M B) db b db2 :
  (m ≫= f) db = (Ok b, db2) →
  ∃ a db1, m db = (Ok a, db1) ∧ f a db1 = (Ok b, db2).
Proof.
  unfold mbind, M_bind. destruct (m db) as [[a|e] db1]; [eauto|discriminate].
Qed.

Lemma Res_bind_Ok_inv {A B} (m : Res A) (f : A → Res B) b :
  m ≫= f = Ok b → ∃ a, m = Ok a ∧ f a = Ok b.
Proof. destruct m as [a|e]; cbn; [eauto|discriminate]. Qed.

Lemma declarative_init_Ok attributes kwargs o :
  declarative_init attributes kwargs = Ok o → o = kwargs.
Proof. unfold declarative_init. case_match; congruence. Qed.

Lemma add_task_Ok o db t db' :
  add_task o db = (Ok t, db') →
  Task_insert db o = Ok t.2 ∧ db' = with_tasks <[t.1 := t.2]> db.
Proof.
  unfold add_task. rewrite bind_session.
  intros (row & db1 & Hrow & H)%M_bind_Ok_inv.
  unfold lift in Hrow. injection Hrow as Hrow <-.
  rewrite bind_commit in H. injection H as <- <-. done.
Qed.

Lemma Task_insert_created_by db o row z :
  Task_insert db o = Ok row →
  dict_get o "created_by_id" = Some (PInt z) →
  Task.created_by_id row = z.
Proof.
  unfold Task_insert. intros H Hget. rewrite Hget in H.
  repeat (apply Res_bind_Ok_inv in H as (? & ? & H)).
  injection H as <-. cbn.
  match goal with H : as_int _ ≫= notnull = Ok _ |- _ => by injection H end.
Qed.

(** The create handler records the requesting actor as the creator of the
    task it persists. *)
Lemma route_create_task_created_by task_in current_user db t db' :
  TasksRouter.create_task task_in current_user db = (Ok t, db') →
  Task.created_by_id t.2 = current_user.1 ∧ tasks db' !! t.1 = Some t.2.
Proof.
  unfold TasksRouter.create_task. rewrite bind_session. intros H.
  do 4 (apply M_bind_Ok_inv in H as (? & ? & _ & H)).
  apply M_bind_Ok_inv in H as (o & db1 & Ho & H).
  assert (o = TaskCreate.dict task_in ++ [("created_by_id"%string, PInt current_user.1)])
    as ->.
  { unfold lift in Ho.
    assert (Hinit : declarative_init Task.attributes
                      (TaskCreate.dict task_in
                       ++ [("created_by_id"%string, PInt current_user.1)]) = Ok o)
      by congruence.
    by apply declarative_init_Ok in Hinit. }
  apply add_task_Ok in H as [Hrow ->]. split.
  - eapply Task_insert_created_by; [exact Hrow|]. reflexivity.
  - cbn. apply lookup_insert_eq.
Qed.

Example route_create_task_sample :
  TasksRouter.create_task (sample_task_in None) (1, plain) sample_db
  = (Ok (2, {| Task.title := "Review"; Task.description := None;
               Task.status := TODO; Task.priority := MEDIUM;
               Task.due_date := None; Task.project_id := 1;
               Task.assignee_id := None; Task.created_by_id := 1;
               Task.created_at := 5; Task.updated_at := 5 |}),
     with_tasks <[2 := {| Task.title := "Review"; Task.description := None;
                          Task.status := TODO; Task.priority := MEDIUM;
                          Task.due_date := None; Task.project_id := 1;
                          Task.assignee_id := None; Task.created_by_id := 1;
                          Task.created_at := 5; Task.updated_at := 5 |}]>
       sample_db).
Proof. reflexivity. Qed.

(** C2, the service path.  [TaskService.create_task] passes the creator
    under the keyword [creator_id], which is not an attribute of [Task]: the
    constructor raises [TypeError] and no task is persisted, for user 1
    creating a task in project 1 of the sample database and for every other
    call that passes the access checks; the remaining calls return [None].
    No call of the service persists a task whose [created_by_id] is the
    requesting actor. *)
Theorem service_create_task_persists_nothing :
  TaskService.create_task (sample_task_in None) 1 1 sample_db
  = (Raise TypeError, sample_db)
  ∧ ∀ task project_id creator_id db,
      let r := TaskService.create_task task project_id creator_id db in
      r.2 = db ∧ (r.1 = Ok None ∨ r.1 = Raise TypeError).
Proof.
  split; [reflexivity|].
  intros task project_id creator_id db.
  unfold TaskService.create_task. rewrite bind_session.
  assert (Hinit : ∀ kwargs,
            declarative_init Task.attributes (kwargs ++ [("creator_id"%string, PInt creator_id)])
            = Raise TypeError).
  { intros kwargs. unfold declarative_init.
    rewrite forallb_app. cbn. by rewrite andb_false_r. }
  match goal with
  | |- context [declarative_init Task.attributes ?kw] =>
    change kw with (removelast kw ++ [("creator_id"%string, PInt creator_id)])
  end.
  rewrite Hinit. cbn zeta.
  repeat case_match; rewrite ?bind_lift_Raise; cbn; auto.
Qed.

(** ** C3: the creator of a workspace as a member *)

(** The service adds the owner to the members of the workspace it creates. *)
Lemma service_create_workspace_adds_owner workspace owner_id u db :
  users db !! owner_id = Some u →
  ∃ id row db',
    WorkspaceService.create_workspace workspace owner_id db = (Ok (id, row), db')
    ∧ workspaces db' !! id = Some row
    ∧ Workspace.owner_id row = owner_id
    ∧ WorkspaceService.is_member db' id owner_id = true.
Proof.
  intros Hu. destruct workspace as [name [description|]].
  all: unfold WorkspaceService.create_workspace, add_workspace,
    WorkspaceService.add_member, Workspace_insert, references.
  all: unfold_handler; simpl; unfold_handler; simpl.
  all: rewrite bool_decide_true by (by rewrite Hu); simpl.
  all: rewrite lookup_insert_eq; simpl; rewrite Hu; simpl.
  all: case_bool_decide as Hrow; simpl.
  all: eexists _, _, _; (split; [reflexivity|]); simpl.
  all: rewrite lookup_insert_eq; repeat split.
  all: unfold WorkspaceService.is_member; simpl; apply bool_decide_eq_true.
  all: set_solver.
Qed.

(** C3, the route path.  The create handler of the workspaces router writes
    no row of [workspace_members]: user 2 creating a workspace in the sample
    database owns workspace 2 and is not a member of it. *)
Theorem route_create_workspace_leaves_creator_out :
  (∀ workspace_in current_user db,
     workspace_members (WorkspacesRouter.create_workspace workspace_in current_user db).2
     = workspace_members db)
  ∧ ∃ row,
      let r := WorkspacesRouter.create_workspace sample_workspace_in (2, plain) sample_db in
      r.1 = Ok (2, row)
      ∧ workspaces r.2 !! 2 = Some row
      ∧ Workspace.owner_id row = 2
      ∧ WorkspaceService.is_member r.2 2 2 = false.
Proof.
  split.
  - intros workspace_in current_user db.
    unfold WorkspacesRouter.create_workspace, add_workspace. unfold_handler. cbn.
    repeat (case_match; simplify_eq/=); reflexivity.
  - eexists. cbn. repeat split; reflexivity.
Qed.

(** ** C4: adding a user who is already a member *)


(** C4 (as the code has it).  For an existing user who is already a member:
    the workspace service returns [True] and changes nothing, and the
    workspace handler answers an authorized actor with 400; the project
    service first checks the access to the workspace, so it returns [True]
    exactly when the member has workspace access and changes nothing either
    way, and the project handler answers an authorized actor with 400. *)
Theorem add_member_when_already_member
    (db : DB) (uid : Z) (u : User.t) (current_user : Z * User.t) :
  users db !! uid = Some u →
  (∀ wid w,
     workspaces db !! wid = Some w →
     (wid, uid) ∈ workspace_members db →
     WorkspaceService.add_member wid uid db = (Ok true, db)
     ∧ (User.is_superuser current_user.2 = true
        ∨ Workspace.owner_id w = current_user.1 →
        WorkspacesRouter.add_workspace_member wid uid current_user db
        = (Raise (HTTPException 400 "User already in workspace"), db)))
  ∧ (∀ pid p,
       projects db !! pid = Some p →
       (pid, uid) ∈ project_members db →
       ProjectService.add_member pid uid db
       = (Ok (WorkspaceService.has_access db (Project.workspace_id p) uid), db)
       ∧ ∀ w,
           workspaces db !! Project.workspace_id p = Some w →
           User.is_superuser current_user.2 = true
           ∨ Workspace.owner_id w = current_user.1 →
           ProjectsRouter.add_project_member pid uid current_user db
           = (Raise (HTTPException 400 "User already in project"), db)).
Proof.
  intros Hu. split.
  - intros wid w Hw Hrow. split.
    + unfold WorkspaceService.add_member. unfold_handler.
      rewrite Hw, Hu; cbn. by rewrite bool_decide_true.
    + intros Hauth.
      unfold WorkspacesRouter.add_workspace_member. unfold_handler.
      rewrite Hw; cbn.
      assert (User.is_superuser current_user.2
              || bool_decide (Workspace.owner_id w = current_user.1) = true) as ->.
      { destruct Hauth as [->| ->]; [done|].
        rewrite bool_decide_true by done. apply orb_true_r. }
      cbn. rewrite Hu; cbn.
      rewrite in_members_true by (by rewrite Hu).
      by rewrite bool_decide_true.
  - intros pid p Hp Hrow. split.
    + unfold ProjectService.add_member. unfold_handler.
      rewrite Hp, Hu; cbn.
      destruct (WorkspaceService.has_access db (Project.workspace_id p) uid); cbn; [|done].
      by rewrite bool_decide_true.
    + intros w Hw Hauth.
      unfold ProjectsRouter.add_project_member. unfold_handler.
      rewrite Hp; cbn. rewrite Hw; cbn.
      assert ((if User.is_superuser current_user.2 then Ok true
               else Ok (bool_decide (Workspace.owner_id w = current_user.1)))
              = Ok true) as ->.
      { destruct Hauth as [->| ->]; [done|].
        rewrite bool_decide_true by done. by destruct (User.is_superuser _). }
      cbn. rewrite Hu; cbn.
      rewrite in_members_true by (by rewrite Hu).
      by rewrite bool_decide_true.
Qed.

(** User 1 is a member of workspace 1 and of project 1 and owns the
    workspace. *)
Lemma add_member_when_already_member_witness :
  WorkspaceService.add_member 1 1 sample_db = (Ok true, sample_db)
  ∧ WorkspacesRouter.add_workspace_member 1 1 (1, plain) sample_db
    = (Raise (HTTPException 400 "User already in workspace"), sample_db)
  ∧ ProjectService.add_member 1 1 sample_db = (Ok true, sample_db)
  ∧ ProjectsRouter.add_project_member 1 1 (1, plain) sample_db
    = (Raise (HTTPException 400 "User already in project"), sample_db).
Proof.
  destruct (add_member_when_already_member sample_db 1 plain (1, plain) eq_refl)
    as [Hw Hp].
  destruct (Hw 1 {| Workspace.name := "W"; Workspace.description := None;
                    Workspace.owner_id := 1;
                 Workspace.created_at := 0; Workspace.updated_at := 0 |} eq_refl) as [Hw1 Hw2].
  { by vm_compute. }
  destruct (Hp 1 {| Project.name := "P"; Project.description := None;
                    Project.workspace_id := 1;
                 Project.created_at := 0; Project.updated_at := 0 |} eq_refl) as [Hp1 Hp2].
  { by vm_compute. }
  split; [exact Hw1|]. split; [apply Hw2; right; reflexivity|].
  split; [exact Hp1|]. eapply Hp2; [reflexivity|right; reflexivity].
Defined.

(** C4, counterexample.  User 3 is a member of project 1 and has no access
    to its workspace: the project service returns [False] for a user who is
    already in the member set. *)
Lemma service_add_member_refuses_project_member :
  projects stray_member_db !! 1
  = Some {| Project.name := "P"; Project.description := None; Project.workspace_id := 1;
                 Project.created_at := 0; Project.updated_at := 0 |}
  ∧ users stray_member_db !! 3 = Some plain
  ∧ ProjectService.is_member stray_member_db 1 3 = true
  ∧ ProjectService.add_member 1 3 stray_member_db = (Ok false, stray_member_db).
Proof. repeat split; by vm_compute. Qed.

(** ** C5: superusers, and who may be assigned *)

(** C5 (as the code has it).  No handler guarded by a permission check
    answers a superuser with 403.  The check on the assignee of a new task
    looks at the candidate's memberships only: a candidate who is not a
    member of the project, not the owner of the workspace and not a member of
    the workspace is rejected, whatever the candidate's [is_superuser] flag:
    with 400 by the handler, for every actor who passes its permission
    check, and with [None] by the service. *)
Theorem superuser_never_forbidden (db : DB) :
  (∀ current_user : Z * User.t,
     User.is_superuser current_user.2 = true →
     (∀ workspace_id,
        (WorkspacesRouter.read_workspace workspace_id current_user db).1 ≠ Raise forbidden)
     ∧ (∀ workspace_id workspace_in,
          (WorkspacesRouter.update_workspace workspace_id workspace_in current_user db).1
          ≠ Raise forbidden)
     ∧ (∀ workspace_id,
          (WorkspacesRouter.delete_workspace workspace_id current_user db).1
          ≠ Raise forbidden)
     ∧ (∀ workspace_id user_id,
          (WorkspacesRouter.add_workspace_member workspace_id user_id current_user db).1
          ≠ Raise forbidden)
     ∧ (∀ workspace_id user_id,
          (WorkspacesRouter.remove_workspace_member workspace_id user_id current_user db).1
          ≠ Raise forbidden)
     ∧ (∀ project_in,
          (ProjectsRouter.create_project project_in current_user db).1 ≠ Raise forbidden)
     ∧ (∀ project_id,
          (ProjectsRouter.read_project project_id current_user db).1 ≠ Raise forbidden)
     ∧ (∀ project_id project_in,
          (ProjectsRouter.update_project project_id project_in current_user db).1
          ≠ Raise forbidden)
     ∧ (∀ project_id,
          (ProjectsRouter.delete_project project_id current_user db).1 ≠ Raise forbidden)
     ∧ (∀ project_id user_id,
          (ProjectsRouter.add_project_member project_id user_id current_user db).1
          ≠ Raise forbidden)
     ∧ (∀ project_id user_id,
          (ProjectsRouter.remove_project_member project_id user_id current_user db).1
          ≠ Raise forbidden)
     ∧ (∀ task_in,
          (TasksRouter.create_task task_in current_user db).1 ≠ Raise forbidden)
     ∧ (∀ task_id,
          (TasksRouter.read_task task_id current_user db).1 ≠ Raise forbidden)
     ∧ (∀ task_id task_in,
          (TasksRouter.update_task task_id task_in current_user db).1 ≠ Raise forbidden)
     ∧ (∀ task_id,
          (TasksRouter.delete_task task_id current_user db).1 ≠ Raise forbidden))
  ∧ (∀ task_in assignee_id assignee project workspace,
       projects db !! TaskCreate.project_id task_in = Some project →
       workspaces db !! Project.workspace_id project = Some workspace →
       truthy_int (TaskCreate.assignee_id task_in) = Some assignee_id →
       users db !! assignee_id = Some assignee →
       (TaskCreate.project_id task_in, assignee_id) ∉ project_members db →
       Workspace.owner_id workspace ≠ assignee_id →
       (Project.workspace_id project, assignee_id) ∉ workspace_members db →
       (∀ current_user,
          (TasksRouter.create_task task_in current_user db).1 ≠ Raise forbidden →
          TasksRouter.create_task task_in current_user db
          = (Raise (HTTPException 400
                      "Assignee must be a member of the project or workspace"), db))
       ∧ ∀ creator_id,
           TaskService.create_task task_in (TaskCreate.project_id task_in) creator_id db
           = (Ok None, db)).
Proof.
  split.
  - intros current_user Hsu. destruct current_user as [uid [su]]. cbn in Hsu. subst su.
    repeat match goal with |- _ ∧ _ => split end.
    + intros. unfold WorkspacesRouter.read_workspace. nf.
    + intros. unfold WorkspacesRouter.update_workspace. nf.
    + intros. unfold WorkspacesRouter.delete_workspace. nf.
    + intros. unfold WorkspacesRouter.add_workspace_member. nf.
    + intros. unfold WorkspacesRouter.remove_workspace_member. nf.
    + intros. unfold ProjectsRouter.create_project. nf.
    + intros. unfold ProjectsRouter.read_project. nf.
    + intros. unfold ProjectsRouter.update_project. nf.
    + intros. unfold ProjectsRouter.delete_project. nf.
    + intros. unfold ProjectsRouter.add_project_member. nf.
    + intros. unfold ProjectsRouter.remove_project_member. nf.
    + intros. unfold TasksRouter.create_task. nf.
    + intros. unfold TasksRouter.read_task. nf.
    + intros. unfold TasksRouter.update_task. nf.
    + intros. unfold TasksRouter.delete_task. nf.
  - intros task_in assignee_id assignee project workspace Hp Hw Ha Hu Hpm Hown Hwm.
    assert (Hnp : in_members (project_members db) db (TaskCreate.project_id task_in)
                    assignee_id = false).
    { unfold in_members. by rewrite bool_decide_false. }
    assert (Hnw : in_members (workspace_members db) db (Project.workspace_id project)
                    assignee_id = false).
    { unfold in_members. by rewrite bool_decide_false. }
    split.
    + intros current_user. unfold TasksRouter.create_task.
      rewrite bind_session, (first_by_id_Some _ _ _ Hp), bind_first_Some.
      cbn [fst snd]. rewrite (first_by_id_Some _ _ _ Hw).
      cbn [attr fst snd]. rewrite !or_else_Ok, bind_lift_Ok.
      destruct (_ || in_members (project_members db) db _ current_user.1);
        [rewrite bind_require_true; intros _
        |rewrite bind_require_false; by intros []].
      rewrite Ha, (first_by_id_Some _ _ _ Hu).
      unfold mbind at 1, M_bind at 1.
      rewrite bind_first_Some. cbn [fst snd]. rewrite Hnp, Hnw.
      cbn [negb and_then attr snd]. unfold owner, obj_ne.
      destruct (users db !! Workspace.owner_id workspace); cbn [fmap option_fmap option_map fst].
      * destruct (Z.eqb_spec assignee_id (Workspace.owner_id workspace)); [congruence|].
        cbn [negb]. by rewrite bind_lift_Ok.
      * by rewrite bind_lift_Ok.
    + intros creator_id.
      assert (Hacc : ProjectService.has_access db (TaskCreate.project_id task_in) assignee_id
                     = false).
      { unfold ProjectService.has_access, ProjectService.is_member.
        rewrite (first_by_id_Some _ _ _ Hp). cbn [snd].
        unfold WorkspaceService.has_access, WorkspaceService.is_owner,
          WorkspaceService.is_member.
        rewrite (first_by_id_Some _ _ _ Hw). cbn [snd].
        by rewrite !bool_decide_false. }
      unfold TaskService.create_task. rewrite bind_session. cbn zeta.
      rewrite Ha, (first_by_id_Some _ _ _ Hu), Hacc. cbn [negb].
      by destruct (negb _).
Qed.

(** The superuser 9 reads workspace 1 and deletes task 1.  Neither user 9
    nor user 3 is in project 1 or workspace 1: the superuser's request to
    create a task assigned to user 9 is answered with 400, and so is the
    request of user 1, who owns the workspace, for user 3. *)
Lemma superuser_never_forbidden_witness :
  (WorkspacesRouter.read_workspace 1 (9, super) sample_db).1 ≠ Raise forbidden
  ∧ (TasksRouter.delete_task 1 (9, super) sample_db).1 ≠ Raise forbidden
  ∧ TasksRouter.create_task (sample_task_in (Some 9)) (9, super) sample_db
    = (Raise (HTTPException 400 "Assignee must be a member of the project or workspace"),
       sample_db)
  ∧ TasksRouter.create_task (sample_task_in (Some 3)) (1, plain) sample_db
    = (Raise (HTTPException 400 "Assignee must be a member of the project or workspace"),
       sample_db).
Proof.
  destruct (superuser_never_forbidden sample_db) as [Hsuper Hassign].
  destruct (Hsuper (9, super) eq_refl)
    as (Hread & _ & _ & _ & _ & _ & _ & _ & _ & _ & _ & _ & _ & _ & Hdel).
  split; [apply Hread|]. split; [apply Hdel|].
  set (project := {| Project.name := "P"; Project.description := None;
                     Project.workspace_id := 1;
                     Project.created_at := 0; Project.updated_at := 0 |}).
  set (workspace := {| Workspace.name := "W"; Workspace.description := None;
                       Workspace.owner_id := 1;
                       Workspace.created_at := 0; Workspace.updated_at := 0 |}).
  split.
  - refine (proj1 (Hassign (sample_task_in (Some 9)) 9 super project workspace
                     eq_refl eq_refl eq_refl eq_refl _ _ _) (9, super) _);
      [by vm_compute|discriminate|by vm_compute|discriminate].
  - refine (proj1 (Hassign (sample_task_in (Some 3)) 3 plain project workspace
                     eq_refl eq_refl eq_refl eq_refl _ _ _) (1, plain) _);
      [by vm_compute|discriminate|by vm_compute|discriminate].
Defined.

(** C5, counterexample.  User 9 is a superuser and is neither a member of
    project 1, nor the owner of workspace 1, nor a member of it: the owner's
    request to create a task assigned to user 9 is answered with 400. *)
Lemma superuser_candidate_rejected :
  users sample_db !! 9 = Some super
  ∧ User.is_superuser super = true
  ∧ TasksRouter.create_task (sample_task_in (Some 9)) (1, plain) sample_db
    = (Raise (HTTPException 400 "Assignee must be a member of the project or workspace"),
       sample_db).
Proof. repeat split; reflexivity. Qed.

(** ** C6: the tasks a user sees in a listing *)

Lemma offset_limit_subseteq {A} skip limit (l rows : list A) :
  offset_limit skip limit l = Ok rows → rows ⊆ l.
Proof.
  unfold offset_limit. case_match; [discriminate|]. intros [= <-].
  etrans; [apply subseteq_take | apply subseteq_drop].
Qed.

Lemma bigint_max_pos : 0 ≤ bigint_max.
Proof. by vm_compute. Qed.

Lemma offset_limit_Ok {A} skip limit (l : list A) :
  0 ≤ skip ≤ bigint_max → 0 ≤ limit ≤ bigint_max →
  offset_limit skip limit l = Ok (take (Z.to_nat limit) (drop (Z.to_nat skip) l)).
Proof.
  intros Hskip Hlimit. unfold offset_limit.
  destruct (Z.ltb_spec skip 0); [exfalso; lia|].
  destruct (Z.ltb_spec limit 0); [exfalso; lia|].
  destruct (Z.ltb_spec bigint_max skip); [exfalso; lia|].
  destruct (Z.ltb_spec bigint_max limit); [exfalso; lia|]. done.
Qed.

Lemma offset_limit_Raise {A} skip limit (l : list A) :
  ¬ (0 ≤ skip ≤ bigint_max ∧ 0 ≤ limit ≤ bigint_max) →
  offset_limit skip limit l = Raise DataError.
Proof.
  intros Hout. unfold offset_limit.
  destruct (Z.ltb_spec skip 0); [done|].
  destruct (Z.ltb_spec limit 0); [done|].
  destruct (Z.ltb_spec bigint_max skip); [done|].
  destruct (Z.ltb_spec bigint_max limit); [done|]. exfalso. apply Hout. lia.
Qed.

Lemma offset_limit_is_Ok {A} skip limit (l : list A) :
  (∃ rows, offset_limit skip limit l = Ok rows)
  ↔ 0 ≤ skip ≤ bigint_max ∧ 0 ≤ limit ≤ bigint_max.
Proof.
  split.
  - intros [rows Hrows].
    destruct (decide (0 ≤ skip ≤ bigint_max ∧ 0 ≤ limit ≤ bigint_max)) as [|Hout];
      [done|].
    by rewrite (offset_limit_Raise _ _ _ Hout) in Hrows.
  - intros [Hskip Hlimit]. rewrite offset_limit_Ok by done. eauto.
Qed.

Lemma offset_limit_all {A} limit (l : list A) :
  Z.of_nat (length l) ≤ limit → limit ≤ bigint_max → offset_limit 0 limit l = Ok l.
Proof.
  intros Hlen Hmax. rewrite offset_limit_Ok by (pose proof bigint_max_pos; lia).
  change (Z.to_nat 0) with 0%nat. rewrite drop_0.
  by rewrite take_ge by lia.
Qed.

Lemma elem_of_join_project_workspace db rows tpw :
  tpw ∈ TasksRouter.join_project_workspace db rows
  ↔ tpw.1.1 ∈ rows
    ∧ tpw.1.2.1 = Task.project_id tpw.1.1.2
    ∧ projects db !! tpw.1.2.1 = Some tpw.1.2.2
    ∧ tpw.2.1 = Project.workspace_id tpw.1.2.2
    ∧ workspaces db !! tpw.2.1 = Some tpw.2.2.
Proof.
  destruct tpw as [[t p] w]. cbn [fst snd].
  unfold TasksRouter.join_project_workspace. rewrite list_elem_of_bind. split.
  - intros (t' & Hin & Ht').
    destruct (first_by_id (projects db) _) as [p'|] eqn:Hp;
      [|by apply elem_of_nil in Hin].
    destruct (first_by_id (workspaces db) _) as [w'|] eqn:Hw;
      [|by apply elem_of_nil in Hin].
    apply list_elem_of_singleton in Hin. injection Hin as -> -> ->.
    apply first_by_id_inv in Hp as [Hp1 Hp2], Hw as [Hw1 Hw2].
    rewrite Hp1, Hw1. auto.
  - intros (Ht & Hp1 & Hp2 & Hw1 & Hw2). exists t. split; [|done].
    destruct p as [pid p], w as [wid w]. cbn in *. subst pid wid.
    rewrite (first_by_id_Some _ _ _ Hp2). cbn.
    rewrite (first_by_id_Some _ _ _ Hw2). by apply list_elem_of_singleton.
Qed.

Lemma length_join_project_workspace db rows :
  (length (TasksRouter.join_project_workspace db rows) ≤ length rows)%nat.
Proof.
  unfold TasksRouter.join_project_workspace.
  induction rows as [|t rows IH]; cbn; [done|].
  rewrite length_app. repeat case_match; cbn; lia.
Qed.

(** The service lists by project membership: every task it returns lies in
    a project of which the user is a member. *)
Lemma get_tasks_by_user_access_members db user_id status skip limit rows t :
  TaskService.get_tasks_by_user_access db user_id status skip limit = Ok rows →
  t ∈ rows →
  tasks db !! t.1 = Some t.2 ∧ (Task.project_id t.2, user_id) ∈ project_members db.
Proof.
  unfold TaskService.get_tasks_by_user_access.
  intros (user_projects & Hprojects & Hrows)%Res_bind_Ok_inv Ht.
  destruct (user_projects.*1) as [|pid pids] eqn:Hids.
  { injection Hrows as <-. by apply elem_of_nil in Ht. }
  apply offset_limit_subseteq in Hrows. apply Hrows in Ht.
  apply list_elem_of_filter in Ht as [_ Ht].
  apply list_elem_of_filter in Ht as [Hpid Ht].
  split; [by apply elem_of_map_to_list'|].
  rewrite <- Hids in Hpid. apply list_elem_of_fmap in Hpid as (p & Hp1 & Hp).
  unfold ProjectService.get_projects_by_user in Hprojects.
  apply offset_limit_subseteq in Hprojects. apply Hprojects in Hp.
  apply list_elem_of_fmap in Hp as ([p' r] & -> & Hpr).
  apply list_elem_of_filter in Hpr as [Hr Hpr]. cbn in Hr, Hp1.
  apply list_elem_of_bind in Hpr as (p'' & Hpr & _).
  apply list_elem_of_bind in Hpr as (r' & Hpr & Hr').
  case_bool_decide as Heq; [|by apply elem_of_nil in Hpr].
  apply list_elem_of_singleton in Hpr. injection Hpr as <- <-.
  apply elem_of_elements in Hr'. destruct r as [r1 r2]. cbn in *. congruence.
Qed.

(** C6 (as the code has it).  For a user of the database who is not a
    superuser, every task that the handler [read_tasks] returns exists and
    satisfies the read chain (the user owns the workspace, or is a member of
    the workspace or of the project, or is the assignee or the creator of the
    task); with no explicit filter and a window from 0 that holds every task,
    its limit one that the database accepts, the handler returns exactly
    those tasks.  [TaskService.get_tasks_by_user_access] is narrower: every
    task it returns is a stored task of a project of which the user is a
    member. *)
Theorem read_tasks_lists_readable (db : DB) (current_user : Z * User.t) :
  User.is_superuser current_user.2 = false →
  is_Some (users db !! current_user.1) →
  let uid := current_user.1 in
  let readable (t : Z * Task.t) : Prop :=
    tasks db !! t.1 = Some t.2
    ∧ ∃ project workspace,
        projects db !! Task.project_id t.2 = Some project
        ∧ workspaces db !! Project.workspace_id project = Some workspace
        ∧ (Workspace.owner_id workspace = uid
           ∨ (Project.workspace_id project, uid) ∈ workspace_members db
           ∨ (Task.project_id t.2, uid) ∈ project_members db
           ∨ Task.assignee_id t.2 = Some uid
           ∨ Task.created_by_id t.2 = uid) in
  (∀ skip limit project_id status assignee_id rows,
     (TasksRouter.read_tasks skip limit project_id status assignee_id current_user db).1
     = Ok rows →
     ∀ t, t ∈ rows → readable t)
  ∧ (∀ limit,
       Z.of_nat (size (tasks db)) ≤ limit →
       limit ≤ bigint_max →
       ∃ rows,
         TasksRouter.read_tasks 0 limit None None None current_user db = (Ok rows, db)
         ∧ ∀ t, t ∈ rows ↔ readable t)
  ∧ (∀ status skip limit rows,
       TaskService.get_tasks_by_user_access db uid status skip limit = Ok rows →
       ∀ t, t ∈ rows →
            tasks db !! t.1 = Some t.2
            ∧ (Task.project_id t.2, uid) ∈ project_members db).
Proof.
  intros Hsu Hu uid readable.
  assert (Hvisible : ∀ project_id status assignee_id t,
            t ∈ (filter (λ tpw, TasksRouter.access_filter db uid tpw = true)
                   (TasksRouter.join_project_workspace db
                      (filter (λ t, TasksRouter.explicit_filters project_id status
                                      assignee_id t = true)
                         (map_to_list (tasks db))))).*1.*1
            ↔ TasksRouter.explicit_filters project_id status assignee_id t = true
              ∧ readable t).
  { intros project_id status assignee_id t.
    rewrite list_elem_of_fmap. setoid_rewrite list_elem_of_fmap.
    setoid_rewrite list_elem_of_filter.
    setoid_rewrite elem_of_join_project_workspace.
    setoid_rewrite list_elem_of_filter.
    setoid_rewrite elem_of_map_to_list'.
    unfold TasksRouter.access_filter, readable.
    split.
    - intros (tp & -> & [[t' p] w] & -> & Hacc & (Hexp & Ht) & Hp1 & Hp2 & Hw1 & Hw2).
      cbn in *. split; [done|]. split; [done|].
      exists p.2, w.2. rewrite <- Hp1, <- Hw1. split; [done|]. split; [done|].
      rewrite !in_members_true in Hacc by done.
      rewrite !orb_true_iff, !bool_decide_eq_true, opt_eqb_true in Hacc.
      tauto.
    - intros (Hexp & Ht & p & w & Hp & Hw & Hchain).
      exists (t, (Task.project_id t.2, p)). split; [done|].
      exists (t, (Task.project_id t.2, p), (Project.workspace_id p, w)).
      split; [done|]. cbn. split; [|done].
      rewrite !in_members_true by done.
      rewrite !orb_true_iff, !bool_decide_eq_true, opt_eqb_true. tauto. }
  split; [|split].
  - intros skip limit project_id status assignee_id rows.
    unfold TasksRouter.read_tasks. rewrite bind_session, Hsu. cbn [negb lift fst].
    intros Hrows%offset_limit_subseteq t Ht%Hrows. fold uid in Ht.
    by apply Hvisible in Ht as [_ ?].
  - intros limit Hlimit Hmax. eexists.
    unfold TasksRouter.read_tasks. rewrite bind_session, Hsu. cbn [negb lift].
    rewrite offset_limit_all.
    + split; [reflexivity|]. intros t. fold uid. rewrite Hvisible. cbn. tauto.
    + rewrite !length_fmap.
      etrans; [|exact Hlimit]. apply inj_le.
      etrans; [apply length_filter|].
      etrans; [apply length_join_project_workspace|].
      etrans; [apply length_filter|].
      by rewrite length_map_to_list.
    + done.
  - intros status skip limit rows Hrows t Ht.
    by eapply get_tasks_by_user_access_members.
Qed.

(** User 2, the assignee of task 1, gets it from the listing handler. *)
Lemma read_tasks_lists_readable_witness :
  ∃ rows,
    TasksRouter.read_tasks 0 100 None None None (2, plain) sample_db = (Ok rows, sample_db)
    ∧ (1, sample_task) ∈ rows.
Proof.
  destruct (read_tasks_lists_readable sample_db (2, plain) eq_refl
              (ex_intro _ plain eq_refl)) as (_ & Hall & _).
  destruct (Hall 100) as (rows & Hrows & Hin).
  { by vm_compute. }
  { by vm_compute. }
  exists rows. split; [exact Hrows|].
  apply Hin. split; [reflexivity|].
  exists {| Project.name := "P"; Project.description := None; Project.workspace_id := 1;
                 Project.created_at := 0; Project.updated_at := 0 |},
    {| Workspace.name := "W"; Workspace.description := None; Workspace.owner_id := 1;
                 Workspace.created_at := 0; Workspace.updated_at := 0 |}.
  split; [reflexivity|]. split; [reflexivity|].
  right. right. right. left. reflexivity.
Defined.

(** C6, counterexample.  User 2 is the assignee of task 1, so the read chain
    holds, and is a member of no project: the service listing is empty. *)
Lemma service_listing_misses_assigned_task :
  tasks sample_db !! 1 = Some sample_task
  ∧ Task.assignee_id sample_task = Some 2
  ∧ (TasksRouter.read_task 1 (2, plain) sample_db).1 = Ok (1, sample_task)
  ∧ TaskService.get_tasks_by_user_access sample_db 2 None 0 100 = Ok [].
Proof. repeat split; reflexivity. Qed.

(** ** C7: a partial update leaves the unset fields alone *)

Lemma setattrs_only_status db task v :
  setattrs (Task_set db) task (TaskUpdate.dict_exclude_unset (only_status v))
  = match v with
    | Some s =>
      Ok {| Task.title := Task.title task; Task.description := Task.description task;
            Task.status := s; Task.priority := Task.priority task;
            Task.due_date := Task.due_date task; Task.project_id := Task.project_id task;
            Task.assignee_id := Task.assignee_id task;
            Task.created_by_id := Task.created_by_id task;
            Task.created_at := Task.created_at task;
            Task.updated_at := Task.updated_at task |}
    | None => Raise IntegrityError
    end.
Proof. by destruct v. Qed.

(** The flush of an update changes no column but [updated_at]. *)
Lemma Task_flush_columns db stored row :
  let row' := Task_flush db stored row in
  Task.title row' = Task.title row
  ∧ Task.description row' = Task.description row
  ∧ Task.status row' = Task.status row
  ∧ Task.priority row' = Task.priority row
  ∧ Task.due_date row' = Task.due_date row
  ∧ Task.project_id row' = Task.project_id row
  ∧ Task.assignee_id row' = Task.assignee_id row
  ∧ Task.created_by_id row' = Task.created_by_id row
  ∧ Task.created_at row' = Task.created_at row.
Proof. unfold Task_flush. case_bool_decide; subst; cbn; repeat split; done. Qed.

Lemma Task_flush_updated_at db stored row :
  Task.updated_at (Task_flush db stored row)
  = if bool_decide (row = stored) then Task.updated_at stored else clock db.
Proof. unfold Task_flush. by case_bool_decide. Qed.

Lemma Project_flush_columns db stored row :
  let row' := Project_flush db stored row in
  Project.name row' = Project.name row
  ∧ Project.description row' = Project.description row
  ∧ Project.workspace_id row' = Project.workspace_id row
  ∧ Project.created_at row' = Project.created_at row.
Proof. unfold Project_flush. case_bool_decide; subst; cbn; repeat split; done. Qed.

Lemma Project_flush_updated_at db stored row :
  Project.updated_at (Project_flush db stored row)
  = if bool_decide (row = stored) then Project.updated_at stored else clock db.
Proof. unfold Project_flush. by case_bool_decide. Qed.

Lemma Workspace_flush_columns db stored row :
  let row' := Workspace_flush db stored row in
  Workspace.name row' = Workspace.name row
  ∧ Workspace.description row' = Workspace.description row
  ∧ Workspace.owner_id row' = Workspace.owner_id row
  ∧ Workspace.created_at row' = Workspace.created_at row.
Proof. unfold Workspace_flush. case_bool_decide; subst; cbn; repeat split; done. Qed.

Lemma Workspace_flush_updated_at db stored row :
  Workspace.updated_at (Workspace_flush db stored row)
  = if bool_decide (row = stored) then Workspace.updated_at stored else clock db.
Proof. unfold Workspace_flush. by case_bool_decide. Qed.

(** C7.  An authorized update whose payload holds only the status field
    leaves the title, the priority and the assignee of the stored task as
    they were, through the handler and through the service: with a status
    value the call returns the task with the new status and the other columns
    unchanged; with an explicit null the flush fails on the NOT NULL column
    and nothing is written. *)
Theorem update_task_status_only_frame
    (db : DB) (task_id : Z) (task : Task.t) (project : Project.t)
    (workspace : Workspace.t) (current_user : Z * User.t) (v : option TaskStatus) :
  tasks db !! task_id = Some task →
  projects db !! Task.project_id task = Some project →
  workspaces db !! Project.workspace_id project = Some workspace →
  let frame (r : Res (Z * Task.t)) (db' : DB) : Prop :=
    ∃ task',
      tasks db' !! task_id = Some task'
      ∧ Task.title task' = Task.title task
      ∧ Task.priority task' = Task.priority task
      ∧ Task.assignee_id task' = Task.assignee_id task
      ∧ match v with
        | Some s => r = Ok (task_id, task') ∧ Task.status task' = s
        | None => r = Raise IntegrityError ∧ db' = db
        end in
  (User.is_superuser current_user.2 = true
   ∨ Workspace.owner_id workspace = current_user.1
   ∨ Task.created_by_id task = current_user.1
   ∨ Task.assignee_id task = Some current_user.1 →
   let r := TasksRouter.update_task task_id (only_status v) current_user db in
   frame r.1 r.2)
  ∧ (ProjectService.has_access db (Task.project_id task) current_user.1 = true →
     let r := TaskService.update_task task_id (only_status v) current_user.1 db in
     ∃ r', r.1 = Some <$> r' ∧ frame r' r.2).
Proof.
  intros Ht Hp Hw frame. split.
  - intros Hauth r. subst r. unfold TasksRouter.update_task.
    rewrite bind_session, (first_by_id_Some _ _ _ Ht), bind_first_Some.
    cbn [fst snd]. rewrite (first_by_id_Some _ _ _ Hp). cbn [attr].
    rewrite bind_lift_Ok. cbn [fst snd].
    rewrite (first_by_id_Some _ _ _ Hw). cbn [attr fst snd].
    rewrite !or_else_Ok, bind_lift_Ok.
    assert (User.is_superuser current_user.2
            || bool_decide (Workspace.owner_id workspace = current_user.1)
            || bool_decide (Task.created_by_id task = current_user.1)
            || opt_eqb (Task.assignee_id task) current_user.1 = true) as ->.
    { rewrite !orb_true_iff, !bool_decide_eq_true, opt_eqb_true. tauto. }
    rewrite bind_require_true.
    change (truthy_int (field_value (TaskUpdate.assignee_id (only_status v))))
      with (@None Z).
    cbn match. rewrite bind_ret, setattrs_only_status.
    destruct v as [s|].
    + rewrite bind_lift_Ok. cbn zeta. rewrite bind_commit. cbn.
      eexists. split; [apply lookup_insert_eq|].
      match goal with
      | |- context [Task_flush ?d ?a ?b] =>
        destruct (Task_flush_columns d a b) as (-> & _ & -> & -> & _ & _ & -> & _)
      end.
      repeat split; done.
    + rewrite bind_lift_Raise. cbn. exists task. repeat split; done.
  - intros Hacc r. subst r. unfold TaskService.update_task.
    rewrite bind_session, (first_by_id_Some _ _ _ Ht). cbn [fst snd]. cbn zeta.
    rewrite Hacc. cbn [negb].
    change (truthy_int (field_value (TaskUpdate.assignee_id (only_status v))))
      with (@None Z).
    cbn match. rewrite setattrs_only_status.
    destruct v as [s|].
    + rewrite bind_lift_Ok. cbn zeta. rewrite bind_commit. cbn.
      eexists (Ok (task_id, _)). split; [reflexivity|].
      eexists. split; [apply lookup_insert_eq|].
      match goal with
      | |- context [Task_flush ?d ?a ?b] =>
        destruct (Task_flush_columns d a b) as (-> & _ & -> & -> & _ & _ & -> & _)
      end.
      repeat split; done.
    + rewrite bind_lift_Raise. cbn.
      exists (Raise IntegrityError). split; [reflexivity|]. exists task.
      repeat split; done.
Qed.

(** User 2, the assignee, marks task 1 as done. *)
Lemma update_task_status_only_frame_witness :
  ∃ task',
    tasks (TasksRouter.update_task 1 (only_status (Some DONE)) (2, plain) sample_db).2 !! 1
    = Some task'
    ∧ Task.title task' = "Write report"%string
    ∧ Task.priority task' = HIGH
    ∧ Task.assignee_id task' = Some 2
    ∧ Task.status task' = DONE.
Proof.
  destruct (update_task_status_only_frame sample_db 1 sample_task
              {| Project.name := "P"; Project.description := None;
                 Project.workspace_id := 1;
                 Project.created_at := 0; Project.updated_at := 0 |}
              {| Workspace.name := "W"; Workspace.description := None;
                 Workspace.owner_id := 1;
                 Workspace.created_at := 0; Workspace.updated_at := 0 |}
              (2, plain) (Some DONE) eq_refl eq_refl eq_refl) as [Hroute _].
  destruct Hroute as (task' & Hlookup & Htitle & Hpriority & Hassignee & _ & Hstatus).
  { right. right. right. reflexivity. }
  exists task'. auto.
Defined.

(** ** C8: the pagination window *)

(** C8 (as the code has it).  [paginate_query_params] returns a window with
    [skip ≥ 0] and [1 ≤ limit ≤ 1000].  The listing handlers do not call it:
    the rows they return are the window of the caller's own [skip] and
    [limit] over the visible rows. *)
Theorem pagination_window :
  (∀ skip limit,
     let window := paginate_query_params skip limit in
     window = (Z.max 0 skip, Z.max 1 (Z.min limit 1000))
     ∧ 0 ≤ window.1 ∧ 1 ≤ window.2 ≤ 1000)
  ∧ (∀ db current_user, ∃ visible,
       ∀ skip limit,
         WorkspacesRouter.read_workspaces skip limit current_user db
         = (offset_limit skip limit visible, db))
  ∧ (∀ db workspace_id current_user, ∃ visible,
       ∀ skip limit,
         ProjectsRouter.read_projects skip limit workspace_id current_user db
         = (offset_limit skip limit visible, db))
  ∧ (∀ db project_id status assignee_id current_user, ∃ visible,
       ∀ skip limit,
         TasksRouter.read_tasks skip limit project_id status assignee_id current_user db
         = (offset_limit skip limit visible, db)).
Proof.
  split; [|split; [|split]].
  - intros skip limit. unfold paginate_query_params. cbn. split; [done|]. lia.
  - intros db current_user.
    unfold WorkspacesRouter.read_workspaces.
    destruct (User.is_superuser current_user.2); eexists; intros; reflexivity.
  - intros db workspace_id current_user.
    unfold ProjectsRouter.read_projects.
    destruct (User.is_superuser current_user.2); eexists; intros; reflexivity.
  - intros db project_id status assignee_id current_user.
    unfold TasksRouter.read_tasks.
    destruct (User.is_superuser current_user.2); eexists; intros; reflexivity.
Qed.

(** C8, counterexample.  With 1001 workspaces in the database, a superuser
    who asks for [skip = 0] and [limit = 2000] gets 1001 rows, where a window
    clamped to [limit ≤ 1000] holds at most 1000. *)
Lemma read_workspaces_window_not_clamped :
  length <$> (WorkspacesRouter.read_workspaces 0 2000 (9, super) crowded_db).1
  = Ok 1001%nat.
Proof. by vm_compute. Qed.

(** ** C9: project membership and workspace access *)

(** C9.  [ProjectService.add_member] never raises; it returns [False] and
    changes nothing whenever the candidate has no access to the workspace of
    the project; whenever it returns [True] the project exists, the
    candidate has workspace access and is a member afterwards; every
    membership row it adds is the candidate's.  The route-level handler has
    no such check: the owner of workspace 1 adds user 3, who has no access
    to the workspace, to project 1. *)
Theorem project_add_member_requires_workspace_access :
  (∀ db project_id user_id,
     let r := ProjectService.add_member project_id user_id db in
     (∀ project,
        projects db !! project_id = Some project →
        WorkspaceService.has_access db (Project.workspace_id project) user_id = false →
        r = (Ok false, db))
     ∧ (r.1 = Ok false ∧ r.2 = db
        ∨ r.1 = Ok true
          ∧ (project_id, user_id) ∈ project_members r.2
          ∧ ∃ project,
              projects db !! project_id = Some project
              ∧ WorkspaceService.has_access db (Project.workspace_id project) user_id
                = true)
     ∧ (∀ row, row ∈ project_members r.2 → row ∉ project_members db →
        row = (project_id, user_id)))
  ∧ WorkspaceService.has_access sample_db 1 3 = false
  ∧ ∃ project db',
      ProjectsRouter.add_project_member 1 3 (1, plain) sample_db = (Ok project, db')
      ∧ ProjectService.is_member db' 1 3 = true.
Proof.
  split; [|split; [reflexivity|]].
  - intros db project_id user_id r. subst r.
    unfold ProjectService.add_member. rewrite bind_session.
    destruct (projects db !! project_id) as [project|] eqn:Hp.
    2:{ rewrite (first_by_id_None _ _ Hp). cbn. split; [done|]. split; [auto|done]. }
    rewrite (first_by_id_Some _ _ _ Hp). cbn [fst snd].
    destruct (first_by_id (users db) user_id) as [user|]; cbn.
    2:{ split; [done|]. split; [auto|done]. }
    destruct (WorkspaceService.has_access db (Project.workspace_id project) user_id)
      eqn:Hacc; cbn.
    2:{ split; [done|]. split; [auto|done]. }
    case_bool_decide as Hrow; cbn.
    + split; [intros ? [= <-]; congruence|]. split; [|done]. right. eauto.
    + split; [intros ? [= <-]; congruence|]. split.
      * right. split; [done|]. split; [set_solver|eauto].
      * intros row [->%elem_of_singleton|Hin]%elem_of_union Hnot; done.
  - exists (1, {| Project.name := "P"; Project.description := None;
                  Project.workspace_id := 1;
                 Project.created_at := 0; Project.updated_at := 0 |}), stray_member_db.
    split; by vm_compute.
Qed.

(** In the sample database user 3 has no access to workspace 1, and the
    service refuses to add user 3 to project 1. *)
Lemma project_add_member_requires_workspace_access_witness :
  ProjectService.add_member 1 3 sample_db = (Ok false, sample_db).
Proof.
  destruct project_add_member_requires_workspace_access as [Hservice _].
  destruct (Hservice sample_db 1 3) as [Hrefuse _].
  exact (Hrefuse {| Project.name := "P"; Project.description := None;
                    Project.workspace_id := 1;
                 Project.created_at := 0; Project.updated_at := 0 |} eq_refl eq_refl).
Defined.

(** ** C10: workspaces of a user, through the service *)

(** C10.  [WorkspaceService.get_workspaces_by_user] joins the workspaces
    with the membership rows before it filters: a workspace without any
    membership row is in no result, whoever asks, its owner included; the
    call returns exactly when [skip] and [limit] are between 0 and the largest
    bigint. *)
Theorem get_workspaces_by_user_skips_memberless
    (db : DB) (workspace_id user_id skip limit : Z) :
  (∀ uid, (workspace_id, uid) ∉ workspace_members db) →
  (∀ rows workspace,
     WorkspaceService.get_workspaces_by_user db user_id skip limit = Ok rows →
     (workspace_id, workspace) ∉ rows)
  ∧ ((∃ rows, WorkspaceService.get_workspaces_by_user db user_id skip limit = Ok rows)
     ↔ 0 ≤ skip ≤ bigint_max ∧ 0 ≤ limit ≤ bigint_max).
Proof.
  intros Hnone. split.
  - intros rows workspace Hrows Hin.
    unfold WorkspaceService.get_workspaces_by_user in Hrows.
    apply offset_limit_subseteq in Hrows. apply Hrows in Hin.
    rewrite elem_of_remove_dups in Hin.
    apply list_elem_of_fmap in Hin as ([w r] & Hw & Hin). cbn in Hw. subst w.
    apply list_elem_of_filter in Hin as [_ Hin].
    apply list_elem_of_bind in Hin as (w' & Hin & _).
    apply list_elem_of_bind in Hin as (r' & Hin & Hr').
    case_bool_decide as Heq; [|by apply elem_of_nil in Hin].
    apply list_elem_of_singleton in Hin. injection Hin as <- <-.
    apply elem_of_elements in Hr'. destruct r as [wid uid]. cbn in Heq. subst wid.
    by apply (Hnone uid).
  - unfold WorkspaceService.get_workspaces_by_user. apply offset_limit_is_Ok.
Qed.

(** User 2 owns workspace 2 of [memberless_db], which has no membership row:
    the service does not list it for user 2. *)
Lemma get_workspaces_by_user_skips_memberless_witness :
  (Workspace.owner_id <$> workspaces memberless_db !! 2) = Some 2
  ∧ ∃ rows,
      WorkspaceService.get_workspaces_by_user memberless_db 2 0 100 = Ok rows
      ∧ ∀ workspace, (2, workspace) ∉ rows.
Proof.
  split; [reflexivity|].
  destruct (get_workspaces_by_user_skips_memberless memberless_db 2 2 0 100)
    as [Hskip Hret].
  { intros uid Hin. apply elem_of_elements in Hin. vm_compute in Hin.
    apply list_elem_of_singleton in Hin. discriminate Hin. }
  destruct (proj2 Hret) as [rows Hrows]; [by vm_compute|].
  exists rows. split; [exact Hrows|]. intros workspace. by apply Hskip.
Defined.

Example owner_listed_by_route_not_by_service :
  (WorkspacesRouter.read_workspaces 0 100 (2, plain) memberless_db).1
  = Ok [(2, {| Workspace.name := "Second"; Workspace.description := None;
               Workspace.owner_id := 2; Workspace.created_at := 5;
               Workspace.updated_at := 5 |})]
  ∧ WorkspaceService.get_workspaces_by_user memberless_db 2 0 100 = Ok [].
Proof. split; by vm_compute. Qed.

(** * Further properties *)

(** ** Running a handler to its end *)

Lemma bind_assoc {A B C} (m : M A) (f : A → M B) (g : B → M C) db :
  ((m ≫= f) ≫= g) db = (m ≫= λ a, f a ≫= g) db.
Proof. unfold mbind, M_bind. by destruct (m db) as [[a|e] db']. Qed.

(** One step of the run of the computation [X], case by case on what it
    reads. *)
Ltac run_head X :=
  lazymatch X with
  | (session ≫= _) _ => rewrite bind_session
  | (mret _ ≫= _) _ => rewrite bind_ret
  | (commit _ ≫= _) _ => rewrite bind_commit
  | (lift (Ok _) ≫= _) _ => rewrite bind_lift_Ok
  | (lift (Raise _) ≫= _) _ => rewrite bind_lift_Raise
  | (lift ?r ≫= _) _ => destruct r eqn:?
  | (raise _ ≫= _) _ => unfold raise; rewrite bind_lift_Raise
  | (first_or_404 (Some _) _ ≫= _) _ => rewrite bind_first_Some
  | (first_or_404 None _ ≫= _) _ => rewrite bind_first_None
  | (first_or_404 ?o _ ≫= _) _ => destruct o eqn:?
  | (require true _ _ ≫= _) _ => rewrite bind_require_true
  | (require false _ _ ≫= _) _ => rewrite bind_require_false
  | (require ?c _ _ ≫= _) _ => destruct c eqn:?
  | ((_ ≫= _) ≫= _) _ => rewrite bind_assoc
  | (match ?x with _ => _ end ≫= _) _ => destruct x eqn:?
  | (match ?x with _ => _ end) _ => destruct x eqn:?
  | (let _ := _ in _) _ => cbn zeta
  end.

(** ** Referential integrity is kept *)

Lemma references_Ok {A} (tbl : gmap Z A) id u :
  references tbl id = Ok u → is_Some (tbl !! id).
Proof. unfold references. case_bool_decide; [done|discriminate]. Qed.

Lemma references_opt_Ok {A} (tbl : gmap Z A) id u :
  references_opt tbl id = Ok u → ∀ a, id = Some a → is_Some (tbl !! a).
Proof. intros H a ->. by apply references_Ok in H. Qed.

Lemma Workspace_insert_refs db o w :
  Workspace_insert db o = Ok w → is_Some (users db !! Workspace.owner_id w).
Proof.
  unfold Workspace_insert. intros H.
  repeat (apply Res_bind_Ok_inv in H as (? & ? & H)).
  injection H as <-. cbn. by eapply references_Ok.
Qed.

Lemma Project_insert_refs db o p :
  Project_insert db o = Ok p → is_Some (workspaces db !! Project.workspace_id p).
Proof.
  unfold Project_insert. intros H.
  repeat (apply Res_bind_Ok_inv in H as (? & ? & H)).
  injection H as <-. cbn. by eapply references_Ok.
Qed.

Lemma Task_insert_refs db o t : Task_insert db o = Ok t → task_refs db t.
Proof.
  unfold Task_insert. intros H.
  repeat (apply Res_bind_Ok_inv in H as (? & ? & H)).
  injection H as <-. unfold task_refs. cbn.
  split; [|split]; eauto using references_Ok, references_opt_Ok.
Qed.

Lemma Workspace_set_owner db w kv w' :
  Workspace_set db w kv = Ok w' → Workspace.owner_id w' = Workspace.owner_id w.
Proof.
  destruct kv as [k v]. unfold Workspace_set. intros H.
  repeat case_match;
    repeat (apply Res_bind_Ok_inv in H as (? & ? & H)); by injection H as <-.
Qed.

Lemma setattrs_Workspace_owner db d : ∀ w w',
  setattrs (Workspace_set db) w d = Ok w' →
  Workspace.owner_id w' = Workspace.owner_id w.
Proof.
  induction d as [|kv d IH]; intros w w'; cbn; [by intros [= <-]|].
  intros (w1 & H1 & H)%Res_bind_Ok_inv.
  rewrite (IH _ _ H). by eapply Workspace_set_owner.
Qed.

Lemma Project_set_refs db p kv p' :
  Project_set db p kv = Ok p' →
  is_Some (workspaces db !! Project.workspace_id p) →
  is_Some (workspaces db !! Project.workspace_id p').
Proof.
  destruct kv as [k v]. unfold Project_set. intros H Hp.
  repeat case_match;
    repeat (apply Res_bind_Ok_inv in H as (? & ? & H)); injection H as <-; cbn;
    eauto using references_Ok.
Qed.

Lemma setattrs_Project_refs db d : ∀ p p',
  setattrs (Project_set db) p d = Ok p' →
  is_Some (workspaces db !! Project.workspace_id p) →
  is_Some (workspaces db !! Project.workspace_id p').
Proof.
  induction d as [|kv d IH]; intros p p'; cbn; [by intros [= <-]|].
  intros (p1 & H1 & H)%Res_bind_Ok_inv Hp.
  eapply IH; [exact H|]. by eapply Project_set_refs.
Qed.

Lemma Task_set_refs db t kv t' :
  Task_set db t kv = Ok t' → task_refs db t → task_refs db t'.
Proof.
  destruct kv as [k v]. unfold Task_set, task_refs. intros H (Hp & Ha & Hc).
  repeat case_match;
    repeat (apply Res_bind_Ok_inv in H as (? & ? & H)); injection H as <-; cbn;
    (split; [|split]); eauto using references_Ok, references_opt_Ok.
Qed.

Lemma setattrs_Task_refs db d : ∀ t t',
  setattrs (Task_set db) t d = Ok t' → task_refs db t → task_refs db t'.
Proof.
  induction d as [|kv d IH]; intros t t'; cbn; [by intros [= <-]|].
  intros (t1 & H1 & H)%Res_bind_Ok_inv Ht.
  eapply IH; [exact H|]. by eapply Task_set_refs.
Qed.

Lemma ri_task_refs db id t :
  referential_integrity db → tasks db !! id = Some t → task_refs db t.
Proof. intros [_ _ _ _ H1 H2 H3] Ht. split; [|split]; eauto. Qed.

Lemma ri_insert_workspace db id w :
  referential_integrity db →
  is_Some (users db !! Workspace.owner_id w) →
  referential_integrity (with_workspaces <[id := w]> db).
Proof.
  intros [H1 H2 H3 H4 H5 H6 H7] Hw. split; cbn; try done.
  - by apply map_Forall_insert_2.
  - intros r Hr. destruct (H2 r Hr) as [Hr1 Hr2]. split; [|done].
    rewrite lookup_insert_is_Some. destruct (decide (id = r.1)); auto.
  - intros i p Hp. rewrite lookup_insert_is_Some.
    destruct (decide (id = Project.workspace_id p)); eauto.
Qed.

Lemma ri_insert_project db id p :
  referential_integrity db →
  is_Some (workspaces db !! Project.workspace_id p) →
  referential_integrity (with_projects <[id := p]> db).
Proof.
  intros [H1 H2 H3 H4 H5 H6 H7] Hp. split; cbn; try done.
  - by apply map_Forall_insert_2.
  - intros r Hr. destruct (H4 r Hr) as [Hr1 Hr2]. split; [|done].
    rewrite lookup_insert_is_Some. destruct (decide (id = r.1)); auto.
  - intros i t Ht. rewrite lookup_insert_is_Some.
    destruct (decide (id = Task.project_id t)); eauto.
Qed.

Lemma ri_insert_task db id t :
  referential_integrity db → task_refs db t →
  referential_integrity (with_tasks <[id := t]> db).
Proof.
  intros [H1 H2 H3 H4 H5 H6 H7] (Hp & Ha & Hc).
  split; cbn; try done; by apply map_Forall_insert_2.
Qed.

Lemma ri_delete_task db id :
  referential_integrity db → referential_integrity (with_tasks (delete id) db).
Proof.
  intros [H1 H2 H3 H4 H5 H6 H7].
  split; cbn; try done; by apply map_Forall_delete.
Qed.

Lemma ri_add_workspace_member db w u :
  referential_integrity db →
  is_Some (workspaces db !! w) → is_Some (users db !! u) →
  referential_integrity (with_workspace_members (λ rows, {[ (w, u) ]} ∪ rows) db).
Proof.
  intros [H1 H2 H3 H4 H5 H6 H7] Hw Hu. split; cbn; try done.
  intros r [->%elem_of_singleton|Hr]%elem_of_union; [done|by apply H2].
Qed.

Lemma ri_remove_workspace_member db x :
  referential_integrity db →
  referential_integrity (with_workspace_members (λ rows, rows ∖ {[ x ]}) db).
Proof.
  intros [H1 H2 H3 H4 H5 H6 H7]. split; cbn; try done.
  intros r [Hr _]%elem_of_difference. by apply H2.
Qed.

Lemma ri_add_project_member db p u :
  referential_integrity db →
  is_Some (projects db !! p) → is_Some (users db !! u) →
  referential_integrity (with_project_members (λ rows, {[ (p, u) ]} ∪ rows) db).
Proof.
  intros [H1 H2 H3 H4 H5 H6 H7] Hp Hu. split; cbn; try done.
  intros r [->%elem_of_singleton|Hr]%elem_of_union; [done|by apply H4].
Qed.

Lemma ri_remove_project_member db x :
  referential_integrity db →
  referential_integrity (with_project_members (λ rows, rows ∖ {[ x ]}) db).
Proof.
  intros [H1 H2 H3 H4 H5 H6 H7]. split; cbn; try done.
  intros r [Hr _]%elem_of_difference. by apply H4.
Qed.

Lemma ri_delete_project_rows db project_id :
  referential_integrity db → referential_integrity (delete_project_rows project_id db).
Proof.
  intros [H1 H2 H3 H4 H5 H6 H7]. split; cbn; try done.
  - by apply map_Forall_delete.
  - intros r [Hne Hr]%elem_of_filter. destruct (H4 r Hr) as [Hr1 Hr2].
    split; [|done]. by rewrite lookup_delete_ne.
  - intros i t [Ht Hne]%map_lookup_filter_Some. cbn in Hne.
    rewrite lookup_delete_ne by done. by eapply H5.
  - intros i t [Ht _]%map_lookup_filter_Some. by eapply H6.
  - intros i t [Ht _]%map_lookup_filter_Some. by eapply H7.
Qed.

(** ** What a delete removes *)

Lemma delete_project_rows_spec project_id db :
  let db' := delete_project_rows project_id db in
  users db' = users db
  ∧ workspaces db' = workspaces db
  ∧ workspace_members db' = workspace_members db
  ∧ (∀ i p, projects db' !! i = Some p ↔ i ≠ project_id ∧ projects db !! i = Some p)
  ∧ (∀ r, r ∈ project_members db' ↔ r ∈ project_members db ∧ r.1 ≠ project_id)
  ∧ (∀ i t, tasks db' !! i = Some t
            ↔ tasks db !! i = Some t ∧ Task.project_id t ≠ project_id).
Proof.
  cbn. do 3 (split; [done|]). split; [|split].
  - intros i p. rewrite lookup_delete_Some.
    split; intros [? ?]; (split; [congruence|done]).
  - intros r. rewrite elem_of_filter. tauto.
  - intros i t. rewrite map_lookup_filter_Some. cbn. tauto.
Qed.

Lemma foldr_delete_project_rows_spec (doomed : list Z) db :
  let db' := foldr delete_project_rows db doomed in
  users db' = users db
  ∧ workspaces db' = workspaces db
  ∧ workspace_members db' = workspace_members db
  ∧ (∀ i p, projects db' !! i = Some p ↔ (i ∉ doomed) ∧ projects db !! i = Some p)
  ∧ (∀ r, r ∈ project_members db' ↔ r ∈ project_members db ∧ r.1 ∉ doomed)
  ∧ (∀ i t, tasks db' !! i = Some t
            ↔ tasks db !! i = Some t ∧ Task.project_id t ∉ doomed).
Proof.
  induction doomed as [|x doomed IH]; cbn zeta.
  - cbn. repeat split; try tauto; try (by intros ?%elem_of_nil).
  - cbn [foldr].
    destruct IH as (IH1 & IH2 & IH3 & IH4 & IH5 & IH6).
    destruct (delete_project_rows_spec x (foldr delete_project_rows db doomed))
      as (S1 & S2 & S3 & S4 & S5 & S6).
    rewrite S1, S2, S3, IH1, IH2, IH3. do 3 (split; [done|]).
    split; [|split].
    + intros i p. rewrite S4, IH4, not_elem_of_cons. tauto.
    + intros r. rewrite S5, IH5, not_elem_of_cons. tauto.
    + intros i t. rewrite S6, IH6, not_elem_of_cons. tauto.
Qed.

Lemma delete_workspace_rows_spec workspace_id db :
  let db' := delete_workspace_rows workspace_id db in
  let doomed i := ∃ p, projects db !! i = Some p ∧ Project.workspace_id p = workspace_id in
  users db' = users db
  ∧ (∀ i w, workspaces db' !! i = Some w ↔ i ≠ workspace_id ∧ workspaces db !! i = Some w)
  ∧ (∀ r, r ∈ workspace_members db' ↔ r ∈ workspace_members db ∧ r.1 ≠ workspace_id)
  ∧ (∀ i p, projects db' !! i = Some p
            ↔ projects db !! i = Some p ∧ Project.workspace_id p ≠ workspace_id)
  ∧ (∀ r, r ∈ project_members db' ↔ r ∈ project_members db ∧ ¬ doomed r.1)
  ∧ (∀ i t, tasks db' !! i = Some t
            ↔ tasks db !! i = Some t ∧ ¬ doomed (Task.project_id t)).
Proof.
  intros db' doomed. subst db'. unfold delete_workspace_rows.
  set (ids := (filter _ (map_to_list (projects db))).*1).
  assert (Hids : ∀ i, i ∈ ids ↔ doomed i).
  { intros i. subst ids. rewrite list_elem_of_fmap. split.
    - intros ([i' p] & -> & [Hp Hin]%list_elem_of_filter).
      apply elem_of_map_to_list in Hin. by exists p.
    - intros (p & Hp & Hw). exists (i, p). split; [done|].
      apply list_elem_of_filter. split; [done|]. by apply elem_of_map_to_list. }
  destruct (foldr_delete_project_rows_spec ids db) as (S1 & S2 & S3 & S4 & S5 & S6).
  cbn. rewrite S1, S2, S3. split; [done|]. split; [|split; [|split; [|split]]].
  - intros i w. rewrite lookup_delete_Some.
    split; intros [? ?]; (split; [congruence|done]).
  - intros r. rewrite elem_of_filter. tauto.
  - intros i p. rewrite S4, Hids. split.
    + intros [Hnot Hp]. split; [done|]. intros Hw. apply Hnot. by exists p.
    + intros [Hp Hw]. split; [|done]. intros (p' & Hp' & Hw'). congruence.
  - intros r. by rewrite S5, Hids.
  - intros i t. by rewrite S6, Hids.
Qed.

Lemma ri_delete_workspace_rows db workspace_id :
  referential_integrity db →
  referential_integrity (delete_workspace_rows workspace_id db).
Proof.
  intros [H1 H2 H3 H4 H5 H6 H7].
  destruct (delete_workspace_rows_spec workspace_id db) as (S1 & S2 & S3 & S4 & S5 & S6).
  split.
  - intros i w [_ Hw]%S2. rewrite S1. by eapply H1.
  - intros r [Hr Hne]%S3. destruct (H2 r Hr) as [[w Hw] Hu].
    rewrite S1. split; [|done]. exists w. by apply S2.
  - intros i p [Hp Hne]%S4. destruct (H3 i p Hp) as [w Hw].
    exists w. by apply S2.
  - intros r [Hr Hnot]%S5. destruct (H4 r Hr) as [[p Hp] Hu].
    rewrite S1. split; [|done]. exists p. apply S4. split; [done|].
    intros Hw. apply Hnot. by exists p.
  - intros i t [Ht Hnot]%S6. destruct (H5 i t Ht) as [p Hp].
    exists p. apply S4. split; [done|]. intros Hw. apply Hnot. by exists p.
  - intros i t [Ht _]%S6. rewrite S1. by eapply H6.
  - intros i t [Ht _]%S6. rewrite S1. by eapply H7.
Qed.

Lemma first_by_id_is_Some {A} (tbl : gmap Z A) id x :
  first_by_id tbl id = Some x → is_Some (tbl !! x.1).
Proof. intros [-> H]%first_by_id_inv. eauto. Qed.

Lemma ri_update_workspace db id w row d :
  referential_integrity db →
  workspaces db !! id = Some w →
  setattrs (Workspace_set db) w d = Ok row →
  referential_integrity (with_workspaces <[id := Workspace_flush db w row]> db).
Proof.
  intros Hri Hw Hrow. apply ri_insert_workspace; [done|].
  destruct (Workspace_flush_columns db w row) as (_ & _ & -> & _).
  rewrite (setattrs_Workspace_owner _ _ _ _ Hrow).
  by eapply (ri_workspace_owner _ Hri).
Qed.

Lemma ri_update_project db id p row d :
  referential_integrity db →
  projects db !! id = Some p →
  setattrs (Project_set db) p d = Ok row →
  referential_integrity (with_projects <[id := Project_flush db p row]> db).
Proof.
  intros Hri Hp Hrow. apply ri_insert_project; [done|].
  destruct (Project_flush_columns db p row) as (_ & _ & -> & _).
  eapply setattrs_Project_refs; [exact Hrow|].
  by eapply (ri_project_workspace _ Hri).
Qed.

Lemma ri_update_task db id t row d :
  referential_integrity db →
  tasks db !! id = Some t →
  setattrs (Task_set db) t d = Ok row →
  referential_integrity (with_tasks <[id := Task_flush db t row]> db).
Proof.
  intros Hri Ht Hrow. apply ri_insert_task; [done|].
  assert (task_refs db row) as Hrefs.
  { eapply setattrs_Task_refs; [exact Hrow|]. by eapply ri_task_refs. }
  unfold task_refs.
  by destruct (Task_flush_columns db t row) as (_ & _ & _ & _ & _ & -> & -> & -> & _).
Qed.

Lemma ri_with_clock db t :
  referential_integrity db → referential_integrity (with_clock t db).
Proof. by intros []. Qed.

Ltac ri_run :=
  unfold add_workspace, add_project, add_task;
  repeat match goal with
         | |- referential_integrity (?X).2 => run_head X
         end;
  unfold mret, M_ret, lift, raise; cbn [snd fst];
  try assumption.

Ltac ri_facts :=
  repeat match goal with
         | H : first_by_id _ _ = Some ?x |- _ =>
           apply first_by_id_inv in H as [? H]; destruct x; cbn [fst snd] in *; subst
         end.

Lemma requests_keep_referential_integrity current_user r db :
  referential_integrity db → referential_integrity (handle current_user r db).
Proof.
  intros Hri. destruct r; cbn [handle].
  - unfold WorkspacesRouter.read_workspaces. ri_run.
  - unfold WorkspacesRouter.create_workspace. ri_run.
    eauto using ri_insert_workspace, Workspace_insert_refs.
  - unfold WorkspacesRouter.read_workspace. ri_run.
  - unfold WorkspacesRouter.update_workspace. ri_run. ri_facts.
    eauto using ri_update_workspace.
  - unfold WorkspacesRouter.delete_workspace. ri_run.
    by apply ri_delete_workspace_rows.
  - unfold WorkspacesRouter.add_workspace_member. ri_run. ri_facts.
    by apply ri_add_workspace_member.
  - unfold WorkspacesRouter.remove_workspace_member. ri_run.
    by apply ri_remove_workspace_member.
  - unfold ProjectsRouter.read_projects. ri_run.
  - unfold ProjectsRouter.create_project. ri_run. ri_facts.
    apply ri_add_project_member.
    + eauto using ri_insert_project, Project_insert_refs.
    + cbn. rewrite lookup_insert_eq. eauto.
    + cbn. eauto using references_Ok.
  - unfold ProjectsRouter.read_project. ri_run.
  - unfold ProjectsRouter.update_project. ri_run. ri_facts.
    eauto using ri_update_project.
  - unfold ProjectsRouter.delete_project. ri_run.
    by apply ri_delete_project_rows.
  - unfold ProjectsRouter.add_project_member. ri_run. ri_facts.
    by apply ri_add_project_member.
  - unfold ProjectsRouter.remove_project_member. ri_run.
    by apply ri_remove_project_member.
  - unfold TasksRouter.read_tasks. ri_run.
  - unfold TasksRouter.create_task. ri_run.
    all: eauto using ri_insert_task, Task_insert_refs.
  - unfold TasksRouter.read_task. ri_run.
  - unfold TasksRouter.update_task. ri_run. all: ri_facts.
    all: eauto using ri_update_task.
  - unfold TasksRouter.delete_task. ri_run.
    by apply ri_delete_task.
Qed.

Lemma service_create_task_state task project_id creator_id db :
  (TaskService.create_task task project_id creator_id db).2 = db.
Proof.
  unfold TaskService.create_task. rewrite bind_session. cbn zeta.
  repeat case_match; try done.
  all: match goal with
       | |- context [declarative_init Task.attributes ?kw] =>
         change (declarative_init Task.attributes kw) with (@Raise pydict TypeError)
       end.
  all: by rewrite bind_lift_Raise.
Qed.

Lemma service_calls_keep_referential_integrity c db :
  referential_integrity db → referential_integrity (serve c db).
Proof.
  intros Hri. destruct c; cbn [serve].
  - unfold WorkspaceService.create_workspace, WorkspaceService.add_member. ri_run.
    all: ri_facts.
    all: eauto using ri_insert_workspace, Workspace_insert_refs, ri_add_workspace_member.
  - unfold WorkspaceService.update_workspace. ri_run. ri_facts.
    eauto using ri_update_workspace.
  - unfold WorkspaceService.delete_workspace. ri_run.
    by apply ri_delete_workspace_rows.
  - unfold WorkspaceService.add_member. ri_run. ri_facts.
    by apply ri_add_workspace_member.
  - unfold WorkspaceService.remove_member. ri_run.
    by apply ri_remove_workspace_member.
  - unfold ProjectService.create_project, ProjectService.add_member. ri_run.
    all: ri_facts.
    all: eauto using ri_insert_project, Project_insert_refs, ri_add_project_member.
  - unfold ProjectService.update_project. ri_run. ri_facts.
    eauto using ri_update_project.
  - unfold ProjectService.delete_project. ri_run.
    by apply ri_delete_project_rows.
  - unfold ProjectService.add_member. ri_run. ri_facts.
    by apply ri_add_project_member.
  - unfold ProjectService.remove_member. ri_run.
    by apply ri_remove_project_member.
  - by rewrite service_create_task_state.
  - unfold TaskService.update_task. ri_run. all: ri_facts.
    all: eauto using ri_update_task.
  - unfold TaskService.update_task_status. ri_run. ri_facts.
    eapply (ri_update_task _ _ _ _ [_]); [done..|]. cbn. by rewrite Heqr.
  - unfold TaskService.delete_task. ri_run.
    by apply ri_delete_task.
Qed.

(** X1.  Every request served by the three routers and every call of the
    three services keeps the foreign keys of the models valid: from a
    database in which each reference points to a stored row, any trace of
    requests and service calls, with any time passing in between, leads to
    such a database. *)
Theorem traces_keep_referential_integrity (trace : list Step) (db : DB) :
  referential_integrity db → referential_integrity (run trace db).
Proof.
  unfold run. revert db. induction trace as [|s trace IH]; intros db Hri; [done|].
  cbn [foldl]. apply IH. destruct s; cbn [step].
  - by apply requests_keep_referential_integrity.
  - by apply service_calls_keep_referential_integrity.
  - by apply ri_with_clock.
Qed.

Lemma sample_db_integrity : referential_integrity sample_db.
Proof.
  split.
  all: try (apply map_Forall_to_list); try (apply set_Forall_elements).
  all: vm_compute map_to_list; vm_compute elements.
  all: repeat constructor; cbn; try (by vm_compute); eauto.
  intros a [= <-]. by eexists.
Qed.

(** Two requests on the sample database: the owner deletes workspace 1, then
    user 2 creates a workspace. *)
Lemma traces_keep_referential_integrity_witness :
  referential_integrity
    (run [Request_by (1, plain) (Delete_workspace 1);
          Request_by (2, plain) (Create_workspace sample_workspace_in)]
       sample_db).
Proof. apply traces_keep_referential_integrity. exact sample_db_integrity. Defined.

(** ** No handler crashes on a consistent database *)

Lemma raises_only_Ok {A} P (a : A) : raises_only P (Ok a).
Proof. intros e; discriminate. Qed.

Lemma raises_only_bind {A B} P (m : Res A) (f : A → Res B) :
  raises_only P m → (∀ a, raises_only P (f a)) → raises_only P (m ≫= f).
Proof.
  intros Hm Hf e. destruct m as [a|e']; cbn.
  - apply Hf.
  - intros [= ->]. by apply Hm.
Qed.

Lemma orm_notnull {A} (x : option A) : raises_only orm_error (notnull x).
Proof. intros e. destruct x; intros [= <-]. unfold orm_error; auto. Qed.
Lemma orm_references {A} (tbl : gmap Z A) id : raises_only orm_error (references tbl id).
Proof.
  intros e. unfold references. case_bool_decide; intros [= <-].
  unfold orm_error; auto.
Qed.
Lemma orm_references_opt {A} (tbl : gmap Z A) id :
  raises_only orm_error (references_opt tbl id).
Proof. destruct id; cbn; [apply orm_references | apply raises_only_Ok]. Qed.
Lemma orm_as_str v : raises_only orm_error (as_str v).
Proof. intros e. destruct v as [[]|]; intros [= <-]; unfold orm_error; auto. Qed.
Lemma orm_as_int v : raises_only orm_error (as_int v).
Proof. intros e. destruct v as [[]|]; intros [= <-]; unfold orm_error; auto. Qed.
Lemma orm_as_datetime v : raises_only orm_error (as_datetime v).
Proof. intros e. destruct v as [[]|]; intros [= <-]; unfold orm_error; auto. Qed.
Lemma orm_as_status v : raises_only orm_error (as_status v).
Proof. intros e. destruct v as [[]|]; intros [= <-]; unfold orm_error; auto. Qed.
Lemma orm_as_priority v : raises_only orm_error (as_priority v).
Proof. intros e. destruct v as [[]|]; intros [= <-]; unfold orm_error; auto. Qed.
Lemma orm_declarative_init attributes kwargs :
  raises_only orm_error (declarative_init attributes kwargs).
Proof.
  intros e. unfold declarative_init. case_match; intros [= <-].
  unfold orm_error; auto.
Qed.

Create HintDb orm.
#[local] Hint Resolve raises_only_Ok orm_notnull orm_references orm_references_opt
  orm_as_str orm_as_int orm_as_datetime orm_as_status orm_as_priority
  orm_declarative_init : orm.

Ltac solve_orm :=
  repeat first
    [ progress auto with orm
    | apply raises_only_bind; [|intros ?]
    | case_match ].

Lemma orm_Workspace_insert db o : raises_only orm_error (Workspace_insert db o).
Proof. unfold Workspace_insert. solve_orm. Qed.
Lemma orm_Project_insert db o : raises_only orm_error (Project_insert db o).
Proof. unfold Project_insert. solve_orm. Qed.
Lemma orm_Task_insert db o : raises_only orm_error (Task_insert db o).
Proof. unfold Task_insert. solve_orm. Qed.
Lemma orm_Workspace_set db w kv : raises_only orm_error (Workspace_set db w kv).
Proof. unfold Workspace_set. solve_orm. Qed.
Lemma orm_Project_set db p kv : raises_only orm_error (Project_set db p kv).
Proof. unfold Project_set. solve_orm. Qed.
Lemma orm_Task_set db t kv : raises_only orm_error (Task_set db t kv).
Proof. unfold Task_set. solve_orm. Qed.

Lemma orm_setattrs {R} (set : R → string * pyval → Res R) d :
  (∀ r kv, raises_only orm_error (set r kv)) →
  ∀ r, raises_only orm_error (setattrs set r d).
Proof.
  intros Hset. induction d as [|kv d IH]; intros r; cbn.
  - apply raises_only_Ok.
  - apply raises_only_bind; auto.
Qed.

#[local] Hint Resolve orm_Workspace_insert orm_Project_insert orm_Task_insert
  orm_Workspace_set orm_Project_set orm_Task_set orm_setattrs : orm.

Lemma orm_error_not_attribute {A B} (r : Res A) e :
  raises_only orm_error r → r = Raise e → Raise (A:=B) e ≠ Raise AttributeError.
Proof. intros Hr He [= ->]. by destruct (Hr _ He) as [?|[?|?]]. Qed.

Lemma and_then_Ok a b : Ok a &&& Ok b = Ok (a && b).
Proof. by destruct a. Qed.

Lemma ri_first_project db t task :
  referential_integrity db →
  first_by_id (tasks db) t = Some task →
  ∃ p, first_by_id (projects db) (Task.project_id task.2)
       = Some (Task.project_id task.2, p).
Proof.
  intros Hri [_ Ht]%first_by_id_inv.
  destruct (ri_task_project _ Hri _ _ Ht) as [p Hp].
  exists p. by apply first_by_id_Some.
Qed.

Lemma ri_first_workspace db i project :
  referential_integrity db →
  first_by_id (projects db) i = Some project →
  ∃ w, first_by_id (workspaces db) (Project.workspace_id project.2)
       = Some (Project.workspace_id project.2, w).
Proof.
  intros Hri [_ Hp]%first_by_id_inv.
  destruct (ri_project_workspace _ Hri _ _ Hp) as [w Hw].
  exists w. by apply first_by_id_Some.
Qed.

Lemma ri_first_workspace' db i j p :
  referential_integrity db →
  first_by_id (projects db) i = Some (j, p) →
  ∃ w, first_by_id (workspaces db) (Project.workspace_id p)
       = Some (Project.workspace_id p, w).
Proof. apply ri_first_workspace. Qed.

Ltac crash_free_step :=
  first
    [ match goal with
      | Hri : referential_integrity ?db,
        H : first_by_id (projects ?db) _ = Some (_, ?p)
        |- context [first_by_id (workspaces ?db) (Project.workspace_id ?p)] =>
        let w := fresh "w" in
        let Hw := fresh "Hw" in
        destruct (ri_first_workspace' _ _ _ _ Hri H) as [w Hw]; rewrite Hw
      | Hri : referential_integrity ?db,
        H : first_by_id (tasks ?db) _ = Some ?t
        |- context [first_by_id (projects ?db) (Task.project_id ?t.2)] =>
        let p := fresh "p" in
        let Hp := fresh "Hp" in
        destruct (ri_first_project _ _ _ Hri H) as [p Hp]; rewrite Hp
      | Hri : referential_integrity ?db,
        H : first_by_id (projects ?db) _ = Some ?p
        |- context [first_by_id (workspaces ?db) (Project.workspace_id ?p.2)] =>
        let w := fresh "w" in
        let Hw := fresh "Hw" in
        destruct (ri_first_workspace _ _ _ Hri H) as [w Hw]; rewrite Hw
      end
    | progress cbn [attr fst snd]
    | rewrite or_else_Ok
    | rewrite and_then_Ok
    | match goal with |- (?X).1 ≠ _ => run_head X end ].

Ltac crash_free :=
  unfold add_task;
  repeat crash_free_step;
  unfold mret, M_ret, lift, raise; cbn [fst];
  try discriminate;
  try match goal with
      | H : ?r = Raise ?e |- Raise ?e ≠ _ =>
        refine (orm_error_not_attribute r e _ H); auto 8 with orm
      end.

(** X2.  On a database whose foreign keys are valid, no handler of the
    projects and tasks routers fails with the [AttributeError] of an
    attribute read on a missing project or workspace. *)
Theorem handlers_crash_free (db : DB) (current_user : Z * User.t) :
  referential_integrity db →
  (∀ project_id,
     (ProjectsRouter.read_project project_id current_user db).1 ≠ Raise AttributeError)
  ∧ (∀ project_id project_in,
       (ProjectsRouter.update_project project_id project_in current_user db).1
       ≠ Raise AttributeError)
  ∧ (∀ project_id,
       (ProjectsRouter.delete_project project_id current_user db).1
       ≠ Raise AttributeError)
  ∧ (∀ project_id user_id,
       (ProjectsRouter.add_project_member project_id user_id current_user db).1
       ≠ Raise AttributeError)
  ∧ (∀ project_id user_id,
       (ProjectsRouter.remove_project_member project_id user_id current_user db).1
       ≠ Raise AttributeError)
  ∧ (∀ task_in,
       (TasksRouter.create_task task_in current_user db).1 ≠ Raise AttributeError)
  ∧ (∀ task_id,
       (TasksRouter.read_task task_id current_user db).1 ≠ Raise AttributeError)
  ∧ (∀ task_id task_in,
       (TasksRouter.update_task task_id task_in current_user db).1
       ≠ Raise AttributeError)
  ∧ (∀ task_id,
       (TasksRouter.delete_task task_id current_user db).1 ≠ Raise AttributeError).
Proof.
  intros Hri.
  repeat match goal with |- _ ∧ _ => split end.
  - intros. unfold ProjectsRouter.read_project. crash_free.
  - intros. unfold ProjectsRouter.update_project. crash_free.
  - intros. unfold ProjectsRouter.delete_project. crash_free.
  - intros. unfold ProjectsRouter.add_project_member. crash_free.
  - intros. unfold ProjectsRouter.remove_project_member. crash_free.
  - intros. unfold TasksRouter.create_task. crash_free.
  - intros. unfold TasksRouter.read_task. crash_free.
  - intros. unfold TasksRouter.update_task. crash_free.
  - intros. unfold TasksRouter.delete_task. crash_free.
Qed.

(** Any user reads task 1 of the sample database without a crash. *)
Lemma handlers_crash_free_witness :
  (TasksRouter.read_task 1 (3, plain) sample_db).1 ≠ Raise AttributeError.
Proof.
  destruct (handlers_crash_free sample_db (3, plain) sample_db_integrity)
    as (_ & _ & _ & _ & _ & _ & Hread & _).
  apply Hread.
Defined.

Example read_task_crashes_on_dangling_project :
  (TasksRouter.read_task 1 (1, plain) dangling_db).1 = Raise AttributeError
  ∧ (TasksRouter.delete_task 1 (1, plain) dangling_db).1 = Raise AttributeError.
Proof. split; reflexivity. Qed.

(** ** Who may manage a workspace or a project *)

(** A permission guard followed by a rest that never answers 403. *)
Lemma guard_denied_iff {A} (cond : bool) (rest : unit → M A) (db : DB) (P : Prop) :
  (cond = true ↔ P) →
  (rest () db).1 ≠ Raise forbidden →
  let r := (require cond 403 "Not enough permissions" ≫= rest) db in
  (r.1 = Raise forbidden ↔ ¬ P) ∧ (r.1 = Raise forbidden → r.2 = db).
Proof.
  intros HP Hrest r. subst r. destruct cond.
  - rewrite bind_require_true. split; [|done]. split; [done|].
    intros HnP. destruct HnP. by apply HP.
  - rewrite bind_require_false. cbn. split; [|done]. split; [|done].
    intros _ HP'. apply HP in HP'. discriminate.
Qed.

Lemma manager_reflect (su : bool) (owner_id uid : Z) :
  su || bool_decide (owner_id = uid) = true ↔ su = true ∨ owner_id = uid.
Proof. by rewrite orb_true_iff, bool_decide_eq_true. Qed.

(** X3.  For a stored workspace, each of the four managing handlers of the
    workspaces router (update, delete, add member, remove member) answers
    403 exactly when the actor is neither a superuser nor the owner of the
    workspace, whatever the payload, and a 403 leaves the database as it
    was: being a member does not open any of them. *)
Theorem workspace_management_authorization
    (db : DB) (workspace_id : Z) (workspace : Workspace.t) (current_user : Z * User.t) :
  workspaces db !! workspace_id = Some workspace →
  let manager := User.is_superuser current_user.2 = true
                 ∨ Workspace.owner_id workspace = current_user.1 in
  let denied_iff (r : Res (Z * Workspace.t) * DB) :=
    (r.1 = Raise forbidden ↔ ¬ manager) ∧ (r.1 = Raise forbidden → r.2 = db) in
  (∀ workspace_in,
     denied_iff (WorkspacesRouter.update_workspace workspace_id workspace_in current_user db))
  ∧ denied_iff (WorkspacesRouter.delete_workspace workspace_id current_user db)
  ∧ (∀ user_id,
       denied_iff (WorkspacesRouter.add_workspace_member workspace_id user_id current_user db))
  ∧ (∀ user_id,
       denied_iff
         (WorkspacesRouter.remove_workspace_member workspace_id user_id current_user db)).
Proof.
  intros Hw manager denied_iff. subst denied_iff manager. cbn beta.
  split; [|split; [|split]]; intros.
  - unfold WorkspacesRouter.update_workspace.
    rewrite bind_session, (first_by_id_Some _ _ _ Hw), bind_first_Some. cbn [fst snd].
    apply guard_denied_iff; [apply manager_reflect|nf].
  - unfold WorkspacesRouter.delete_workspace.
    rewrite bind_session, (first_by_id_Some _ _ _ Hw), bind_first_Some. cbn [fst snd].
    apply guard_denied_iff; [apply manager_reflect|nf].
  - unfold WorkspacesRouter.add_workspace_member.
    rewrite bind_session, (first_by_id_Some _ _ _ Hw), bind_first_Some. cbn [fst snd].
    apply guard_denied_iff; [apply manager_reflect|nf].
  - unfold WorkspacesRouter.remove_workspace_member.
    rewrite bind_session, (first_by_id_Some _ _ _ Hw), bind_first_Some. cbn [fst snd].
    apply guard_denied_iff; [apply manager_reflect|nf].
Qed.

(** User 2 is a member of workspace 1 of [member_db] and not its owner: the
    delete is refused. *)
Lemma workspace_management_authorization_witness :
  WorkspaceService.is_member member_db 1 2 = true
  ∧ (WorkspacesRouter.delete_workspace 1 (2, plain) member_db).1 = Raise forbidden.
Proof.
  split; [reflexivity|].
  destruct (workspace_management_authorization member_db 1 sample_workspace (2, plain)
              eq_refl) as (_ & [Hdel _] & _).
  apply Hdel. intros [H|H]; discriminate H.
Defined.

(** X4.  For a stored project of a stored workspace, each of the four
    managing handlers of the projects router (update, delete, add member,
    remove member) answers 403 exactly when the actor is neither a superuser
    nor the owner of the workspace, and a 403 leaves the database as it was:
    being a member of the project or of the workspace does not open any of
    them. *)
Theorem project_management_authorization
    (db : DB) (project_id : Z) (project : Project.t) (workspace : Workspace.t)
    (current_user : Z * User.t) :
  projects db !! project_id = Some project →
  workspaces db !! Project.workspace_id project = Some workspace →
  let manager := User.is_superuser current_user.2 = true
                 ∨ Workspace.owner_id workspace = current_user.1 in
  let denied_iff (r : Res (Z * Project.t) * DB) :=
    (r.1 = Raise forbidden ↔ ¬ manager) ∧ (r.1 = Raise forbidden → r.2 = db) in
  (∀ project_in,
     denied_iff (ProjectsRouter.update_project project_id project_in current_user db))
  ∧ denied_iff (ProjectsRouter.delete_project project_id current_user db)
  ∧ (∀ user_id,
       denied_iff (ProjectsRouter.add_project_member project_id user_id current_user db))
  ∧ (∀ user_id,
       denied_iff (ProjectsRouter.remove_project_member project_id user_id current_user db)).
Proof.
  intros Hp Hw manager denied_iff. subst denied_iff manager. cbn beta.
  split; [|split; [|split]]; intros.
  - unfold ProjectsRouter.update_project.
    rewrite bind_session, (first_by_id_Some _ _ _ Hp), bind_first_Some. cbn [fst snd].
    rewrite (first_by_id_Some _ _ _ Hw). cbn [attr snd].
    rewrite or_else_Ok, bind_lift_Ok.
    apply guard_denied_iff; [apply manager_reflect|nf].
  - unfold ProjectsRouter.delete_project.
    rewrite bind_session, (first_by_id_Some _ _ _ Hp), bind_first_Some. cbn [fst snd].
    rewrite (first_by_id_Some _ _ _ Hw). cbn [attr snd].
    rewrite or_else_Ok, bind_lift_Ok.
    apply guard_denied_iff; [apply manager_reflect|nf].
  - unfold ProjectsRouter.add_project_member.
    rewrite bind_session, (first_by_id_Some _ _ _ Hp), bind_first_Some. cbn [fst snd].
    rewrite (first_by_id_Some _ _ _ Hw). cbn [attr snd].
    rewrite or_else_Ok, bind_lift_Ok.
    apply guard_denied_iff; [apply manager_reflect|nf].
  - unfold ProjectsRouter.remove_project_member.
    rewrite bind_session, (first_by_id_Some _ _ _ Hp), bind_first_Some. cbn [fst snd].
    rewrite (first_by_id_Some _ _ _ Hw). cbn [attr snd].
    rewrite or_else_Ok, bind_lift_Ok.
    apply guard_denied_iff; [apply manager_reflect|nf].
Qed.

(** User 2 is a member of workspace 1 and of project 1 in
    [project_member_db]: the update of the project is refused. *)
Lemma project_management_authorization_witness :
  WorkspaceService.is_member project_member_db 1 2 = true
  ∧ ProjectService.is_member project_member_db 1 2 = true
  ∧ ∀ project_in,
      (ProjectsRouter.update_project 1 project_in (2, plain) project_member_db).1
      = Raise forbidden.
Proof.
  split; [reflexivity|]. split; [reflexivity|]. intros project_in.
  destruct (project_management_authorization project_member_db 1 sample_project
              sample_workspace (2, plain) eq_refl eq_refl) as (Hupd & _).
  apply Hupd. intros [H|H]; discriminate H.
Defined.

(** ** The permission hierarchy *)

Lemma read_workspace_outcome db workspace_id workspace current_user :
  workspaces db !! workspace_id = Some workspace →
  WorkspacesRouter.read_workspace workspace_id current_user db
  = (if User.is_superuser current_user.2
        || bool_decide (Workspace.owner_id workspace = current_user.1)
        || in_members (workspace_members db) db workspace_id current_user.1
     then Ok (workspace_id, workspace) else Raise forbidden, db).
Proof.
  intros Hw. unfold WorkspacesRouter.read_workspace.
  rewrite bind_session, (first_by_id_Some _ _ _ Hw), bind_first_Some. cbn [fst snd].
  by destruct (_ || in_members _ _ _ _).
Qed.

Lemma read_project_outcome db project_id project workspace current_user :
  projects db !! project_id = Some project →
  workspaces db !! Project.workspace_id project = Some workspace →
  ProjectsRouter.read_project project_id current_user db
  = (if User.is_superuser current_user.2
        || bool_decide (Workspace.owner_id workspace = current_user.1)
        || in_members (workspace_members db) db (Project.workspace_id project)
             current_user.1
        || in_members (project_members db) db project_id current_user.1
     then Ok (project_id, project) else Raise forbidden, db).
Proof.
  intros Hp Hw. unfold ProjectsRouter.read_project.
  rewrite bind_session, (first_by_id_Some _ _ _ Hp), bind_first_Some. cbn [fst snd].
  rewrite (first_by_id_Some _ _ _ Hw). cbn [attr fst snd].
  rewrite !or_else_Ok, bind_lift_Ok.
  by destruct (_ || in_members (project_members _) _ _ _).
Qed.

Lemma read_task_outcome db task_id task project workspace current_user :
  tasks db !! task_id = Some task →
  projects db !! Task.project_id task = Some project →
  workspaces db !! Project.workspace_id project = Some workspace →
  TasksRouter.read_task task_id current_user db
  = (if User.is_superuser current_user.2
        || bool_decide (Workspace.owner_id workspace = current_user.1)
        || in_members (workspace_members db) db (Project.workspace_id project)
             current_user.1
        || in_members (project_members db) db (Task.project_id task) current_user.1
        || opt_eqb (Task.assignee_id task) current_user.1
        || bool_decide (Task.created_by_id task = current_user.1)
     then Ok (task_id, task) else Raise forbidden, db).
Proof.
  intros Ht Hp Hw. unfold TasksRouter.read_task.
  rewrite bind_session, (first_by_id_Some _ _ _ Ht), bind_first_Some. cbn [fst snd].
  rewrite (first_by_id_Some _ _ _ Hp). cbn [attr fst snd]. rewrite bind_lift_Ok.
  rewrite (first_by_id_Some _ _ _ Hw). cbn [attr fst snd].
  rewrite !or_else_Ok, bind_lift_Ok.
  by destruct (_ || bool_decide (Task.created_by_id _ = _)).
Qed.

(** X5.  Read access is inherited down the hierarchy: along a stored chain
    workspace, project, task, whoever gets the workspace from its read
    handler gets the project from its read handler, and whoever gets the
    project gets the task. *)
Theorem read_access_inherited
    (db : DB) (task_id : Z) (task : Task.t) (project : Project.t)
    (workspace : Workspace.t) (current_user : Z * User.t) :
  tasks db !! task_id = Some task →
  projects db !! Task.project_id task = Some project →
  workspaces db !! Project.workspace_id project = Some workspace →
  ((WorkspacesRouter.read_workspace (Project.workspace_id project) current_user db).1
   = Ok (Project.workspace_id project, workspace) →
   (ProjectsRouter.read_project (Task.project_id task) current_user db).1
   = Ok (Task.project_id task, project))
  ∧ ((ProjectsRouter.read_project (Task.project_id task) current_user db).1
     = Ok (Task.project_id task, project) →
     (TasksRouter.read_task task_id current_user db).1 = Ok (task_id, task)).
Proof.
  intros Ht Hp Hw.
  rewrite (read_workspace_outcome _ _ _ _ Hw), (read_project_outcome _ _ _ _ _ Hp Hw),
    (read_task_outcome _ _ _ _ _ _ Ht Hp Hw). cbn [fst].
  split.
  - destruct (_ || in_members (workspace_members _) _ _ _); [done|discriminate].
  - destruct (_ || in_members (project_members _) _ _ _); [done|discriminate].
Qed.

(** User 2 is a member of workspace 1 only, and reads task 1 of project 1. *)
Lemma read_access_inherited_witness :
  ProjectService.is_member member_db 1 2 = false
  ∧ (ProjectsRouter.read_project 1 (2, plain) member_db).1 = Ok (1, sample_project)
  ∧ (TasksRouter.read_task 1 (2, plain) member_db).1 = Ok (1, sample_task).
Proof.
  split; [reflexivity|].
  destruct (read_access_inherited member_db 1 sample_task sample_project
              sample_workspace (2, plain) eq_refl eq_refl eq_refl) as [Hwp Hpt].
  assert (Hproject : (ProjectsRouter.read_project 1 (2, plain) member_db).1
                     = Ok (1, sample_project)) by (apply Hwp; reflexivity).
  split; [exact Hproject|]. apply Hpt. exact Hproject.
Defined.

Lemma update_workspace_denied db workspace_id workspace current_user workspace_in :
  workspaces db !! workspace_id = Some workspace →
  User.is_superuser current_user.2
  || bool_decide (Workspace.owner_id workspace = current_user.1) = false →
  (WorkspacesRouter.update_workspace workspace_id workspace_in current_user db).1
  = Raise forbidden.
Proof.
  intros Hw Hm. unfold WorkspacesRouter.update_workspace.
  rewrite bind_session, (first_by_id_Some _ _ _ Hw), bind_first_Some. cbn [fst snd].
  by rewrite Hm, bind_require_false.
Qed.

Lemma update_project_denied db project_id project workspace current_user project_in :
  projects db !! project_id = Some project →
  workspaces db !! Project.workspace_id project = Some workspace →
  User.is_superuser current_user.2
  || bool_decide (Workspace.owner_id workspace = current_user.1) = false →
  (ProjectsRouter.update_project project_id project_in current_user db).1
  = Raise forbidden.
Proof.
  intros Hp Hw Hm. unfold ProjectsRouter.update_project.
  rewrite bind_session, (first_by_id_Some _ _ _ Hp), bind_first_Some. cbn [fst snd].
  rewrite (first_by_id_Some _ _ _ Hw). cbn [attr snd].
  by rewrite or_else_Ok, bind_lift_Ok, Hm, bind_require_false.
Qed.

Lemma update_task_denied db task_id task project workspace current_user task_in :
  tasks db !! task_id = Some task →
  projects db !! Task.project_id task = Some project →
  workspaces db !! Project.workspace_id project = Some workspace →
  (TasksRouter.update_task task_id task_in current_user db).1 = Raise forbidden
  ↔ User.is_superuser current_user.2
    || bool_decide (Workspace.owner_id workspace = current_user.1)
    || bool_decide (Task.created_by_id task = current_user.1)
    || opt_eqb (Task.assignee_id task) current_user.1 = false.
Proof.
  intros Ht Hp Hw. unfold TasksRouter.update_task.
  rewrite bind_session, (first_by_id_Some _ _ _ Ht), bind_first_Some. cbn [fst snd].
  rewrite (first_by_id_Some _ _ _ Hp). cbn [attr fst snd]. rewrite bind_lift_Ok.
  rewrite (first_by_id_Some _ _ _ Hw). cbn [attr fst snd].
  rewrite !or_else_Ok, bind_lift_Ok.
  destruct (_ || opt_eqb _ _).
  - rewrite bind_require_true. split; [|done]. intros H. exfalso. revert H. nf.
  - by rewrite bind_require_false.
Qed.

Lemma delete_task_denied db task_id task project workspace current_user :
  tasks db !! task_id = Some task →
  projects db !! Task.project_id task = Some project →
  workspaces db !! Project.workspace_id project = Some workspace →
  (TasksRouter.delete_task task_id current_user db).1 = Raise forbidden
  ↔ User.is_superuser current_user.2
    || bool_decide (Workspace.owner_id workspace = current_user.1)
    || bool_decide (Task.created_by_id task = current_user.1) = false.
Proof.
  intros Ht Hp Hw. unfold TasksRouter.delete_task.
  rewrite bind_session, (first_by_id_Some _ _ _ Ht), bind_first_Some. cbn [fst snd].
  rewrite (first_by_id_Some _ _ _ Hp). cbn [attr fst snd]. rewrite bind_lift_Ok.
  rewrite (first_by_id_Some _ _ _ Hw). cbn [attr fst snd].
  rewrite !or_else_Ok, bind_lift_Ok.
  destruct (_ || bool_decide (Task.created_by_id _ = _)).
  - rewrite bind_require_true. split; [|done]. intros H. exfalso. revert H. nf.
  - by rewrite bind_require_false.
Qed.

(** X6.  Management implies read at every level: along a stored chain
    workspace, project, task, an actor whom the update handler of the
    workspace (of the project, of the task) does not answer with 403 gets
    the workspace (the project, the task) from its read handler; and an actor
    allowed to delete the task is allowed to update it. *)
Theorem management_implies_read
    (db : DB) (task_id : Z) (task : Task.t) (project : Project.t)
    (workspace : Workspace.t) (current_user : Z * User.t) :
  tasks db !! task_id = Some task →
  projects db !! Task.project_id task = Some project →
  workspaces db !! Project.workspace_id project = Some workspace →
  (∀ workspace_in,
     (WorkspacesRouter.update_workspace (Project.workspace_id project) workspace_in
        current_user db).1 ≠ Raise forbidden →
     (WorkspacesRouter.read_workspace (Project.workspace_id project) current_user db).1
     = Ok (Project.workspace_id project, workspace))
  ∧ (∀ project_in,
       (ProjectsRouter.update_project (Task.project_id task) project_in current_user db).1
       ≠ Raise forbidden →
       (ProjectsRouter.read_project (Task.project_id task) current_user db).1
       = Ok (Task.project_id task, project))
  ∧ (∀ task_in,
       (TasksRouter.update_task task_id task_in current_user db).1 ≠ Raise forbidden →
       (TasksRouter.read_task task_id current_user db).1 = Ok (task_id, task))
  ∧ (∀ task_in,
       (TasksRouter.delete_task task_id current_user db).1 ≠ Raise forbidden →
       (TasksRouter.update_task task_id task_in current_user db).1 ≠ Raise forbidden).
Proof.
  intros Ht Hp Hw.
  rewrite (read_workspace_outcome _ _ _ _ Hw), (read_project_outcome _ _ _ _ _ Hp Hw),
    (read_task_outcome _ _ _ _ _ _ Ht Hp Hw). cbn [fst].
  split; [|split; [|split]].
  - intros workspace_in Hnot.
    destruct (User.is_superuser current_user.2
              || bool_decide (Workspace.owner_id workspace = current_user.1)) eqn:Hm;
      [done|].
    destruct Hnot. by eapply update_workspace_denied.
  - intros project_in Hnot.
    destruct (User.is_superuser current_user.2
              || bool_decide (Workspace.owner_id workspace = current_user.1)) eqn:Hm;
      [done|].
    destruct Hnot. by eapply update_project_denied.
  - intros task_in Hnot.
    rewrite (update_task_denied _ _ _ _ _ _ _ Ht Hp Hw) in Hnot.
    apply not_false_is_true in Hnot.
    rewrite !orb_true_iff in Hnot. destruct Hnot as [[[->| ->]| ->]| ->];
      by rewrite ?orb_true_r.
  - intros task_in.
    rewrite (update_task_denied _ _ _ _ _ _ _ Ht Hp Hw),
      (delete_task_denied _ _ _ _ _ _ Ht Hp Hw).
    intros Hdel%not_false_is_true. by rewrite Hdel.
Qed.

(** User 2, assignee of task 1 of [sample_db] and nothing else, may update
    the task and so may read it. *)
Lemma management_implies_read_witness :
  WorkspaceService.is_member sample_db 1 2 = false
  ∧ ProjectService.is_member sample_db 1 2 = false
  ∧ (TasksRouter.read_task 1 (2, plain) sample_db).1 = Ok (1, sample_task).
Proof.
  split; [reflexivity|]. split; [reflexivity|].
  destruct (management_implies_read sample_db 1 sample_task sample_project
              sample_workspace (2, plain) eq_refl eq_refl eq_refl) as (_ & _ & Hread & _).
  apply (Hread (only_status None)). by vm_compute.
Defined.

(** ** Creation is open to the readers of the parent *)

(** X7.  Creating below a parent asks for the right to read the parent: for
    a stored workspace, [create_project] answers 403 exactly when
    [read_workspace] of the target workspace does, and for a stored project
    of a stored workspace, [create_task] answers 403 exactly when
    [read_project] of the target project does, whatever else the payload
    holds; the refused creation leaves the database as it was. *)
Theorem creation_needs_read_of_parent (db : DB) (current_user : Z * User.t) :
  (∀ project_in workspace,
     workspaces db !! ProjectCreate.workspace_id project_in = Some workspace →
     let r := ProjectsRouter.create_project project_in current_user db in
     (r.1 = Raise forbidden
      ↔ (WorkspacesRouter.read_workspace (ProjectCreate.workspace_id project_in)
           current_user db).1 = Raise forbidden)
     ∧ (r.1 = Raise forbidden → r.2 = db))
  ∧ (∀ task_in project workspace,
       projects db !! TaskCreate.project_id task_in = Some project →
       workspaces db !! Project.workspace_id project = Some workspace →
       let r := TasksRouter.create_task task_in current_user db in
       (r.1 = Raise forbidden
        ↔ (ProjectsRouter.read_project (TaskCreate.project_id task_in)
             current_user db).1 = Raise forbidden)
       ∧ (r.1 = Raise forbidden → r.2 = db)).
Proof.
  split.
  - intros project_in workspace Hw r. subst r.
    rewrite (read_workspace_outcome _ _ _ _ Hw).
    unfold ProjectsRouter.create_project.
    rewrite bind_session, (first_by_id_Some _ _ _ Hw), bind_first_Some. cbn [fst snd].
    destruct (_ || in_members _ _ _ _).
    + rewrite bind_require_true. split; [|intros H; exfalso; revert H; nf].
      split; [intros H; exfalso; revert H; nf|done].
    + by rewrite bind_require_false.
  - intros task_in project workspace Hp Hw r. subst r.
    rewrite (read_project_outcome _ _ _ _ _ Hp Hw).
    unfold TasksRouter.create_task.
    rewrite bind_session, (first_by_id_Some _ _ _ Hp), bind_first_Some. cbn [fst snd].
    rewrite (first_by_id_Some _ _ _ Hw). cbn [attr fst snd].
    rewrite !or_else_Ok, bind_lift_Ok.
    destruct (_ || in_members (project_members _) _ _ _).
    + rewrite bind_require_true. split; [|intros H; exfalso; revert H; nf].
      split; [intros H; exfalso; revert H; nf|done].
    + by rewrite bind_require_false.
Qed.

(** User 3 reads neither workspace 1 nor project 1 of [sample_db] and can
    create nothing below them. *)
Lemma creation_needs_read_of_parent_witness :
  (TasksRouter.create_task (sample_task_in None) (3, plain) sample_db).1 = Raise forbidden.
Proof.
  destruct (creation_needs_read_of_parent sample_db (3, plain)) as [_ Htask].
  destruct (Htask (sample_task_in None) sample_project sample_workspace eq_refl eq_refl)
    as [Hiff _].
  apply Hiff. reflexivity.
Defined.

(** ** Deleting a project, deleting a workspace *)

(** X8.  A manager deleting a stored project gets the deleted project back,
    and the service [delete_project] leaves the same database as the route:
    the project is gone together with its membership rows and its tasks, and
    nothing else is touched (users, workspaces, workspace members, the other
    projects with their members and tasks). *)
Theorem delete_project_cascades
    (db : DB) (project_id : Z) (project : Project.t) (workspace : Workspace.t)
    (current_user : Z * User.t) :
  projects db !! project_id = Some project →
  workspaces db !! Project.workspace_id project = Some workspace →
  User.is_superuser current_user.2 = true ∨ Workspace.owner_id workspace = current_user.1 →
  let r := ProjectsRouter.delete_project project_id current_user db in
  r.1 = Ok (project_id, project)
  ∧ ProjectService.delete_project project_id db = (Ok true, r.2)
  ∧ users r.2 = users db
  ∧ workspaces r.2 = workspaces db
  ∧ workspace_members r.2 = workspace_members db
  ∧ (∀ i p, projects r.2 !! i = Some p ↔ i ≠ project_id ∧ projects db !! i = Some p)
  ∧ (∀ i u, (i, u) ∈ project_members r.2 ↔ (i, u) ∈ project_members db ∧ i ≠ project_id)
  ∧ (∀ i t, tasks r.2 !! i = Some t
            ↔ tasks db !! i = Some t ∧ Task.project_id t ≠ project_id).
Proof.
  intros Hp Hw Hm%manager_reflect r. subst r.
  unfold ProjectsRouter.delete_project, ProjectService.delete_project.
  rewrite !bind_session, (first_by_id_Some _ _ _ Hp), bind_first_Some. cbn [fst snd].
  rewrite (first_by_id_Some _ _ _ Hw). cbn [attr snd].
  rewrite or_else_Ok, bind_lift_Ok, Hm, bind_require_true, !bind_commit.
  change ((mret (project_id, project) : M _) (delete_project_rows project_id db))
    with (Ok (project_id, project), delete_project_rows project_id db).
  cbn [fst snd]. split; [done|]. split; [done|].
  destruct (delete_project_rows_spec project_id db) as (S1 & S2 & S3 & S4 & S5 & S6).
  do 4 (split; [done|]). split; [|done].
  intros i u. apply (S5 (i, u)).
Qed.

(** The owner deletes project 1 of [sample_db]: task 1 goes with it. *)
Lemma delete_project_cascades_witness :
  tasks (ProjectsRouter.delete_project 1 (1, plain) sample_db).2 !! 1 = None.
Proof.
  destruct (delete_project_cascades sample_db 1 sample_project sample_workspace (1, plain)
              eq_refl eq_refl (or_intror eq_refl)) as (_ & _ & _ & _ & _ & _ & _ & Htasks).
  apply eq_None_not_Some. intros [t Ht]. apply Htasks in Ht as [Ht Hne].
  vm_compute in Ht. injection Ht as <-. by apply Hne.
Defined.

(** X9.  A manager deleting a stored workspace gets the deleted workspace
    back, and the service [delete_workspace] leaves the same database as the
    route: the workspace is gone with its membership rows, its projects,
    their membership rows and their tasks; users and the rows of the other
    workspaces stay. *)
Theorem delete_workspace_cascades
    (db : DB) (workspace_id : Z) (workspace : Workspace.t) (current_user : Z * User.t) :
  workspaces db !! workspace_id = Some workspace →
  User.is_superuser current_user.2 = true ∨ Workspace.owner_id workspace = current_user.1 →
  let r := WorkspacesRouter.delete_workspace workspace_id current_user db in
  let doomed i := ∃ p, projects db !! i = Some p ∧ Project.workspace_id p = workspace_id in
  r.1 = Ok (workspace_id, workspace)
  ∧ WorkspaceService.delete_workspace workspace_id db = (Ok true, r.2)
  ∧ users r.2 = users db
  ∧ (∀ i w, workspaces r.2 !! i = Some w ↔ i ≠ workspace_id ∧ workspaces db !! i = Some w)
  ∧ (∀ i u, (i, u) ∈ workspace_members r.2
            ↔ (i, u) ∈ workspace_members db ∧ i ≠ workspace_id)
  ∧ (∀ i p, projects r.2 !! i = Some p
            ↔ projects db !! i = Some p ∧ Project.workspace_id p ≠ workspace_id)
  ∧ (∀ i u, (i, u) ∈ project_members r.2 ↔ (i, u) ∈ project_members db ∧ ¬ doomed i)
  ∧ (∀ i t, tasks r.2 !! i = Some t
            ↔ tasks db !! i = Some t ∧ ¬ doomed (Task.project_id t)).
Proof.
  intros Hw Hm%manager_reflect r doomed. subst r.
  unfold WorkspacesRouter.delete_workspace, WorkspaceService.delete_workspace.
  rewrite !bind_session, (first_by_id_Some _ _ _ Hw), bind_first_Some. cbn [fst snd].
  rewrite Hm, bind_require_true, !bind_commit.
  change ((mret (workspace_id, workspace) : M _) (delete_workspace_rows workspace_id db))
    with (Ok (workspace_id, workspace), delete_workspace_rows workspace_id db).
  cbn [fst snd]. split; [done|]. split; [done|].
  destruct (delete_workspace_rows_spec workspace_id db) as (S1 & S2 & S3 & S4 & S5 & S6).
  do 2 (split; [done|]). split; [|split; [done|split; [|done]]].
  - intros i u. apply (S3 (i, u)).
  - intros i u. apply (S5 (i, u)).
Qed.

(** The superuser deletes workspace 1 of [sample_db]: project 1 and task 1
    go with it, the users stay. *)
Lemma delete_workspace_cascades_witness :
  let db := (WorkspacesRouter.delete_workspace 1 (9, super) sample_db).2 in
  projects db !! 1 = None ∧ tasks db !! 1 = None ∧ users db = users sample_db.
Proof.
  destruct (delete_workspace_cascades sample_db 1 sample_workspace (9, super)
              eq_refl (or_introl eq_refl)) as (_ & _ & Husers & _ & _ & Hprojects & _ & Htasks).
  cbn zeta. split; [|split; [|done]].
  - apply eq_None_not_Some. intros [p Hp]. apply Hprojects in Hp as [Hp Hne].
    vm_compute in Hp. injection Hp as <-. by apply Hne.
  - apply eq_None_not_Some. intros [t Ht]. apply Htasks in Ht as [Ht Hnot].
    vm_compute in Ht. injection Ht as <-. apply Hnot. by exists sample_project.
Defined.

(** ** Adding and removing members *)

Lemma remove_added_workspace_member db x :
  x ∉ workspace_members db →
  with_workspace_members (λ rows, rows ∖ {[ x ]})
    (with_workspace_members (λ rows, {[ x ]} ∪ rows) db) = db.
Proof.
  intros Hx. destruct db. unfold with_workspace_members. cbn in *. f_equal.
  apply set_eq. intros y. rewrite elem_of_difference, elem_of_union, elem_of_singleton.
  split; [by intros [[->|Hy] Hne]|]. intros Hy. split; [by right|]. by intros ->.
Qed.

Lemma remove_added_project_member db x :
  x ∉ project_members db →
  with_project_members (λ rows, rows ∖ {[ x ]})
    (with_project_members (λ rows, {[ x ]} ∪ rows) db) = db.
Proof.
  intros Hx. destruct db. unfold with_project_members. cbn in *. f_equal.
  apply set_eq. intros y. rewrite elem_of_difference, elem_of_union, elem_of_singleton.
  split; [by intros [[->|Hy] Hne]|]. intros Hy. split; [by right|]. by intros ->.
Qed.

(** X10.  Workspace membership round trip.  A manager adding a stored user
    who is not yet a member gets the workspace back and the user is a member
    afterwards; the service [add_member] leaves the same database; adding
    the user again is a 400 that changes nothing; removing the user restores
    the database from before the add, by the route and by the service; and
    removing a user who is not a member is a 400 that changes nothing. *)
Theorem workspace_membership_round_trip
    (db : DB) (workspace_id user_id : Z) (workspace : Workspace.t) (user : User.t)
    (current_user : Z * User.t) :
  workspaces db !! workspace_id = Some workspace →
  users db !! user_id = Some user →
  User.is_superuser current_user.2 = true ∨ Workspace.owner_id workspace = current_user.1 →
  (workspace_id, user_id) ∉ workspace_members db →
  let added := WorkspacesRouter.add_workspace_member workspace_id user_id current_user db in
  added.1 = Ok (workspace_id, workspace)
  ∧ WorkspaceService.is_member added.2 workspace_id user_id = true
  ∧ WorkspaceService.add_member workspace_id user_id db = (Ok true, added.2)
  ∧ WorkspacesRouter.add_workspace_member workspace_id user_id current_user added.2
    = (Raise (HTTPException 400 "User already in workspace"), added.2)
  ∧ WorkspacesRouter.remove_workspace_member workspace_id user_id current_user added.2
    = (Ok (workspace_id, workspace), db)
  ∧ WorkspaceService.remove_member workspace_id user_id added.2 = (Ok true, db)
  ∧ WorkspacesRouter.remove_workspace_member workspace_id user_id current_user db
    = (Raise (HTTPException 400 "User not in workspace"), db).
Proof.
  intros Hw Hu Hm%manager_reflect Hnot added.
  assert (Hadded : added = (Ok (workspace_id, workspace),
            with_workspace_members (λ rows, {[ (workspace_id, user_id) ]} ∪ rows) db)).
  { subst added. unfold WorkspacesRouter.add_workspace_member.
    rewrite bind_session, (first_by_id_Some _ _ _ Hw), bind_first_Some. cbn [fst snd].
    rewrite Hm, bind_require_true, (first_by_id_Some _ _ _ Hu), bind_first_Some.
    cbn [fst snd]. unfold in_members.
    rewrite (bool_decide_false _ Hnot). cbn [andb negb].
    by rewrite bind_require_true, bind_commit. }
  rewrite Hadded. cbn [fst snd]. clear added Hadded.
  set (db' := with_workspace_members _ db).
  assert (Hin : (workspace_id, user_id) ∈ workspace_members db').
  { subst db'. cbn. set_solver. }
  split; [done|]. split; [by apply bool_decide_eq_true|]. split; [|split; [|split; [|split]]].
  - unfold WorkspaceService.add_member.
    rewrite bind_session, (first_by_id_Some _ _ _ Hw), (first_by_id_Some _ _ _ Hu).
    rewrite (bool_decide_false _ Hnot). by rewrite bind_commit.
  - unfold WorkspacesRouter.add_workspace_member.
    rewrite bind_session.
    change (workspaces db') with (workspaces db). change (users db') with (users db).
    rewrite (first_by_id_Some _ _ _ Hw), bind_first_Some. cbn [fst snd].
    rewrite Hm, bind_require_true, (first_by_id_Some _ _ _ Hu), bind_first_Some.
    cbn [fst snd]. unfold in_members. change (users db') with (users db).
    rewrite (bool_decide_true _ Hin), (bool_decide_true (is_Some _)) by (by eexists).
    cbn [andb negb]. by rewrite bind_require_false.
  - unfold WorkspacesRouter.remove_workspace_member.
    rewrite bind_session.
    change (workspaces db') with (workspaces db). change (users db') with (users db).
    rewrite (first_by_id_Some _ _ _ Hw), bind_first_Some. cbn [fst snd].
    rewrite Hm, bind_require_true, (first_by_id_Some _ _ _ Hu), bind_first_Some.
    cbn [fst snd]. unfold in_members. change (users db') with (users db).
    rewrite (bool_decide_true _ Hin), (bool_decide_true (is_Some _)) by (by eexists).
    cbn [andb]. rewrite bind_require_true, bind_commit.
    subst db'. by rewrite remove_added_workspace_member.
  - unfold WorkspaceService.remove_member.
    rewrite bind_session, bind_commit, (bool_decide_true _ Hin).
    subst db'. by rewrite remove_added_workspace_member.
  - unfold WorkspacesRouter.remove_workspace_member.
    rewrite bind_session, (first_by_id_Some _ _ _ Hw), bind_first_Some. cbn [fst snd].
    rewrite Hm, bind_require_true, (first_by_id_Some _ _ _ Hu), bind_first_Some.
    cbn [fst snd]. unfold in_members.
    rewrite (bool_decide_false _ Hnot). cbn [andb]. by rewrite bind_require_false.
Qed.

(** The owner adds user 2 to workspace 1 of [sample_db] and removes them
    again. *)
Lemma workspace_membership_round_trip_witness :
  WorkspacesRouter.remove_workspace_member 1 2 (1, plain) member_db
  = (Ok (1, sample_workspace), sample_db).
Proof.
  destruct (workspace_membership_round_trip sample_db 1 2 sample_workspace plain (1, plain)
              eq_refl eq_refl (or_intror eq_refl))
    as (_ & _ & _ & _ & Hremove & _); [by vm_compute|].
  exact Hremove.
Defined.

(** X11.  Project membership round trip by the routes.  A manager adding a
    stored user who is not yet a member of the project gets the project back
    and the user is a member afterwards, whether or not the user belongs to
    the workspace; adding the user again is a 400 that changes nothing;
    removing the user restores the database from before the add, by the
    route and by the service; and removing a user who is not a member is a
    400 that changes nothing. *)
Theorem project_membership_round_trip
    (db : DB) (project_id user_id : Z) (project : Project.t) (workspace : Workspace.t)
    (user : User.t) (current_user : Z * User.t) :
  projects db !! project_id = Some project →
  workspaces db !! Project.workspace_id project = Some workspace →
  users db !! user_id = Some user →
  User.is_superuser current_user.2 = true ∨ Workspace.owner_id workspace = current_user.1 →
  (project_id, user_id) ∉ project_members db →
  let added := ProjectsRouter.add_project_member project_id user_id current_user db in
  added.1 = Ok (project_id, project)
  ∧ ProjectService.is_member added.2 project_id user_id = true
  ∧ ProjectsRouter.add_project_member project_id user_id current_user added.2
    = (Raise (HTTPException 400 "User already in project"), added.2)
  ∧ ProjectsRouter.remove_project_member project_id user_id current_user added.2
    = (Ok (project_id, project), db)
  ∧ ProjectService.remove_member project_id user_id added.2 = (Ok true, db)
  ∧ ProjectsRouter.remove_project_member project_id user_id current_user db
    = (Raise (HTTPException 400 "User not in project"), db).
Proof.
  intros Hp Hw Hu Hm%manager_reflect Hnot added.
  assert (Hadded : added = (Ok (project_id, project),
            with_project_members (λ rows, {[ (project_id, user_id) ]} ∪ rows) db)).
  { subst added. unfold ProjectsRouter.add_project_member.
    rewrite bind_session, (first_by_id_Some _ _ _ Hp), bind_first_Some. cbn [fst snd].
    rewrite (first_by_id_Some _ _ _ Hw). cbn [attr snd].
    rewrite or_else_Ok, bind_lift_Ok, Hm, bind_require_true.
    rewrite (first_by_id_Some _ _ _ Hu), bind_first_Some.
    cbn [fst snd]. unfold in_members.
    rewrite (bool_decide_false _ Hnot). cbn [andb negb].
    by rewrite bind_require_true, bind_commit. }
  rewrite Hadded. cbn [fst snd]. clear added Hadded.
  set (db' := with_project_members _ db).
  assert (Hin : (project_id, user_id) ∈ project_members db').
  { subst db'. cbn. set_solver. }
  split; [done|]. split; [by apply bool_decide_eq_true|]. split; [|split; [|split]].
  - unfold ProjectsRouter.add_project_member.
    rewrite bind_session.
    change (projects db') with (projects db). change (workspaces db') with (workspaces db).
    change (users db') with (users db).
    rewrite (first_by_id_Some _ _ _ Hp), bind_first_Some. cbn [fst snd].
    rewrite (first_by_id_Some _ _ _ Hw). cbn [attr snd].
    rewrite or_else_Ok, bind_lift_Ok, Hm, bind_require_true.
    rewrite (first_by_id_Some _ _ _ Hu), bind_first_Some.
    cbn [fst snd]. unfold in_members. change (users db') with (users db).
    rewrite (bool_decide_true _ Hin), (bool_decide_true (is_Some _)) by (by eexists).
    cbn [andb negb]. by rewrite bind_require_false.
  - unfold ProjectsRouter.remove_project_member.
    rewrite bind_session.
    change (projects db') with (projects db). change (workspaces db') with (workspaces db).
    change (users db') with (users db).
    rewrite (first_by_id_Some _ _ _ Hp), bind_first_Some. cbn [fst snd].
    rewrite (first_by_id_Some _ _ _ Hw). cbn [attr snd].
    rewrite or_else_Ok, bind_lift_Ok, Hm, bind_require_true.
    rewrite (first_by_id_Some _ _ _ Hu), bind_first_Some.
    cbn [fst snd]. unfold in_members. change (users db') with (users db).
    rewrite (bool_decide_true _ Hin), (bool_decide_true (is_Some _)) by (by eexists).
    cbn [andb]. rewrite bind_require_true, bind_commit.
    subst db'. by rewrite remove_added_project_member.
  - unfold ProjectService.remove_member.
    rewrite bind_session, bind_commit, (bool_decide_true _ Hin).
    subst db'. by rewrite remove_added_project_member.
  - unfold ProjectsRouter.remove_project_member.
    rewrite bind_session, (first_by_id_Some _ _ _ Hp), bind_first_Some. cbn [fst snd].
    rewrite (first_by_id_Some _ _ _ Hw). cbn [attr snd].
    rewrite or_else_Ok, bind_lift_Ok, Hm, bind_require_true.
    rewrite (first_by_id_Some _ _ _ Hu), bind_first_Some.
    cbn [fst snd]. unfold in_members.
    rewrite (bool_decide_false _ Hnot). cbn [andb]. by rewrite bind_require_false.
Qed.

(** The owner adds user 3, who is not in workspace 1, to project 1 of
    [sample_db]. *)
Lemma project_membership_round_trip_witness :
  WorkspaceService.has_access sample_db 1 3 = false
  ∧ ProjectService.is_member
      (ProjectsRouter.add_project_member 1 3 (1, plain) sample_db).2 1 3 = true.
Proof.
  split; [reflexivity|].
  destruct (project_membership_round_trip sample_db 1 3 sample_project sample_workspace
              plain (1, plain) eq_refl eq_refl eq_refl (or_intror eq_refl))
    as (_ & Hmember & _); [by vm_compute|].
  exact Hmember.
Defined.

(** ** Creating a project *)

Lemma references_stored {A} (tbl : gmap Z A) id a :
  tbl !! id = Some a → references tbl id = Ok ().
Proof.
  intros H. unfold references. rewrite bool_decide_true; [done|by eexists].
Qed.

Lemma has_access_reflect db workspace_id workspace uid :
  workspaces db !! workspace_id = Some workspace →
  WorkspaceService.has_access db workspace_id uid
  = bool_decide (Workspace.owner_id workspace = uid)
    || bool_decide ((workspace_id, uid) ∈ workspace_members db).
Proof.
  intros Hw. unfold WorkspaceService.has_access, WorkspaceService.is_owner,
    WorkspaceService.is_member.
  by rewrite (first_by_id_Some _ _ _ Hw).
Qed.

(** X12.  A stored user with access to a stored workspace (its owner or one
    of its members) creates a project in it: the handler returns the new
    project under an id that was not in use, with the name, the description
    and the workspace of the payload and both timestamps at the time of the
    request; the database gains this project and
    the membership row of the creator and nothing else changes; and
    [ProjectService.create_project] returns the same project and leaves the
    same database. *)
Theorem create_project_adds_creator
    (db : DB) (project_in : ProjectCreate.t) (workspace : Workspace.t)
    (current_user : Z * User.t) (user : User.t) :
  workspaces db !! ProjectCreate.workspace_id project_in = Some workspace →
  users db !! current_user.1 = Some user →
  WorkspaceService.has_access db (ProjectCreate.workspace_id project_in) current_user.1
  = true →
  let id := next_id (projects db) in
  let row := {| Project.name := ProjectCreate.name project_in;
                Project.description := ProjectCreate.description project_in;
                Project.workspace_id := ProjectCreate.workspace_id project_in;
                Project.created_at := clock db; Project.updated_at := clock db |} in
  let r := ProjectsRouter.create_project project_in current_user db in
  r.1 = Ok (id, row)
  ∧ projects db !! id = None
  ∧ projects r.2 = <[id := row]> (projects db)
  ∧ project_members r.2 = {[ (id, current_user.1) ]} ∪ project_members db
  ∧ users r.2 = users db
  ∧ workspaces r.2 = workspaces db
  ∧ workspace_members r.2 = workspace_members db
  ∧ tasks r.2 = tasks db
  ∧ ProjectService.create_project project_in (ProjectCreate.workspace_id project_in)
      current_user.1 db
    = (Ok (Some (id, row)), r.2).
Proof.
  intros Hw Hu Hacc id row r.
  assert (Hinsert : ∀ o,
    o = ProjectCreate.dict project_in → Project_insert db o = Ok row).
  { intros o ->. unfold Project_insert, ProjectCreate.dict. cbn [dict_get String.eqb].
    cbn. rewrite (references_stored _ _ _ Hw). cbn.
    subst row. by destruct (ProjectCreate.description project_in). }
  assert (Hr : r = (Ok (id, row),
                    with_project_members (λ rows, {[ (id, current_user.1) ]} ∪ rows)
                      (with_projects <[id := row]> db))).
  { subst r. unfold ProjectsRouter.create_project.
    rewrite bind_session, (first_by_id_Some _ _ _ Hw), bind_first_Some. cbn [fst snd].
    rewrite (has_access_reflect _ _ _ _ Hw) in Hacc.
    rewrite in_members_true by (by eexists).
    rewrite <- orb_assoc, Hacc, orb_true_r, bind_require_true.
    change (declarative_init Project.attributes (ProjectCreate.dict project_in))
      with (Ok (ProjectCreate.dict project_in) : Res pydict).
    rewrite bind_lift_Ok, (Hinsert _ eq_refl), bind_lift_Ok.
    rewrite (references_stored _ _ _ Hu), bind_lift_Ok. by rewrite bind_commit. }
  rewrite Hr. cbn [fst snd].
  split; [done|]. split; [apply next_id_fresh|]. do 6 (split; [done|]).
  unfold ProjectService.create_project. rewrite bind_session, Hacc. cbn [negb].
  change (declarative_init Project.attributes _)
    with (Ok (ProjectCreate.dict project_in) : Res pydict).
  rewrite bind_lift_Ok. unfold add_project at 1.
  rewrite bind_assoc, bind_session, bind_assoc, (Hinsert _ eq_refl), bind_lift_Ok.
  rewrite bind_assoc, bind_commit, bind_ret. cbn [fst].
  unfold ProjectService.add_member. rewrite bind_assoc, bind_session.
  set (db1 := with_projects _ db).
  assert (Hp1 : projects db1 !! id = Some row) by apply lookup_insert_eq.
  change (next_id (projects db)) with id.
  rewrite (first_by_id_Some _ _ _ Hp1).
  change (users db1) with (users db). rewrite (first_by_id_Some _ _ _ Hu).
  cbn [fst snd].
  assert (Hacc1 : WorkspaceService.has_access db1
                    (ProjectCreate.workspace_id project_in) current_user.1 = true)
    by exact Hacc.
  change (Project.workspace_id row) with (ProjectCreate.workspace_id project_in).
  rewrite Hacc1. cbn [negb].
  destruct (bool_decide ((id, current_user.1) ∈ project_members db1)) eqn:Hin.
  - apply bool_decide_eq_true in Hin. rewrite bind_ret. do 2 f_equal.
    destruct db1. unfold with_project_members. cbn in *. f_equal.
    apply set_eq. intros y. rewrite elem_of_union, elem_of_singleton.
    split; [by right|by intros [->|?]].
  - by rewrite bind_assoc, bind_commit, bind_ret.
Qed.

(** User 1 creates a second project in workspace 1 of [sample_db] and is its
    member. *)
Lemma create_project_adds_creator_witness :
  let project_in := {| ProjectCreate.name := "Q"; ProjectCreate.description := None;
                       ProjectCreate.workspace_id := 1 |} in
  (2, 1) ∈ project_members (ProjectsRouter.create_project project_in (1, plain) sample_db).2.
Proof.
  intros project_in.
  destruct (create_project_adds_creator sample_db project_in sample_workspace (1, plain)
              plain eq_refl eq_refl eq_refl) as (_ & _ & _ & -> & _).
  apply elem_of_union_l, elem_of_singleton. reflexivity.
Defined.

(** ** Creating a task *)

Lemma add_task_inv o db t db' :
  add_task o db = (Ok t, db') →
  t.1 = next_id (tasks db) ∧ Task_insert db o = Ok t.2
  ∧ db' = with_tasks <[t.1 := t.2]> db.
Proof.
  unfold add_task. rewrite bind_session.
  intros (row & db1 & Hrow & H)%M_bind_Ok_inv.
  unfold lift in Hrow. injection Hrow as Hrow <-.
  rewrite bind_commit in H. by injection H as <- <-.
Qed.

Lemma lift_Ok_inv {A} (r : Res A) a db db' :
  lift r db = (Ok a, db') → r = Ok a ∧ db' = db.
Proof. unfold lift. by intros [= -> <-]. Qed.

Lemma require_Ok_inv cond status_code detail db u db' :
  require cond status_code detail db = (Ok u, db') → cond = true ∧ db' = db.
Proof. destruct cond; [by intros [= <- <-]|discriminate]. Qed.

(** The row that the handler inserts for a payload. *)
Lemma Task_insert_create db task_in uid :
  Task_insert db (TaskCreate.dict task_in ++ [("created_by_id"%string, PInt uid)])
  = (_ ← references (projects db) (TaskCreate.project_id task_in);
     _ ← references_opt (users db) (TaskCreate.assignee_id task_in);
     _ ← references (users db) uid;
     Ok {| Task.title := TaskCreate.title task_in;
           Task.description := TaskCreate.description task_in;
           Task.status := default TODO (TaskCreate.status task_in);
           Task.priority := default MEDIUM (TaskCreate.priority task_in);
           Task.due_date := TaskCreate.due_date task_in;
           Task.project_id := TaskCreate.project_id task_in;
           Task.assignee_id := TaskCreate.assignee_id task_in;
           Task.created_by_id := uid;
           Task.created_at := clock db; Task.updated_at := clock db |}).
Proof.
  destruct task_in as [title [d|] [s|] [p|] [due|] pid [a|]]; reflexivity.
Qed.

Lemma declarative_init_create task_in uid :
  declarative_init Task.attributes
    (TaskCreate.dict task_in ++ [("created_by_id"%string, PInt uid)])
  = Ok (TaskCreate.dict task_in ++ [("created_by_id"%string, PInt uid)]).
Proof. reflexivity. Qed.

Lemma references_inv {A} (tbl : gmap Z A) id u :
  references tbl id = Ok u → is_Some (tbl !! id).
Proof. unfold references. case_bool_decide; [done|discriminate]. Qed.

(** X13.  What [create_task] persists.  Whenever the handler returns a task,
    the task is stored under an id that was not in use and nothing else
    changes; its columns are those of the payload with [TODO] and [MEDIUM]
    for an absent status and priority, its creator is the requesting actor,
    a stored user, and both timestamps are the time of the request; its
    project is stored; and an assignee other than the id 0 is a stored user
    who is a member of the project, or the owner or a member of its
    workspace.  Conversely a stored actor who may read
    the stored project of a stored workspace gets the task created when the
    payload names no assignee or such an assignee. *)
Theorem create_task_result (db : DB) (task_in : TaskCreate.t) (current_user : Z * User.t) :
  let row := {| Task.title := TaskCreate.title task_in;
                Task.description := TaskCreate.description task_in;
                Task.status := default TODO (TaskCreate.status task_in);
                Task.priority := default MEDIUM (TaskCreate.priority task_in);
                Task.due_date := TaskCreate.due_date task_in;
                Task.project_id := TaskCreate.project_id task_in;
                Task.assignee_id := TaskCreate.assignee_id task_in;
                Task.created_by_id := current_user.1;
                Task.created_at := clock db; Task.updated_at := clock db |} in
  let eligible (project : Project.t) (a : Z) : Prop :=
    is_Some (users db !! a)
    ∧ ((TaskCreate.project_id task_in, a) ∈ project_members db
       ∨ ∃ workspace,
           workspaces db !! Project.workspace_id project = Some workspace
           ∧ (Workspace.owner_id workspace = a
              ∨ (Project.workspace_id project, a) ∈ workspace_members db)) in
  let r := TasksRouter.create_task task_in current_user db in
  (∀ t, r.1 = Ok t →
     t = (next_id (tasks db), row)
     ∧ tasks db !! t.1 = None
     ∧ r.2 = with_tasks <[t.1 := row]> db
     ∧ is_Some (users db !! current_user.1)
     ∧ ∃ project,
         projects db !! TaskCreate.project_id task_in = Some project
         ∧ ∀ a, TaskCreate.assignee_id task_in = Some a → a ≠ 0 → eligible project a)
  ∧ (∀ project workspace,
       projects db !! TaskCreate.project_id task_in = Some project →
       workspaces db !! Project.workspace_id project = Some workspace →
       is_Some (users db !! current_user.1) →
       (ProjectsRouter.read_project (TaskCreate.project_id task_in) current_user db).1
       = Ok (TaskCreate.project_id task_in, project) →
       (∀ a, TaskCreate.assignee_id task_in = Some a → a ≠ 0 ∧ eligible project a) →
       r.1 = Ok (next_id (tasks db), row)).
Proof.
  intros row eligible r. split.
  - intros t Hr. destruct r as [r1 db'] eqn:Hrun. cbn [fst snd] in *. subst r1.
    subst r. unfold TasksRouter.create_task in Hrun. rewrite bind_session in Hrun.
    destruct (projects db !! TaskCreate.project_id task_in) as [project|] eqn:Hp;
      [rewrite (first_by_id_Some _ _ _ Hp), bind_first_Some in Hrun
      |rewrite (first_by_id_None _ _ Hp), bind_first_None in Hrun; discriminate].
    cbn [fst snd] in Hrun.
    apply M_bind_Ok_inv in Hrun as (allowed & db1 & [_ ->]%lift_Ok_inv & Hrun).
    apply M_bind_Ok_inv in Hrun as (? & db1 & [_ ->]%require_Ok_inv & Hrun).
    apply M_bind_Ok_inv in Hrun as (? & db1 & Hassignee & Hrun).
    assert (db1 = db
            ∧ ∀ a, TaskCreate.assignee_id task_in = Some a → a ≠ 0 → eligible project a)
      as [-> Heligible].
    { destruct (TaskCreate.assignee_id task_in) as [a|] eqn:Ha; cbn [truthy_int] in Hassignee;
        [|by injection Hassignee as <-].
      destruct (Z.eqb_spec a 0) as [->|Hne];
        [injection Hassignee as <-; split; [done|by intros ? [= <-]]|].
      destruct (users db !! a) as [u|] eqn:Hu;
        [rewrite (first_by_id_Some _ _ _ Hu), bind_first_Some in Hassignee
        |rewrite (first_by_id_None _ _ Hu), bind_first_None in Hassignee; discriminate].
      cbn [fst snd] in Hassignee.
      apply M_bind_Ok_inv in Hassignee as (rejected & db2 & [Hrej ->]%lift_Ok_inv & Hreq).
      apply require_Ok_inv in Hreq as [Hacc ->]. apply negb_true_iff in Hacc. subst rejected.
      split; [done|]. intros ? [= <-] _. subst eligible. cbn beta.
      split; [done|].
      unfold in_members in Hrej. rewrite (bool_decide_true (is_Some (users db !! a))) in Hrej
        by done. rewrite !andb_true_r in Hrej.
      destruct (bool_decide ((TaskCreate.project_id task_in, a) ∈ project_members db))
        eqn:Hpm; [left; by apply bool_decide_eq_true in Hpm|]. right.
      cbn [negb and_then] in Hrej.
      destruct (workspaces db !! Project.workspace_id project) as [workspace|] eqn:Hw;
        [rewrite (first_by_id_Some _ _ _ Hw) in Hrej
        |rewrite (first_by_id_None _ _ Hw) in Hrej; discriminate].
      exists workspace. split; [done|]. cbn [attr fst snd] in Hrej.
      rewrite and_then_Ok in Hrej. injection Hrej as Hrej.
      apply andb_false_iff in Hrej as [Hrej|Hrej].
      - left. unfold owner, obj_ne in Hrej.
        destruct (users db !! Workspace.owner_id workspace); [|discriminate].
        cbn in Hrej. apply negb_false_iff, Z.eqb_eq in Hrej. done.
      - right. apply negb_false_iff, andb_true_iff in Hrej as [Hrej _].
        by apply bool_decide_eq_true in Hrej. }
    apply M_bind_Ok_inv in Hrun as (o & db1 & [Ho ->]%lift_Ok_inv & Hrun).
    rewrite declarative_init_create in Ho. injection Ho as <-.
    apply add_task_inv in Hrun as (Hid & Hrow & ->).
    change (Task_insert db _)
      with (Task_insert db (TaskCreate.dict task_in
                            ++ [("created_by_id"%string, PInt current_user.1)])) in Hrow.
    rewrite Task_insert_create in Hrow.
    apply Res_bind_Ok_inv in Hrow as (? & _ & Hrow).
    apply Res_bind_Ok_inv in Hrow as (? & _ & Hrow).
    apply Res_bind_Ok_inv in Hrow as (? & Hcreator%references_inv & Hrow).
    injection Hrow as Hrow. fold row in Hrow.
    destruct t as [id row']. cbn [fst snd] in *. subst id row'.
    split; [done|]. split; [apply next_id_fresh|]. split; [done|]. split; [done|].
    by exists project.
  - intros project workspace Hp Hw [u Hu] Hread Hassignee. subst r.
    rewrite (read_project_outcome _ _ _ _ _ Hp Hw) in Hread. cbn [fst] in Hread.
    unfold TasksRouter.create_task.
    rewrite bind_session, (first_by_id_Some _ _ _ Hp), bind_first_Some. cbn [fst snd].
    rewrite (first_by_id_Some _ _ _ Hw). cbn [attr fst snd].
    rewrite !or_else_Ok, bind_lift_Ok.
    destruct (_ || in_members (project_members _) _ _ _); [|discriminate Hread].
    rewrite bind_require_true.
    assert (Hinsert :
      (lift (declarative_init Task.attributes
               (TaskCreate.dict task_in ++ [("created_by_id"%string, PInt current_user.1)]))
       ≫= add_task) db = (Ok (next_id (tasks db), row), with_tasks <[next_id (tasks db) := row]> db)).
    { rewrite declarative_init_create, bind_lift_Ok. unfold add_task.
      rewrite bind_session, Task_insert_create.
      rewrite (references_stored _ _ _ Hp), (references_stored _ _ _ Hu).
      assert (references_opt (users db) (TaskCreate.assignee_id task_in) = Ok ()) as ->.
      { destruct (TaskCreate.assignee_id task_in) as [a|] eqn:Ha; [|done].
        destruct (Hassignee a eq_refl) as (_ & [ua Hua] & _).
        exact (references_stored _ _ _ Hua). }
      cbn [mbind Res_bind]. by rewrite bind_lift_Ok, bind_commit. }
    destruct (TaskCreate.assignee_id task_in) as [a|] eqn:Ha; cbn [truthy_int].
    + destruct (Hassignee a eq_refl) as (Hne & [ua Hua] & Hel).
      destruct (Z.eqb_spec a 0); [done|].
      rewrite (first_by_id_Some _ _ _ Hua), bind_assoc, bind_first_Some. cbn [fst snd].
      unfold in_members. rewrite (bool_decide_true (is_Some (users db !! a))) by (by eexists).
      rewrite !andb_true_r, !and_then_Ok.
      assert (negb (bool_decide ((TaskCreate.project_id task_in, a) ∈ project_members db))
              && obj_ne (a, ua) (owner db workspace)
              && negb (bool_decide ((Project.workspace_id project, a) ∈ workspace_members db))
              = false) as ->.
      { destruct Hel as [Hpm|(w & Hw' & [Hown|Hwm])].
        - by rewrite (bool_decide_true _ Hpm).
        - assert (w = workspace) as -> by congruence.
          unfold owner, obj_ne. rewrite Hown, Hua. cbn.
          by rewrite Z.eqb_refl, andb_false_r.
        - by rewrite (bool_decide_true _ Hwm), andb_false_r. }
      rewrite bind_assoc, bind_lift_Ok. cbn [negb]. rewrite bind_require_true.
      exact (f_equal fst Hinsert).
    + rewrite bind_ret. exact (f_equal fst Hinsert).
Qed.

(** The owner of workspace 1 of [member_db] creates a task in project 1 for
    user 2, a member of the workspace. *)
Lemma create_task_result_witness :
  (TasksRouter.create_task (sample_task_in (Some 2)) (1, plain) member_db).1
  = Ok (2, {| Task.title := "Review"; Task.description := None;
              Task.status := TODO; Task.priority := MEDIUM;
              Task.due_date := None; Task.project_id := 1;
              Task.assignee_id := Some 2; Task.created_by_id := 1;
              Task.created_at := 5; Task.updated_at := 5 |}).
Proof.
  destruct (create_task_result member_db (sample_task_in (Some 2)) (1, plain))
    as [_ Hcreated].
  apply (Hcreated sample_project sample_workspace); [reflexivity|reflexivity| |reflexivity|].
  - by exists plain.
  - intros a [= <-]. split; [done|]. split; [by exists plain|].
    right. exists sample_workspace. split; [reflexivity|]. right.
    eapply bool_decide_eq_true_1. reflexivity.
Defined.

(** ** An update writes the fields that the payload sets *)

Lemma setattrs_app {R} (set : R → string * pyval → Res R) d1 d2 : ∀ r,
  setattrs set r (d1 ++ d2) = (r' ← setattrs set r d1; setattrs set r' d2).
Proof.
  induction d1 as [|kv d1 IH]; intros r; cbn; [done|].
  destruct (set r kv) as [r1|e]; cbn; [apply IH|done].
Qed.

Lemma setattrs_app_inv {R} (set : R → string * pyval → Res R) d1 d2 r r2 :
  setattrs set r (d1 ++ d2) = Ok r2 →
  ∃ r1, setattrs set r d1 = Ok r1 ∧ setattrs set r1 d2 = Ok r2.
Proof. rewrite setattrs_app. apply Res_bind_Ok_inv. Qed.

Section task_items.
Context (db : DB) (t t' : Task.t).

Local Ltac item_cases x H :=
  destruct x as [[v|]|]; cbn in H;
  repeat match goal with
         | E : _ ≫= _ = Ok _ |- _ => apply Res_bind_Ok_inv in E as (? & ? & ?); cbn in *
         | E : Raise _ = Ok _ |- _ => discriminate E
         | E : Ok _ = Ok _ |- _ => injection E as <-
         end;
  destruct t; cbn; eauto.

Lemma setattrs_item_title x :
  setattrs (Task_set db) t (item "title" PStr x) = Ok t' →
  ∃ v, Some v = assign x (Some (Task.title t))
       ∧ t' = {| Task.title := v; Task.description := Task.description t;
                 Task.status := Task.status t; Task.priority := Task.priority t;
                 Task.due_date := Task.due_date t; Task.project_id := Task.project_id t;
                 Task.assignee_id := Task.assignee_id t;
                 Task.created_by_id := Task.created_by_id t;
                 Task.created_at := Task.created_at t;
                 Task.updated_at := Task.updated_at t |}.
Proof. intros H. item_cases x H. Qed.

Lemma setattrs_item_description x :
  setattrs (Task_set db) t (item "description" PStr x) = Ok t' →
  t' = {| Task.title := Task.title t;
          Task.description := assign x (Task.description t);
          Task.status := Task.status t; Task.priority := Task.priority t;
          Task.due_date := Task.due_date t; Task.project_id := Task.project_id t;
          Task.assignee_id := Task.assignee_id t;
          Task.created_by_id := Task.created_by_id t;
                 Task.created_at := Task.created_at t;
                 Task.updated_at := Task.updated_at t |}.
Proof. intros H. item_cases x H. Qed.

Lemma setattrs_item_status x :
  setattrs (Task_set db) t (item "status" PStatus x) = Ok t' →
  ∃ v, Some v = assign x (Some (Task.status t))
       ∧ t' = {| Task.title := Task.title t; Task.description := Task.description t;
                 Task.status := v; Task.priority := Task.priority t;
                 Task.due_date := Task.due_date t; Task.project_id := Task.project_id t;
                 Task.assignee_id := Task.assignee_id t;
                 Task.created_by_id := Task.created_by_id t;
                 Task.created_at := Task.created_at t;
                 Task.updated_at := Task.updated_at t |}.
Proof. intros H. item_cases x H. Qed.

Lemma setattrs_item_priority x :
  setattrs (Task_set db) t (item "priority" PPriority x) = Ok t' →
  ∃ v, Some v = assign x (Some (Task.priority t))
       ∧ t' = {| Task.title := Task.title t; Task.description := Task.description t;
                 Task.status := Task.status t; Task.priority := v;
                 Task.due_date := Task.due_date t; Task.project_id := Task.project_id t;
                 Task.assignee_id := Task.assignee_id t;
                 Task.created_by_id := Task.created_by_id t;
                 Task.created_at := Task.created_at t;
                 Task.updated_at := Task.updated_at t |}.
Proof. intros H. item_cases x H. Qed.

Lemma setattrs_item_due_date x :
  setattrs (Task_set db) t (item "due_date" PDateTime x) = Ok t' →
  t' = {| Task.title := Task.title t; Task.description := Task.description t;
          Task.status := Task.status t; Task.priority := Task.priority t;
          Task.due_date := assign x (Task.due_date t);
          Task.project_id := Task.project_id t;
          Task.assignee_id := Task.assignee_id t;
          Task.created_by_id := Task.created_by_id t;
                 Task.created_at := Task.created_at t;
                 Task.updated_at := Task.updated_at t |}.
Proof. intros H. item_cases x H. Qed.

Lemma setattrs_item_project_id x :
  setattrs (Task_set db) t (item "project_id" PInt x) = Ok t' →
  ∃ v, Some v = assign x (Some (Task.project_id t))
       ∧ t' = {| Task.title := Task.title t; Task.description := Task.description t;
                 Task.status := Task.status t; Task.priority := Task.priority t;
                 Task.due_date := Task.due_date t; Task.project_id := v;
                 Task.assignee_id := Task.assignee_id t;
                 Task.created_by_id := Task.created_by_id t;
                 Task.created_at := Task.created_at t;
                 Task.updated_at := Task.updated_at t |}.
Proof. intros H. item_cases x H. Qed.

Lemma setattrs_item_assignee_id x :
  setattrs (Task_set db) t (item "assignee_id" PInt x) = Ok t' →
  t' = {| Task.title := Task.title t; Task.description := Task.description t;
          Task.status := Task.status t; Task.priority := Task.priority t;
          Task.due_date := Task.due_date t; Task.project_id := Task.project_id t;
          Task.assignee_id := assign x (Task.assignee_id t);
          Task.created_by_id := Task.created_by_id t;
                 Task.created_at := Task.created_at t;
                 Task.updated_at := Task.updated_at t |}.
Proof. intros H. item_cases x H. Qed.

End task_items.

Ltac task_columns E :=
  pose proof (f_equal Task.title E); pose proof (f_equal Task.description E);
  pose proof (f_equal Task.status E); pose proof (f_equal Task.priority E);
  pose proof (f_equal Task.due_date E); pose proof (f_equal Task.project_id E);
  pose proof (f_equal Task.assignee_id E); pose proof (f_equal Task.created_by_id E);
  pose proof (f_equal Task.created_at E); pose proof (f_equal Task.updated_at E);
  clear E;
  cbn [Task.title Task.description Task.status Task.priority Task.due_date
       Task.project_id Task.assignee_id Task.created_by_id Task.created_at
       Task.updated_at] in *.

(** The row that a task payload leaves. *)
Lemma setattrs_task_update db task task_in row :
  setattrs (Task_set db) task (TaskUpdate.dict_exclude_unset task_in) = Ok row →
  Some (Task.title row) = assign (TaskUpdate.title task_in) (Some (Task.title task))
  ∧ Task.description row
    = assign (TaskUpdate.description task_in) (Task.description task)
  ∧ Some (Task.status row) = assign (TaskUpdate.status task_in) (Some (Task.status task))
  ∧ Some (Task.priority row)
    = assign (TaskUpdate.priority task_in) (Some (Task.priority task))
  ∧ Task.due_date row = assign (TaskUpdate.due_date task_in) (Task.due_date task)
  ∧ Some (Task.project_id row)
    = assign (TaskUpdate.project_id task_in) (Some (Task.project_id task))
  ∧ Task.assignee_id row
    = assign (TaskUpdate.assignee_id task_in) (Task.assignee_id task)
  ∧ Task.created_by_id row = Task.created_by_id task
  ∧ Task.created_at row = Task.created_at task
  ∧ Task.updated_at row = Task.updated_at task.
Proof.
  unfold TaskUpdate.dict_exclude_unset. intros H.
  apply setattrs_app_inv in H as (t1 & (v1 & A1 & E1)%setattrs_item_title & H).
  apply setattrs_app_inv in H as (t2 & E2%setattrs_item_description & H).
  apply setattrs_app_inv in H as (t3 & (v3 & A3 & E3)%setattrs_item_status & H).
  apply setattrs_app_inv in H as (t4 & (v4 & A4 & E4)%setattrs_item_priority & H).
  apply setattrs_app_inv in H as (t5 & E5%setattrs_item_due_date & H).
  apply setattrs_app_inv in H as (t6 & (v6 & A6 & E6)%setattrs_item_project_id & H).
  apply setattrs_item_assignee_id in H as E7.
  task_columns E1. task_columns E2. task_columns E3. task_columns E4.
  task_columns E5. task_columns E6. task_columns E7.
  repeat split; congruence.
Qed.

Lemma read_only_bind {A B} (m : M A) (f : A → M B) :
  read_only m → (∀ a, read_only (f a)) → read_only (m ≫= f).
Proof.
  intros Hm Hf db. unfold mbind, M_bind. specialize (Hm db).
  destruct (m db) as [[a|e] db1]; cbn in *; subst; [apply Hf|done].
Qed.
Lemma read_only_ret {A} (a : A) : read_only (mret a : M A).
Proof. done. Qed.
Lemma read_only_lift {A} (r : Res A) : read_only (lift r).
Proof. done. Qed.
Lemma read_only_require cond status_code detail :
  read_only (require cond status_code detail).
Proof. by destruct cond. Qed.
Lemma read_only_first_or_404 {A} (o : option A) detail : read_only (first_or_404 o detail).
Proof. by destruct o. Qed.

Ltac solve_read_only :=
  repeat first
    [ apply read_only_ret | apply read_only_lift | apply read_only_require
    | apply read_only_first_or_404
    | apply read_only_bind; [|intros ?]
    | case_match ].

Lemma read_only_Ok_inv {A} (m : M A) db a db' :
  read_only m → m db = (Ok a, db') → db' = db.
Proof. intros Hm H. specialize (Hm db). by rewrite H in Hm. Qed.

(** The row that the flush of an update leaves: the assigned columns, the
    creator and the creation time as stored, and the time of the request as
    [updated_at] when an assigned column differs from the stored value. *)
Lemma Task_flush_written db task row :
  Task.created_by_id row = Task.created_by_id task →
  Task.created_at row = Task.created_at task →
  Task.updated_at row = Task.updated_at task →
  let row' := Task_flush db task row in
  Task_values row' = Task_values row
  ∧ Task.created_by_id row' = Task.created_by_id task
  ∧ Task.created_at row' = Task.created_at task
  ∧ Task.updated_at row'
    = if bool_decide (Task_values row = Task_values task)
      then Task.updated_at task else clock db.
Proof.
  intros Hby Hcreated Hupdated. unfold Task_flush. case_bool_decide as Heq.
  - subst row. by rewrite bool_decide_true.
  - cbn. rewrite bool_decide_false; [done|]. intros Hv. apply Heq.
    destruct row, task. unfold Task_values in Hv. cbn in *. congruence.
Qed.

Lemma Task_flush_same db task : Task_flush db task task = task.
Proof. unfold Task_flush. by rewrite bool_decide_true. Qed.

(** X14.  An update of a task writes the fields that the payload sets and,
    when one of them changes, the time of the update.  Whenever the handler
    [update_task], or the service [update_task], returns a task, it is the
    stored task of that id with every set field of the payload as its new
    column value and every other assignable column as stored; the creator
    and [created_at] are as stored; [updated_at] is the time of the request
    when some column got a value other than the stored one, and is as stored
    otherwise; the database differs in that row only.  An authorized update
    with an empty payload returns the stored task and changes nothing. *)
Theorem task_update_writes_set_fields (db : DB) (task_id : Z) :
  let written (task_in : TaskUpdate.t) (t : Z * Task.t) (db' : DB) : Prop :=
    ∃ task,
      tasks db !! task_id = Some task
      ∧ t.1 = task_id
      ∧ db' = with_tasks <[task_id := t.2]> db
      ∧ Some (Task.title t.2) = assign (TaskUpdate.title task_in) (Some (Task.title task))
      ∧ Task.description t.2
        = assign (TaskUpdate.description task_in) (Task.description task)
      ∧ Some (Task.status t.2)
        = assign (TaskUpdate.status task_in) (Some (Task.status task))
      ∧ Some (Task.priority t.2)
        = assign (TaskUpdate.priority task_in) (Some (Task.priority task))
      ∧ Task.due_date t.2 = assign (TaskUpdate.due_date task_in) (Task.due_date task)
      ∧ Some (Task.project_id t.2)
        = assign (TaskUpdate.project_id task_in) (Some (Task.project_id task))
      ∧ Task.assignee_id t.2
        = assign (TaskUpdate.assignee_id task_in) (Task.assignee_id task)
      ∧ Task.created_by_id t.2 = Task.created_by_id task
      ∧ Task.created_at t.2 = Task.created_at task
      ∧ Task.updated_at t.2
        = if bool_decide (Task_values t.2 = Task_values task)
          then Task.updated_at task else clock db in
  (∀ task_in current_user t db',
     TasksRouter.update_task task_id task_in current_user db = (Ok t, db') →
     written task_in t db')
  ∧ (∀ task_update user_id t db',
       TaskService.update_task task_id task_update user_id db = (Ok (Some t), db') →
       written task_update t db')
  ∧ (∀ task project workspace current_user,
       tasks db !! task_id = Some task →
       projects db !! Task.project_id task = Some project →
       workspaces db !! Project.workspace_id project = Some workspace →
       (TasksRouter.update_task task_id empty_task_update current_user db).1
       ≠ Raise forbidden →
       TasksRouter.update_task task_id empty_task_update current_user db
       = (Ok (task_id, task), db)).
Proof.
  intros written.
  assert (Hwritten : ∀ task task_in row,
    setattrs (Task_set db) task (TaskUpdate.dict_exclude_unset task_in) = Ok row →
    let t := Task_flush db task row in
    Some (Task.title t) = assign (TaskUpdate.title task_in) (Some (Task.title task))
    ∧ Task.description t
      = assign (TaskUpdate.description task_in) (Task.description task)
    ∧ Some (Task.status t)
      = assign (TaskUpdate.status task_in) (Some (Task.status task))
    ∧ Some (Task.priority t)
      = assign (TaskUpdate.priority task_in) (Some (Task.priority task))
    ∧ Task.due_date t = assign (TaskUpdate.due_date task_in) (Task.due_date task)
    ∧ Some (Task.project_id t)
      = assign (TaskUpdate.project_id task_in) (Some (Task.project_id task))
    ∧ Task.assignee_id t
      = assign (TaskUpdate.assignee_id task_in) (Task.assignee_id task)
    ∧ Task.created_by_id t = Task.created_by_id task
    ∧ Task.created_at t = Task.created_at task
    ∧ Task.updated_at t
      = if bool_decide (Task_values t = Task_values task)
        then Task.updated_at task else clock db).
  { intros task task_in row Hrow t.
    apply setattrs_task_update in Hrow
      as (H1 & H2 & H3 & H4 & H5 & H6 & H7 & Hby & Hcreated & Hupdated).
    destruct (Task_flush_written db task row Hby Hcreated Hupdated)
      as (Hvalues & ? & ? & ?).
    fold t in Hvalues. rewrite Hvalues.
    unfold Task_values in Hvalues. injection Hvalues as -> -> -> -> -> -> ->.
    repeat split; done. }
  split; [|split].
  - intros task_in current_user t db' H.
    unfold TasksRouter.update_task in H. rewrite bind_session in H.
    destruct (tasks db !! task_id) as [task|] eqn:Ht;
      [rewrite (first_by_id_Some _ _ _ Ht), bind_first_Some in H
      |rewrite (first_by_id_None _ _ Ht), bind_first_None in H; discriminate].
    cbn [fst snd] in H.
    apply M_bind_Ok_inv in H as (? & db1 & [_ ->]%lift_Ok_inv & H).
    apply M_bind_Ok_inv in H as (? & db1 & [_ ->]%lift_Ok_inv & H).
    apply M_bind_Ok_inv in H as (? & db1 & [_ ->]%require_Ok_inv & H).
    apply M_bind_Ok_inv in H as (? & db1 & Hassignee & H).
    apply read_only_Ok_inv in Hassignee as ->; [|solve_read_only].
    apply M_bind_Ok_inv in H as (row & db1 & [Hrow ->]%lift_Ok_inv & H).
    cbn zeta in H. rewrite bind_commit in H. injection H as <- <-.
    exists task. do 3 (split; [done|]). by apply (Hwritten task task_in).
  - intros task_update user_id t db' H.
    unfold TaskService.update_task in H. rewrite bind_session in H.
    destruct (tasks db !! task_id) as [task|] eqn:Ht;
      [rewrite (first_by_id_Some _ _ _ Ht) in H
      |rewrite (first_by_id_None _ _ Ht) in H; discriminate].
    cbn [fst snd] in H.
    assert (Happly :
      (lift (setattrs (Task_set db) task (TaskUpdate.dict_exclude_unset task_update))
       ≫= λ row, commit (with_tasks <[task_id := Task_flush db task row]>)
                 ≫= λ _, mret (Some (task_id, Task_flush db task row)))
        db = (Ok (Some t), db') → written task_update t db').
    { intros (row & db1 & [Hrow ->]%lift_Ok_inv & H')%M_bind_Ok_inv.
      rewrite bind_commit in H'. injection H' as <- <-.
      exists task. do 3 (split; [done|]). by apply (Hwritten task task_update). }
    repeat case_match; try discriminate H; by apply Happly.
  - intros task project workspace current_user Ht Hp Hw Hallowed.
    rewrite (update_task_denied _ _ _ _ _ _ _ Ht Hp Hw) in Hallowed.
    apply not_false_is_true in Hallowed.
    unfold TasksRouter.update_task.
    rewrite bind_session, (first_by_id_Some _ _ _ Ht), bind_first_Some. cbn [fst snd].
    rewrite (first_by_id_Some _ _ _ Hp). cbn [attr fst snd]. rewrite bind_lift_Ok.
    rewrite (first_by_id_Some _ _ _ Hw). cbn [attr fst snd].
    rewrite !or_else_Ok, bind_lift_Ok, Hallowed, bind_require_true.
    cbn [empty_task_update TaskUpdate.assignee_id field_value truthy_int].
    rewrite bind_ret.
    change (TaskUpdate.dict_exclude_unset empty_task_update) with ([] : pydict).
    cbn [setattrs]. rewrite bind_lift_Ok. cbn zeta.
    rewrite Task_flush_same, bind_commit.
    change ((mret (task_id, task) : M _) (with_tasks <[task_id := task]> db))
      with (Ok (task_id, task), with_tasks <[task_id := task]> db).
    f_equal. destruct db. unfold with_tasks. cbn in *. f_equal. by apply insert_id.
Qed.

(** The assignee of task 1 of [sample_db] sends an empty update. *)
Lemma task_update_writes_set_fields_witness :
  TasksRouter.update_task 1 empty_task_update (2, plain) sample_db
  = (Ok (1, sample_task), sample_db).
Proof.
  destruct (task_update_writes_set_fields sample_db 1) as (_ & _ & Hempty).
  apply (Hempty sample_task sample_project sample_workspace (2, plain));
    [reflexivity|reflexivity|reflexivity|discriminate].
Defined.

(** The assignee marks task 1 of [sample_db] as done at time 5: the task
    keeps its creation time 0 and is updated at 5; marked as to do, as it is
    stored, it keeps its update time 0. *)
Example task_update_sets_updated_at :
  ∃ t t',
    (TasksRouter.update_task 1 (only_status (Some DONE)) (2, plain) sample_db).1 = Ok t
    ∧ Task.status t.2 = DONE ∧ Task.created_at t.2 = 0 ∧ Task.updated_at t.2 = 5
    ∧ (TasksRouter.update_task 1 (only_status (Some (Task.status sample_task)))
         (2, plain) sample_db).1 = Ok t'
    ∧ Task.updated_at t'.2 = 0.
Proof. do 2 eexists. split; [by vm_compute|]. repeat split; by vm_compute. Qed.

(** ** Updates of workspaces and projects *)

Section workspace_items.
Context (db : DB) (w w' : Workspace.t).

Local Ltac item_cases x H :=
  destruct x as [[v|]|]; cbn in H;
  repeat match goal with
         | E : _ ≫= _ = Ok _ |- _ => apply Res_bind_Ok_inv in E as (? & ? & ?); cbn in *
         | E : Raise _ = Ok _ |- _ => discriminate E
         | E : Ok _ = Ok _ |- _ => injection E as <-
         end;
  destruct w; cbn; eauto.

Lemma setattrs_workspace_name x :
  setattrs (Workspace_set db) w (item "name" PStr x) = Ok w' →
  Some (Workspace.name w') = assign x (Some (Workspace.name w))
  ∧ Workspace.description w' = Workspace.description w
  ∧ Workspace.owner_id w' = Workspace.owner_id w
  ∧ Workspace.created_at w' = Workspace.created_at w
  ∧ Workspace.updated_at w' = Workspace.updated_at w.
Proof. intros H. item_cases x H. Qed.

Lemma setattrs_workspace_description x :
  setattrs (Workspace_set db) w (item "description" PStr x) = Ok w' →
  Workspace.name w' = Workspace.name w
  ∧ Workspace.description w' = assign x (Workspace.description w)
  ∧ Workspace.owner_id w' = Workspace.owner_id w
  ∧ Workspace.created_at w' = Workspace.created_at w
  ∧ Workspace.updated_at w' = Workspace.updated_at w.
Proof. intros H. item_cases x H. Qed.

End workspace_items.

Lemma setattrs_workspace_update db workspace workspace_in row :
  setattrs (Workspace_set db) workspace (WorkspaceUpdate.dict_exclude_unset workspace_in)
  = Ok row →
  Some (Workspace.name row)
  = assign (WorkspaceUpdate.name workspace_in) (Some (Workspace.name workspace))
  ∧ Workspace.description row
    = assign (WorkspaceUpdate.description workspace_in) (Workspace.description workspace)
  ∧ Workspace.owner_id row = Workspace.owner_id workspace
  ∧ Workspace.created_at row = Workspace.created_at workspace
  ∧ Workspace.updated_at row = Workspace.updated_at workspace.
Proof.
  unfold WorkspaceUpdate.dict_exclude_unset. intros H.
  apply setattrs_app_inv
    in H as (w1 & (N1 & D1 & O1 & C1 & U1)%setattrs_workspace_name & H).
  apply setattrs_workspace_description in H as (N2 & D2 & O2 & C2 & U2).
  repeat split; congruence.
Qed.

Lemma Workspace_flush_written db workspace row :
  Workspace.owner_id row = Workspace.owner_id workspace →
  Workspace.created_at row = Workspace.created_at workspace →
  Workspace.updated_at row = Workspace.updated_at workspace →
  let row' := Workspace_flush db workspace row in
  Workspace_values row' = Workspace_values row
  ∧ Workspace.owner_id row' = Workspace.owner_id workspace
  ∧ Workspace.created_at row' = Workspace.created_at workspace
  ∧ Workspace.updated_at row'
    = if bool_decide (Workspace_values row = Workspace_values workspace)
      then Workspace.updated_at workspace else clock db.
Proof.
  intros Howner Hcreated Hupdated. unfold Workspace_flush. case_bool_decide as Heq.
  - subst row. by rewrite bool_decide_true.
  - cbn. rewrite bool_decide_false; [done|]. intros Hv. apply Heq.
    destruct row, workspace. unfold Workspace_values in Hv. cbn in *. congruence.
Qed.

Section project_items.
Context (db : DB) (p p' : Project.t).

Local Ltac item_cases x H :=
  destruct x as [[v|]|]; cbn in H;
  repeat match goal with
         | E : _ ≫= _ = Ok _ |- _ => apply Res_bind_Ok_inv in E as (? & ? & ?); cbn in *
         | E : Raise _ = Ok _ |- _ => discriminate E
         | E : Ok _ = Ok _ |- _ => injection E as <-
         end;
  destruct p; cbn; eauto using references_inv.

Lemma setattrs_project_name x :
  setattrs (Project_set db) p (item "name" PStr x) = Ok p' →
  Some (Project.name p') = assign x (Some (Project.name p))
  ∧ Project.description p' = Project.description p
  ∧ Project.workspace_id p' = Project.workspace_id p
  ∧ Project.created_at p' = Project.created_at p
  ∧ Project.updated_at p' = Project.updated_at p.
Proof. intros H. item_cases x H. Qed.

Lemma setattrs_project_description x :
  setattrs (Project_set db) p (item "description" PStr x) = Ok p' →
  Project.name p' = Project.name p
  ∧ Project.description p' = assign x (Project.description p)
  ∧ Project.workspace_id p' = Project.workspace_id p
  ∧ Project.created_at p' = Project.created_at p
  ∧ Project.updated_at p' = Project.updated_at p.
Proof. intros H. item_cases x H. Qed.

Lemma setattrs_project_workspace_id x :
  setattrs (Project_set db) p (item "workspace_id" PInt x) = Ok p' →
  Project.name p' = Project.name p
  ∧ Project.description p' = Project.description p
  ∧ Some (Project.workspace_id p') = assign x (Some (Project.workspace_id p))
  ∧ (is_Some x → is_Some (workspaces db !! Project.workspace_id p'))
  ∧ Project.created_at p' = Project.created_at p
  ∧ Project.updated_at p' = Project.updated_at p.
Proof.
  intros H. item_cases x H.
  all: repeat split; eauto using references_inv; by intros [? ?].
Qed.

End project_items.

Lemma setattrs_project_update db project project_in row :
  setattrs (Project_set db) project (ProjectUpdate.dict_exclude_unset project_in) = Ok row →
  Some (Project.name row)
  = assign (ProjectUpdate.name project_in) (Some (Project.name project))
  ∧ Project.description row
    = assign (ProjectUpdate.description project_in) (Project.description project)
  ∧ Some (Project.workspace_id row)
    = assign (ProjectUpdate.workspace_id project_in) (Some (Project.workspace_id project))
  ∧ (is_Some (ProjectUpdate.workspace_id project_in) →
     is_Some (workspaces db !! Project.workspace_id row))
  ∧ Project.created_at row = Project.created_at project
  ∧ Project.updated_at row = Project.updated_at project.
Proof.
  unfold ProjectUpdate.dict_exclude_unset. intros H.
  apply setattrs_app_inv
    in H as (p1 & (N1 & D1 & W1 & C1 & U1)%setattrs_project_name & H).
  apply setattrs_app_inv
    in H as (p2 & (N2 & D2 & W2 & C2 & U2)%setattrs_project_description & H).
  apply setattrs_project_workspace_id in H as (N3 & D3 & W3 & F3 & C3 & U3).
  repeat split; [congruence..|done|congruence|congruence].
Qed.

Lemma Project_flush_written db project row :
  Project.created_at row = Project.created_at project →
  Project.updated_at row = Project.updated_at project →
  let row' := Project_flush db project row in
  Project_values row' = Project_values row
  ∧ Project.created_at row' = Project.created_at project
  ∧ Project.updated_at row'
    = if bool_decide (Project_values row = Project_values project)
      then Project.updated_at project else clock db.
Proof.
  intros Hcreated Hupdated. unfold Project_flush. case_bool_decide as Heq.
  - subst row. by rewrite bool_decide_true.
  - cbn. rewrite bool_decide_false; [done|]. intros Hv. apply Heq.
    destruct row, project. unfold Project_values in Hv. cbn in *. congruence.
Qed.

(** X15.  An update of a workspace or of a project writes the fields that
    the payload sets and, when one of them changes, the time of the update.
    Whenever [update_workspace] returns a workspace, by the handler or by
    the service, it is the stored workspace of that id with the set fields
    of the payload as its new values, the owner and [created_at] are the
    stored ones, [updated_at] is the time of the request when the name or
    the description got a value other than the stored one and is as stored
    otherwise, and the database differs in that row only.  Whenever
    [update_project] returns a project, it is the stored project with the
    set fields as new values, it moves to another workspace only when the
    payload sets [workspace_id], then to a stored one, [created_at] is the
    stored one and [updated_at] follows the same rule, and the membership
    rows and the tasks of the project stay as they were. *)
Theorem workspace_project_update_writes_set_fields (db : DB) :
  let workspace_written workspace_id workspace_in (w : Z * Workspace.t) (db' : DB) : Prop :=
    ∃ workspace,
      workspaces db !! workspace_id = Some workspace
      ∧ w.1 = workspace_id
      ∧ db' = with_workspaces <[workspace_id := w.2]> db
      ∧ Some (Workspace.name w.2)
        = assign (WorkspaceUpdate.name workspace_in) (Some (Workspace.name workspace))
      ∧ Workspace.description w.2
        = assign (WorkspaceUpdate.description workspace_in)
            (Workspace.description workspace)
      ∧ Workspace.owner_id w.2 = Workspace.owner_id workspace
      ∧ Workspace.created_at w.2 = Workspace.created_at workspace
      ∧ Workspace.updated_at w.2
        = if bool_decide (Workspace_values w.2 = Workspace_values workspace)
          then Workspace.updated_at workspace else clock db in
  let project_written project_id project_in (p : Z * Project.t) (db' : DB) : Prop :=
    ∃ project,
      projects db !! project_id = Some project
      ∧ p.1 = project_id
      ∧ db' = with_projects <[project_id := p.2]> db
      ∧ Some (Project.name p.2)
        = assign (ProjectUpdate.name project_in) (Some (Project.name project))
      ∧ Project.description p.2
        = assign (ProjectUpdate.description project_in) (Project.description project)
      ∧ Some (Project.workspace_id p.2)
        = assign (ProjectUpdate.workspace_id project_in)
            (Some (Project.workspace_id project))
      ∧ (is_Some (ProjectUpdate.workspace_id project_in) →
         is_Some (workspaces db !! Project.workspace_id p.2))
      ∧ Project.created_at p.2 = Project.created_at project
      ∧ Project.updated_at p.2
        = if bool_decide (Project_values p.2 = Project_values project)
          then Project.updated_at project else clock db in
  (∀ workspace_id workspace_in current_user w db',
     WorkspacesRouter.update_workspace workspace_id workspace_in current_user db
     = (Ok w, db') →
     workspace_written workspace_id workspace_in w db')
  ∧ (∀ workspace_id workspace_update w db',
       WorkspaceService.update_workspace workspace_id workspace_update db
       = (Ok (Some w), db') →
       workspace_written workspace_id workspace_update w db')
  ∧ (∀ project_id project_in current_user p db',
       ProjectsRouter.update_project project_id project_in current_user db = (Ok p, db') →
       project_written project_id project_in p db')
  ∧ (∀ project_id project_update p db',
       ProjectService.update_project project_id project_update db = (Ok (Some p), db') →
       project_written project_id project_update p db').
Proof.
  intros workspace_written project_written.
  assert (Hworkspace : ∀ workspace workspace_in row,
    setattrs (Workspace_set db) workspace (WorkspaceUpdate.dict_exclude_unset workspace_in)
    = Ok row →
    let w := Workspace_flush db workspace row in
    Some (Workspace.name w)
    = assign (WorkspaceUpdate.name workspace_in) (Some (Workspace.name workspace))
    ∧ Workspace.description w
      = assign (WorkspaceUpdate.description workspace_in)
          (Workspace.description workspace)
    ∧ Workspace.owner_id w = Workspace.owner_id workspace
    ∧ Workspace.created_at w = Workspace.created_at workspace
    ∧ Workspace.updated_at w
      = if bool_decide (Workspace_values w = Workspace_values workspace)
        then Workspace.updated_at workspace else clock db).
  { intros workspace workspace_in row Hrow w.
    apply setattrs_workspace_update in Hrow as (H1 & H2 & Howner & Hcreated & Hupdated).
    destruct (Workspace_flush_written db workspace row Howner Hcreated Hupdated)
      as (Hvalues & ? & ? & ?).
    fold w in Hvalues. rewrite Hvalues.
    unfold Workspace_values in Hvalues. injection Hvalues as -> ->.
    repeat split; done. }
  assert (Hproject : ∀ project project_in row,
    setattrs (Project_set db) project (ProjectUpdate.dict_exclude_unset project_in)
    = Ok row →
    let p := Project_flush db project row in
    Some (Project.name p)
    = assign (ProjectUpdate.name project_in) (Some (Project.name project))
    ∧ Project.description p
      = assign (ProjectUpdate.description project_in) (Project.description project)
    ∧ Some (Project.workspace_id p)
      = assign (ProjectUpdate.workspace_id project_in)
          (Some (Project.workspace_id project))
    ∧ (is_Some (ProjectUpdate.workspace_id project_in) →
       is_Some (workspaces db !! Project.workspace_id p))
    ∧ Project.created_at p = Project.created_at project
    ∧ Project.updated_at p
      = if bool_decide (Project_values p = Project_values project)
        then Project.updated_at project else clock db).
  { intros project project_in row Hrow p.
    apply setattrs_project_update in Hrow as (H1 & H2 & H3 & H4 & Hcreated & Hupdated).
    destruct (Project_flush_written db project row Hcreated Hupdated)
      as (Hvalues & ? & ?).
    fold p in Hvalues. rewrite Hvalues.
    unfold Project_values in Hvalues. injection Hvalues as -> -> ->.
    repeat split; done. }
  split; [|split; [|split]].
  - intros workspace_id workspace_in current_user w db' H.
    unfold WorkspacesRouter.update_workspace in H. rewrite bind_session in H.
    destruct (workspaces db !! workspace_id) as [workspace|] eqn:Hw;
      [rewrite (first_by_id_Some _ _ _ Hw), bind_first_Some in H
      |rewrite (first_by_id_None _ _ Hw), bind_first_None in H; discriminate].
    cbn [fst snd] in H.
    apply M_bind_Ok_inv in H as (? & db1 & [_ ->]%require_Ok_inv & H).
    apply M_bind_Ok_inv in H as (row & db1 & [Hrow ->]%lift_Ok_inv & H).
    cbn zeta in H. rewrite bind_commit in H. injection H as <- <-.
    exists workspace. do 3 (split; [done|]). by eapply Hworkspace.
  - intros workspace_id workspace_update w db' H.
    unfold WorkspaceService.update_workspace in H. rewrite bind_session in H.
    destruct (workspaces db !! workspace_id) as [workspace|] eqn:Hw;
      [rewrite (first_by_id_Some _ _ _ Hw) in H
      |rewrite (first_by_id_None _ _ Hw) in H; discriminate].
    cbn [fst snd] in H.
    apply M_bind_Ok_inv in H as (row & db1 & [Hrow ->]%lift_Ok_inv & H).
    cbn zeta in H. rewrite bind_commit in H. injection H as <- <-.
    exists workspace. do 3 (split; [done|]). by eapply Hworkspace.
  - intros project_id project_in current_user p db' H.
    unfold ProjectsRouter.update_project in H. rewrite bind_session in H.
    destruct (projects db !! project_id) as [project|] eqn:Hp;
      [rewrite (first_by_id_Some _ _ _ Hp), bind_first_Some in H
      |rewrite (first_by_id_None _ _ Hp), bind_first_None in H; discriminate].
    cbn [fst snd] in H.
    apply M_bind_Ok_inv in H as (? & db1 & [_ ->]%lift_Ok_inv & H).
    apply M_bind_Ok_inv in H as (? & db1 & [_ ->]%require_Ok_inv & H).
    apply M_bind_Ok_inv in H as (row & db1 & [Hrow ->]%lift_Ok_inv & H).
    cbn zeta in H. rewrite bind_commit in H. injection H as <- <-.
    exists project. do 3 (split; [done|]). by eapply Hproject.
  - intros project_id project_update p db' H.
    unfold ProjectService.update_project in H. rewrite bind_session in H.
    destruct (projects db !! project_id) as [project|] eqn:Hp;
      [rewrite (first_by_id_Some _ _ _ Hp) in H
      |rewrite (first_by_id_None _ _ Hp) in H; discriminate].
    cbn [fst snd] in H.
    apply M_bind_Ok_inv in H as (row & db1 & [Hrow ->]%lift_Ok_inv & H).
    cbn zeta in H. rewrite bind_commit in H. injection H as <- <-.
    exists project. do 3 (split; [done|]). by eapply Hproject.
Qed.

(** The owner renames workspace 1 of [sample_db] at time 5: the description,
    the owner and the creation time stay, and the workspace is updated
    at 5. *)
Lemma workspace_project_update_writes_set_fields_witness :
  ∃ w,
    (WorkspacesRouter.update_workspace 1
       {| WorkspaceUpdate.name := Some (Some "V"%string);
          WorkspaceUpdate.description := None |} (1, plain) sample_db).1 = Ok w
    ∧ Workspace.name w.2 = "V"%string
    ∧ Workspace.description w.2 = Workspace.description sample_workspace
    ∧ Workspace.owner_id w.2 = 1
    ∧ Workspace.created_at w.2 = 0
    ∧ Workspace.updated_at w.2 = 5.
Proof.
  destruct (workspace_project_update_writes_set_fields sample_db) as (Hworkspace & _).
  set (row := {| Workspace.name := "V"; Workspace.description := None;
                 Workspace.owner_id := 1; Workspace.created_at := 0;
                 Workspace.updated_at := 5 |}).
  exists (1, row). split; [reflexivity|].
  destruct (Hworkspace 1 {| WorkspaceUpdate.name := Some (Some "V"%string);
                            WorkspaceUpdate.description := None |} (1, plain) (1, row)
              (with_workspaces <[1 := row]> sample_db) eq_refl)
    as (workspace & Hw & _ & _ & Hname & Hdesc & Howner & Hcreated & Hupdated).
  vm_compute in Hw. injection Hw as <-.
  split; [reflexivity|]. split; [exact Hdesc|]. split; [exact Howner|].
  split; [exact Hcreated|exact Hupdated].
Defined.

(** ** A new assignee is checked against the project of the task *)

(** X16.  Whenever [update_task] returns a task for a payload that sets the
    assignee to a user id other than 0, that user is the assignee of the
    returned task, and either was the assignee already or is a stored user
    who is a member of the project that the task had before the update, or
    the owner or a member of the workspace of that project. *)
Theorem update_task_validates_new_assignee
    (db : DB) (task_id : Z) (task_in : TaskUpdate.t) (current_user : Z * User.t)
    (t : Z * Task.t) (db' : DB) (a : Z) :
  TasksRouter.update_task task_id task_in current_user db = (Ok t, db') →
  TaskUpdate.assignee_id task_in = Some (Some a) →
  a ≠ 0 →
  ∃ task project,
    tasks db !! task_id = Some task
    ∧ projects db !! Task.project_id task = Some project
    ∧ Task.assignee_id t.2 = Some a
    ∧ (Task.assignee_id task = Some a
       ∨ is_Some (users db !! a)
         ∧ ((Task.project_id task, a) ∈ project_members db
            ∨ ∃ workspace,
                workspaces db !! Project.workspace_id project = Some workspace
                ∧ (Workspace.owner_id workspace = a
                   ∨ (Project.workspace_id project, a) ∈ workspace_members db))).
Proof.
  intros H Ha Hne.
  unfold TasksRouter.update_task in H. rewrite bind_session in H.
  destruct (tasks db !! task_id) as [task|] eqn:Ht;
    [rewrite (first_by_id_Some _ _ _ Ht), bind_first_Some in H
    |rewrite (first_by_id_None _ _ Ht), bind_first_None in H; discriminate].
  cbn [fst snd] in H.
  destruct (projects db !! Task.project_id task) as [project|] eqn:Hp;
    [rewrite (first_by_id_Some _ _ _ Hp) in H
    |rewrite (first_by_id_None _ _ Hp) in H; discriminate].
  cbn [attr fst snd] in H. rewrite bind_lift_Ok in H.
  apply M_bind_Ok_inv in H as (? & db1 & [_ ->]%lift_Ok_inv & H).
  apply M_bind_Ok_inv in H as (? & db1 & [_ ->]%require_Ok_inv & H).
  apply M_bind_Ok_inv in H as (? & db1 & Hassignee & H).
  assert (db1 = db) as ->.
  { eapply read_only_Ok_inv; [|exact Hassignee]. solve_read_only. }
  apply M_bind_Ok_inv in H as (row & db1 & [Hrow ->]%lift_Ok_inv & H).
  cbn zeta in H. rewrite bind_commit in H. injection H as <- <-.
  apply setattrs_task_update in Hrow as (_ & _ & _ & _ & _ & _ & Hnew & _).
  rewrite Ha in Hnew. cbn [assign] in Hnew.
  exists task, project. do 2 (split; [done|]).
  split.
  { cbn [snd].
    by destruct (Task_flush_columns db task row) as (_ & _ & _ & _ & _ & _ & -> & _). }
  rewrite Ha in Hassignee. cbn [field_value truthy_int] in Hassignee.
  destruct (Z.eqb_spec a 0); [done|].
  case_bool_decide as Hchanged; [|left; by destruct (decide (Some a = Task.assignee_id task))].
  right.
  destruct (users db !! a) as [u|] eqn:Hu;
    [rewrite (first_by_id_Some _ _ _ Hu), bind_first_Some in Hassignee
    |rewrite (first_by_id_None _ _ Hu), bind_first_None in Hassignee; discriminate].
  cbn [fst snd] in Hassignee.
  apply M_bind_Ok_inv in Hassignee as (rejected & db2 & [Hrej ->]%lift_Ok_inv & Hreq).
  apply require_Ok_inv in Hreq as [Hacc _]. apply negb_true_iff in Hacc. subst rejected.
  split; [done|]. cbn [attr fst snd] in Hrej.
  unfold in_members in Hrej at 1.
  rewrite (bool_decide_true (is_Some (users db !! a))), andb_true_r in Hrej by done.
  destruct (bool_decide ((Task.project_id task, a) ∈ project_members db))
    eqn:Hpm; [left; by apply bool_decide_eq_true in Hpm|]. right.
  cbn [negb and_then] in Hrej.
  destruct (workspaces db !! Project.workspace_id project) as [workspace|] eqn:Hw;
    [rewrite (first_by_id_Some _ _ _ Hw) in Hrej
    |rewrite (first_by_id_None _ _ Hw) in Hrej; discriminate].
  exists workspace. split; [done|]. cbn [attr fst snd] in Hrej.
  rewrite and_then_Ok in Hrej. injection Hrej as Hrej.
  apply andb_false_iff in Hrej as [Hrej|Hrej].
  - left. unfold owner, obj_ne in Hrej.
    destruct (users db !! Workspace.owner_id workspace); [|discriminate].
    cbn in Hrej. by apply negb_false_iff, Z.eqb_eq in Hrej.
  - right. apply negb_false_iff, andb_true_iff in Hrej as [Hrej _].
    by apply bool_decide_eq_true in Hrej.
Qed.

(** User 2, the assignee of task 1 of [sample_db], hands the task to user 1,
    a member of project 1; handing it to user 3, who is in neither the
    project nor the workspace, is refused. *)
Lemma update_task_validates_new_assignee_witness :
  (∃ t, (TasksRouter.update_task 1 (only_assignee (Some 1)) (2, plain) sample_db).1 = Ok t
        ∧ Task.assignee_id t.2 = Some 1)
  ∧ TasksRouter.update_task 1 (only_assignee (Some 3)) (2, plain) sample_db
    = (Raise (HTTPException 400 "Assignee must be a member of the project or workspace"),
       sample_db).
Proof.
  split; [|reflexivity].
  set (row := {| Task.title := "Write report"; Task.description := None;
                 Task.status := TODO; Task.priority := HIGH; Task.due_date := None;
                 Task.project_id := 1; Task.assignee_id := Some 1;
                 Task.created_by_id := 1; Task.created_at := 0;
                 Task.updated_at := 5 |}).
  exists (1, row). split; [reflexivity|].
  destruct (update_task_validates_new_assignee sample_db 1 (only_assignee (Some 1))
              (2, plain) (1, row) (with_tasks <[1 := row]> sample_db) 1 eq_refl eq_refl)
    as (task & project & _ & _ & Hassignee & _); [done|].
  exact Hassignee.
Defined.

(** ** A listing shows what can be read *)

Lemma elem_of_project_join db (pw : (Z * Project.t) * (Z * Workspace.t)) :
  pw ∈ (p ← map_to_list (projects db);
        match first_by_id (workspaces db) (Project.workspace_id p.2) with
        | Some w => [(p, w)]
        | None => []
        end)
  ↔ projects db !! pw.1.1 = Some pw.1.2
    ∧ pw.2.1 = Project.workspace_id pw.1.2
    ∧ workspaces db !! pw.2.1 = Some pw.2.2.
Proof.
  destruct pw as [[pid p] [wid w]]. cbn [fst snd]. rewrite list_elem_of_bind. split.
  - intros ([pid' p'] & Hin & Hp). cbn [fst snd] in Hin.
    destruct (first_by_id (workspaces db) _) as [w'|] eqn:Hw;
      [|by apply elem_of_nil in Hin].
    apply list_elem_of_singleton in Hin. injection Hin as <- <- <-.
    apply elem_of_map_to_list in Hp. apply first_by_id_inv in Hw as [Hw1 Hw2].
    cbn [fst snd] in *. by subst wid.
  - intros (Hp & -> & Hw). exists (pid, p). split; [|by apply elem_of_map_to_list].
    cbn [fst snd]. rewrite (first_by_id_Some _ _ _ Hw). by apply list_elem_of_singleton.
Qed.

(** X17.  The listings of workspaces and projects agree with the read
    handlers.  Every workspace that [read_workspaces] returns to an actor is
    one that [read_workspace] returns to the same actor, and every project
    that [read_projects] returns is one that [read_project] returns,
    whatever the window and the filter; conversely, with no filter and a
    window from 0 that holds all the rows, its limit no larger than the
    largest bigint, whatever the read handlers return is in the listing.
    A listing returns rows exactly when [skip] and [limit] are between 0 and
    the largest bigint, and fails with a database error otherwise. *)
Theorem listings_agree_with_reads (db : DB) (current_user : Z * User.t) :
  (∀ skip limit rows w,
     (WorkspacesRouter.read_workspaces skip limit current_user db).1 = Ok rows →
     w ∈ rows →
     (WorkspacesRouter.read_workspace w.1 current_user db).1 = Ok w)
  ∧ (∀ skip limit workspace_id rows p,
       (ProjectsRouter.read_projects skip limit workspace_id current_user db).1 = Ok rows →
       p ∈ rows →
       (ProjectsRouter.read_project p.1 current_user db).1 = Ok p)
  ∧ (∀ limit w,
       Z.of_nat (size (workspaces db)) ≤ limit →
       limit ≤ bigint_max →
       (WorkspacesRouter.read_workspace w.1 current_user db).1 = Ok w →
       ∃ rows,
         (WorkspacesRouter.read_workspaces 0 limit current_user db).1 = Ok rows ∧ w ∈ rows)
  ∧ (∀ limit p,
       Z.of_nat (size (projects db)) ≤ limit →
       limit ≤ bigint_max →
       (ProjectsRouter.read_project p.1 current_user db).1 = Ok p →
       ∃ rows,
         (ProjectsRouter.read_projects 0 limit None current_user db).1 = Ok rows
         ∧ p ∈ rows)
  ∧ (∀ skip limit,
       ((∃ rows, (WorkspacesRouter.read_workspaces skip limit current_user db).1 = Ok rows)
        ↔ in_window skip limit)
       ∧ (¬ in_window skip limit →
          WorkspacesRouter.read_workspaces skip limit current_user db
          = (Raise DataError, db))
       ∧ ∀ workspace_id,
           ((∃ rows, (ProjectsRouter.read_projects skip limit workspace_id
                        current_user db).1 = Ok rows)
            ↔ in_window skip limit)
           ∧ (¬ in_window skip limit →
              ProjectsRouter.read_projects skip limit workspace_id current_user db
              = (Raise DataError, db))).
Proof.
  split; [|split; [|split; [|split]]].
  - intros skip limit rows [wid w] Hrows Hin.
    unfold WorkspacesRouter.read_workspaces in Hrows. rewrite bind_session in Hrows.
    assert (Hw : workspaces db !! wid = Some w
                 ∧ (User.is_superuser current_user.2 = true
                    ∨ Workspace.owner_id w = current_user.1
                    ∨ in_members (workspace_members db) db wid current_user.1 = true)).
    { destruct (User.is_superuser current_user.2); cbn [lift fst] in Hrows.
      - apply offset_limit_subseteq in Hrows. apply Hrows in Hin. apply elem_of_map_to_list in Hin.
        auto.
      - apply offset_limit_subseteq in Hrows.
        apply Hrows in Hin. apply list_elem_of_filter in Hin as [Hcond Hin].
        apply elem_of_map_to_list in Hin. auto. }
    destruct Hw as [Hw Hcond]. cbn [fst].
    rewrite (read_workspace_outcome _ _ _ _ Hw). cbn [fst].
    destruct Hcond as [->|[Hown| ->]]; [done| |by rewrite orb_true_r].
    by rewrite (bool_decide_true _ Hown), orb_true_r.
  - intros skip limit workspace_id rows [pid p] Hrows Hin.
    unfold ProjectsRouter.read_projects in Hrows. rewrite bind_session in Hrows.
    cbn [fst]. unfold ProjectsRouter.read_project. rewrite bind_session.
    destruct (User.is_superuser current_user.2) eqn:Hsu; cbn [lift fst] in Hrows.
    + apply offset_limit_subseteq in Hrows.
      apply Hrows in Hin. apply list_elem_of_filter in Hin as [_ Hin].
      apply elem_of_map_to_list in Hin.
      rewrite (first_by_id_Some _ _ _ Hin), bind_first_Some. cbn [fst snd or_else].
      by rewrite bind_lift_Ok, bind_require_true.
    + apply offset_limit_subseteq in Hrows.
      apply Hrows in Hin. apply list_elem_of_filter in Hin as [_ Hin].
      apply list_elem_of_fmap in Hin as ([[pid' p'] [wid w]] & Heq & Hin).
      cbn [fst] in Heq. injection Heq as <- <-.
      apply list_elem_of_filter in Hin as [Hcond Hin].
      apply elem_of_project_join in Hin as (Hp & Hwid & Hw). cbn [fst snd] in *.
      subst wid.
      rewrite (first_by_id_Some _ _ _ Hp), bind_first_Some. cbn [fst snd].
      rewrite (first_by_id_Some _ _ _ Hw). cbn [attr fst snd].
      rewrite !or_else_Ok, bind_lift_Ok.
      assert (false || bool_decide (Workspace.owner_id w = current_user.1)
              || in_members (workspace_members db) db (Project.workspace_id p)
                   current_user.1
              || in_members (project_members db) db pid current_user.1 = true) as ->.
      { destruct Hcond as [->|[Hown| ->]]; [by rewrite orb_true_r| |by rewrite !orb_true_r].
        by rewrite (bool_decide_true _ Hown). }
      by rewrite bind_require_true.
  - intros limit [wid w] Hlimit Hmax Hread. cbn [fst] in Hread.
    unfold WorkspacesRouter.read_workspace in Hread. rewrite bind_session in Hread.
    destruct (workspaces db !! wid) as [w'|] eqn:Hw;
      [rewrite (first_by_id_Some _ _ _ Hw), bind_first_Some in Hread
      |rewrite (first_by_id_None _ _ Hw), bind_first_None in Hread; discriminate].
    cbn [fst snd] in Hread.
    destruct (_ || in_members _ _ _ _) eqn:Hcond in Hread;
      [rewrite bind_require_true in Hread|rewrite bind_require_false in Hread; discriminate].
    injection Hread as ->.
    unfold WorkspacesRouter.read_workspaces. rewrite bind_session.
    destruct (User.is_superuser current_user.2) eqn:Hsu.
    + rewrite offset_limit_all by (by rewrite ?length_map_to_list).
      eexists. split; [done|]. by apply elem_of_map_to_list.
    + rewrite offset_limit_all; [| |done].
      * eexists. split; [done|]. apply list_elem_of_filter.
        split; [|by apply elem_of_map_to_list]. cbn [fst snd].
        cbn [orb] in Hcond. apply orb_true_iff in Hcond as [Hown|Hmem]; [|by right].
        left. by apply bool_decide_eq_true in Hown.
      * etrans; [|exact Hlimit]. apply inj_le.
        etrans; [apply length_filter|]. by rewrite length_map_to_list.
  - intros limit [pid p] Hlimit Hmax Hread. cbn [fst] in Hread.
    unfold ProjectsRouter.read_project in Hread. rewrite bind_session in Hread.
    destruct (projects db !! pid) as [p'|] eqn:Hp;
      [rewrite (first_by_id_Some _ _ _ Hp), bind_first_Some in Hread
      |rewrite (first_by_id_None _ _ Hp), bind_first_None in Hread; discriminate].
    cbn [fst snd] in Hread.
    unfold ProjectsRouter.read_projects. rewrite bind_session.
    assert (Hfilter : ∀ l : list (Z * Project.t),
              filter (λ p, ProjectsRouter.workspace_filter None p = true) l = l).
    { intros l. induction l as [|x l IH]; [done|].
      rewrite filter_cons_True by done. by rewrite IH. }
    rewrite !Hfilter.
    destruct (User.is_superuser current_user.2) eqn:Hsu.
    + cbn [or_else] in Hread. rewrite bind_lift_Ok, bind_require_true in Hread.
      injection Hread as ->.
      rewrite offset_limit_all by (by rewrite ?length_map_to_list).
      eexists. split; [done|]. by apply elem_of_map_to_list.
    + destruct (workspaces db !! Project.workspace_id p') as [w|] eqn:Hw;
        [rewrite (first_by_id_Some _ _ _ Hw) in Hread
        |rewrite (first_by_id_None _ _ Hw) in Hread; discriminate].
      cbn [attr fst snd] in Hread. rewrite !or_else_Ok, bind_lift_Ok in Hread.
      destruct (_ || in_members (project_members _) _ _ _) eqn:Hcond in Hread;
        [rewrite bind_require_true in Hread
        |rewrite bind_require_false in Hread; discriminate].
      injection Hread as ->.
      rewrite offset_limit_all; [| |done].
      * eexists. split; [done|]. apply list_elem_of_fmap.
        exists ((pid, p), (Project.workspace_id p, w)). split; [done|].
        apply list_elem_of_filter. split; [|by apply elem_of_project_join].
        cbn [fst snd]. cbn [orb] in Hcond.
        apply orb_true_iff in Hcond as [Hcond|Hpm]; [|by left].
        apply orb_true_iff in Hcond as [Hown|Hwm]; [|by right; right].
        right; left. by apply bool_decide_eq_true in Hown.
      * etrans; [|exact Hlimit]. apply inj_le. rewrite length_fmap.
        etrans; [apply length_filter|].
        rewrite <- (length_map_to_list (projects db)).
        generalize (map_to_list (projects db)). intros l.
        induction l as [|x l IH]; cbn; [done|]. rewrite length_app.
        destruct (first_by_id _ _); cbn; lia.
  - intros skip limit.
    unfold WorkspacesRouter.read_workspaces, ProjectsRouter.read_projects.
    rewrite !bind_session. split; [|split; [|intros workspace_id; split]].
    + destruct (User.is_superuser current_user.2); cbn [lift fst];
        apply offset_limit_is_Ok.
    + intros Hout.
      by destruct (User.is_superuser current_user.2); cbn [lift];
        rewrite (offset_limit_Raise _ _ _ Hout).
    + rewrite bind_session.
      destruct (User.is_superuser current_user.2); cbn [lift fst];
        apply offset_limit_is_Ok.
    + intros Hout. rewrite bind_session.
      by destruct (User.is_superuser current_user.2); cbn [lift];
        rewrite (offset_limit_Raise _ _ _ Hout).
Qed.

(** User 2, a member of workspace 1 of [member_db], finds the workspace in
    the listing and reads it. *)
Lemma listings_agree_with_reads_witness :
  (WorkspacesRouter.read_workspaces 0 100 (2, plain) member_db).1
  = Ok [(1, sample_workspace)]
  ∧ (WorkspacesRouter.read_workspace 1 (2, plain) member_db).1 = Ok (1, sample_workspace).
Proof.
  assert (Hrows : (WorkspacesRouter.read_workspaces 0 100 (2, plain) member_db).1
                  = Ok [(1, sample_workspace)]) by (vm_compute; reflexivity).
  split; [exact Hrows|].
  destruct (listings_agree_with_reads member_db (2, plain)) as (Hlisted & _).
  apply (Hlisted 0 100 [(1, sample_workspace)] (1, sample_workspace) Hrows).
  apply list_elem_of_here.
Defined.

(** ** Access by the services and by the read handlers *)

(** X18.  For a stored user who is not a superuser and a stored chain of
    workspace, project and task, the access predicates of the services say
    what the read handlers decide: [WorkspaceService.has_access] holds
    exactly when [read_workspace] returns the workspace,
    [ProjectService.has_access] exactly when [read_project] returns the
    project, and [TaskService.has_access] is the access to the project of the
    task, so that it implies that [read_task] returns the task; access to a
    workspace gives access to its projects. *)
Theorem service_access_matches_reads
    (db : DB) (task_id : Z) (task : Task.t) (project : Project.t)
    (workspace : Workspace.t) (current_user : Z * User.t) :
  tasks db !! task_id = Some task →
  projects db !! Task.project_id task = Some project →
  workspaces db !! Project.workspace_id project = Some workspace →
  is_Some (users db !! current_user.1) →
  User.is_superuser current_user.2 = false →
  let uid := current_user.1 in
  (WorkspaceService.has_access db (Project.workspace_id project) uid = true
   ↔ (WorkspacesRouter.read_workspace (Project.workspace_id project) current_user db).1
     = Ok (Project.workspace_id project, workspace))
  ∧ (ProjectService.has_access db (Task.project_id task) uid = true
     ↔ (ProjectsRouter.read_project (Task.project_id task) current_user db).1
       = Ok (Task.project_id task, project))
  ∧ TaskService.has_access db task_id uid
    = ProjectService.has_access db (Task.project_id task) uid
  ∧ (TaskService.has_access db task_id uid = true →
     (TasksRouter.read_task task_id current_user db).1 = Ok (task_id, task))
  ∧ (WorkspaceService.has_access db (Project.workspace_id project) uid = true →
     ProjectService.has_access db (Task.project_id task) uid = true).
Proof.
  intros Ht Hp Hw Hu Hsu uid. subst uid.
  rewrite (read_workspace_outcome _ _ _ _ Hw), (read_project_outcome _ _ _ _ _ Hp Hw),
    (read_task_outcome _ _ _ _ _ _ Ht Hp Hw). cbn [fst].
  rewrite !in_members_true by done. rewrite Hsu. cbn [orb].
  unfold TaskService.has_access. rewrite (first_by_id_Some _ _ _ Ht). cbn [fst snd].
  unfold ProjectService.has_access. rewrite (first_by_id_Some _ _ _ Hp). cbn [fst snd].
  rewrite (has_access_reflect _ _ _ _ Hw). unfold ProjectService.is_member.
  set (own := bool_decide (Workspace.owner_id workspace = current_user.1)).
  set (wm := bool_decide ((Project.workspace_id project, current_user.1)
                          ∈ workspace_members db)).
  set (pm := bool_decide ((Task.project_id task, current_user.1) ∈ project_members db)).
  split; [|split; [|split; [|split]]].
  - by destruct (own || wm).
  - rewrite (orb_comm pm). by destruct (own || wm || pm).
  - done.
  - rewrite (orb_comm pm). intros ->. done.
  - intros ->. apply orb_true_r.
Qed.

(** User 2 of [member_db], a member of workspace 1. *)
Lemma service_access_matches_reads_witness :
  ProjectService.has_access member_db 1 2 = true
  ∧ (ProjectsRouter.read_project 1 (2, plain) member_db).1 = Ok (1, sample_project).
Proof.
  destruct (service_access_matches_reads member_db 1 sample_task sample_project
              sample_workspace (2, plain) eq_refl eq_refl eq_refl)
    as (_ & Hproject & _ & _ & Hdown); [by exists plain|reflexivity|].
  assert (Haccess : ProjectService.has_access member_db 1 2 = true)
    by (apply Hdown; reflexivity).
  split; [exact Haccess|]. by apply Hproject.
Defined.

(** ** Deleting a task, setting its status *)

(** X19.  For a stored task of a stored project and workspace, the handler
    [delete_task], unless it answers 403, returns the task and removes it;
    the service [delete_task] removes it and returns [True] exactly when the
    user has access to the project of the task, and returns [False] without
    a change otherwise.  The removal takes this one task out and leaves every
    other row of the database. *)
Theorem delete_task_removes_the_task
    (db : DB) (task_id : Z) (task : Task.t) (project : Project.t) (workspace : Workspace.t) :
  tasks db !! task_id = Some task →
  projects db !! Task.project_id task = Some project →
  workspaces db !! Project.workspace_id project = Some workspace →
  let db' := with_tasks (delete task_id) db in
  (∀ current_user,
     (TasksRouter.delete_task task_id current_user db).1 ≠ Raise forbidden →
     TasksRouter.delete_task task_id current_user db = (Ok (task_id, task), db'))
  ∧ (∀ user_id,
       TaskService.delete_task task_id user_id db
       = if ProjectService.has_access db (Task.project_id task) user_id
         then (Ok true, db') else (Ok false, db))
  ∧ tasks db' !! task_id = None
  ∧ (∀ i, i ≠ task_id → tasks db' !! i = tasks db !! i)
  ∧ users db' = users db ∧ workspaces db' = workspaces db
  ∧ workspace_members db' = workspace_members db
  ∧ projects db' = projects db ∧ project_members db' = project_members db.
Proof.
  intros Ht Hp Hw db'. split; [|split].
  - intros current_user Hallowed.
    rewrite (delete_task_denied _ _ _ _ _ _ Ht Hp Hw) in Hallowed.
    apply not_false_is_true in Hallowed.
    unfold TasksRouter.delete_task.
    rewrite bind_session, (first_by_id_Some _ _ _ Ht), bind_first_Some. cbn [fst snd].
    rewrite (first_by_id_Some _ _ _ Hp). cbn [attr fst snd]. rewrite bind_lift_Ok.
    rewrite (first_by_id_Some _ _ _ Hw). cbn [attr fst snd].
    by rewrite !or_else_Ok, bind_lift_Ok, Hallowed, bind_require_true, bind_commit.
  - intros user_id. unfold TaskService.delete_task.
    rewrite bind_session, (first_by_id_Some _ _ _ Ht). cbn [fst snd].
    destruct (ProjectService.has_access _ _ _); cbn [negb]; [|done].
    by rewrite bind_commit.
  - subst db'. cbn. split; [apply lookup_delete_eq|].
    split; [intros i Hi; by apply lookup_delete_ne|done].
Qed.

(** User 1 created task 1 of [sample_db] and deletes it. *)
Lemma delete_task_removes_the_task_witness :
  TasksRouter.delete_task 1 (1, plain) sample_db
  = (Ok (1, sample_task), with_tasks (delete 1) sample_db).
Proof.
  destruct (delete_task_removes_the_task sample_db 1 sample_task sample_project
              sample_workspace eq_refl eq_refl eq_refl) as (Hroute & _).
  apply Hroute. discriminate.
Defined.

Lemma Task_set_status db task status :
  Task_set db task ("status"%string, PStatus status)
  = Ok {| Task.title := Task.title task; Task.description := Task.description task;
          Task.status := status; Task.priority := Task.priority task;
          Task.due_date := Task.due_date task; Task.project_id := Task.project_id task;
          Task.assignee_id := Task.assignee_id task;
          Task.created_by_id := Task.created_by_id task;
          Task.created_at := Task.created_at task;
          Task.updated_at := Task.updated_at task |}.
Proof. reflexivity. Qed.

Lemma Task_flush_status db task status :
  Task_flush db task
    {| Task.title := Task.title task; Task.description := Task.description task;
       Task.status := status; Task.priority := Task.priority task;
       Task.due_date := Task.due_date task; Task.project_id := Task.project_id task;
       Task.assignee_id := Task.assignee_id task;
       Task.created_by_id := Task.created_by_id task;
       Task.created_at := Task.created_at task;
       Task.updated_at := Task.updated_at task |}
  = if bool_decide (Task.status task = status) then task
    else {| Task.title := Task.title task; Task.description := Task.description task;
            Task.status := status; Task.priority := Task.priority task;
            Task.due_date := Task.due_date task;
            Task.project_id := Task.project_id task;
            Task.assignee_id := Task.assignee_id task;
            Task.created_by_id := Task.created_by_id task;
            Task.created_at := Task.created_at task;
            Task.updated_at := clock db |}.
Proof.
  unfold Task_flush. case_bool_decide as Hrow; case_bool_decide as Hstatus; try done.
  - exfalso. apply Hstatus. by rewrite <- Hrow.
  - exfalso. apply Hrow. destruct task. cbn in *. by subst.
Qed.

(** X20.  [TaskService.update_task_status] on a stored task returns [None]
    and changes nothing when the user has no access to the project of the
    task.  Otherwise, when the new status is the stored one, it returns the
    stored task and the database stays as it is, [updated_at] included; when
    it is another one, it returns the task with the new status, the time of
    the request as [updated_at] and every other column as stored, and the
    database differs in that row only.  On an id that is not stored it
    returns [None].  In every case the outcome is that of
    [TaskService.update_task] with a payload that sets the status alone. *)
Theorem update_task_status_sets_status
    (db : DB) (task_id : Z) (status : TaskStatus) (user_id : Z) :
  let r := TaskService.update_task_status task_id status user_id db in
  (∀ task,
     tasks db !! task_id = Some task →
     let row := {| Task.title := Task.title task; Task.description := Task.description task;
                   Task.status := status; Task.priority := Task.priority task;
                   Task.due_date := Task.due_date task;
                   Task.project_id := Task.project_id task;
                   Task.assignee_id := Task.assignee_id task;
                   Task.created_by_id := Task.created_by_id task;
                   Task.created_at := Task.created_at task;
                   Task.updated_at := clock db |} in
     r = (if negb (ProjectService.has_access db (Task.project_id task) user_id)
          then (Ok None, db)
          else if bool_decide (Task.status task = status)
               then (Ok (Some (task_id, task)), db)
               else (Ok (Some (task_id, row)), with_tasks <[task_id := row]> db))
     ∧ (∀ i, i ≠ task_id → tasks r.2 !! i = tasks db !! i)
     ∧ clock r.2 = clock db ∧ users r.2 = users db
     ∧ workspaces r.2 = workspaces db ∧ workspace_members r.2 = workspace_members db
     ∧ projects r.2 = projects db ∧ project_members r.2 = project_members db)
  ∧ (tasks db !! task_id = None → r = (Ok None, db))
  ∧ r = TaskService.update_task task_id (only_status (Some status)) user_id db.
Proof.
  intros r. subst r. split; [|split].
  - intros task Ht row.
    assert (Hr : TaskService.update_task_status task_id status user_id db
                 = if negb (ProjectService.has_access db (Task.project_id task) user_id)
                   then (Ok None, db)
                   else if bool_decide (Task.status task = status)
                        then (Ok (Some (task_id, task)), db)
                        else (Ok (Some (task_id, row)),
                              with_tasks <[task_id := row]> db)).
    { unfold TaskService.update_task_status.
      rewrite bind_session, (first_by_id_Some _ _ _ Ht). cbn [fst snd].
      destruct (ProjectService.has_access _ _ _); cbn [negb]; [|done].
      rewrite Task_set_status, bind_lift_Ok. cbn zeta.
      rewrite Task_flush_status, bind_commit.
      case_bool_decide; [|done].
      change ((mret (Some (task_id, task)) : M _) (with_tasks <[task_id := task]> db))
        with (Ok (Some (task_id, task)), with_tasks <[task_id := task]> db).
      f_equal. destruct db. unfold with_tasks. cbn in *. f_equal. by apply insert_id. }
    split; [exact Hr|]. rewrite Hr.
    destruct (negb _); [done|]. case_bool_decide; [done|]. cbn.
    split; [|done]. intros i Hi. by apply lookup_insert_ne.
  - intros Ht. unfold TaskService.update_task_status.
    by rewrite bind_session, (first_by_id_None _ _ Ht).
  - unfold TaskService.update_task_status, TaskService.update_task.
    rewrite !bind_session. destruct (first_by_id (tasks db) task_id) as [task|]; [|done].
    destruct (negb _); [done|]. reflexivity.
Qed.

(** User 1, a member of project 1 of [sample_db], marks task 1 as done at
    time 5. *)
Lemma update_task_status_sets_status_witness :
  ∃ row,
    (TaskService.update_task_status 1 DONE 1 sample_db).1 = Ok (Some (1, row))
    ∧ Task.status row = DONE ∧ Task.assignee_id row = Some 2
    ∧ Task.created_at row = 0 ∧ Task.updated_at row = 5.
Proof.
  destruct (update_task_status_sets_status sample_db 1 DONE 1) as [Hstored _].
  destruct (Hstored sample_task eq_refl) as [Hr _]. cbn zeta in Hr.
  eexists. split; [rewrite Hr; reflexivity|]. repeat split; reflexivity.
Defined.

(** ** Rows that are not there *)

(** X21.  A handler whose target row is not stored answers 404 with the
    detail of the missing entity and changes nothing, before any permission
    check: the six handlers that take a workspace id (read, update,
    delete, add and remove member, and [create_project] for the workspace of
    its payload), the six that take a project id (with [create_task] for the
    project of its payload) and the three that take a task id.  The
    services answer the same calls with [None] or [False] and change
    nothing. *)
Theorem missing_rows_are_not_found (db : DB) (current_user : Z * User.t) :
  let not_found {A} (detail : string) (r : Res A * DB) : Prop :=
    r = (Raise (HTTPException 404 detail), db) in
  (∀ workspace_id,
     workspaces db !! workspace_id = None →
     not_found "Workspace not found"
       (WorkspacesRouter.read_workspace workspace_id current_user db)
     ∧ (∀ workspace_in,
          not_found "Workspace not found"
            (WorkspacesRouter.update_workspace workspace_id workspace_in current_user db))
     ∧ not_found "Workspace not found"
         (WorkspacesRouter.delete_workspace workspace_id current_user db)
     ∧ (∀ user_id,
          not_found "Workspace not found"
            (WorkspacesRouter.add_workspace_member workspace_id user_id current_user db)
          ∧ not_found "Workspace not found"
              (WorkspacesRouter.remove_workspace_member workspace_id user_id
                 current_user db)
          ∧ WorkspaceService.add_member workspace_id user_id db = (Ok false, db))
     ∧ (∀ project_in,
          ProjectCreate.workspace_id project_in = workspace_id →
          not_found "Workspace not found"
            (ProjectsRouter.create_project project_in current_user db))
     ∧ (∀ workspace_update,
          WorkspaceService.update_workspace workspace_id workspace_update db
          = (Ok None, db))
     ∧ WorkspaceService.delete_workspace workspace_id db = (Ok false, db))
  ∧ (∀ project_id,
       projects db !! project_id = None →
       not_found "Project not found"
         (ProjectsRouter.read_project project_id current_user db)
       ∧ (∀ project_in,
            not_found "Project not found"
              (ProjectsRouter.update_project project_id project_in current_user db))
       ∧ not_found "Project not found"
           (ProjectsRouter.delete_project project_id current_user db)
       ∧ (∀ user_id,
            not_found "Project not found"
              (ProjectsRouter.add_project_member project_id user_id current_user db)
            ∧ not_found "Project not found"
                (ProjectsRouter.remove_project_member project_id user_id current_user db)
            ∧ ProjectService.add_member project_id user_id db = (Ok false, db))
       ∧ (∀ task_in,
            TaskCreate.project_id task_in = project_id →
            not_found "Project not found"
              (TasksRouter.create_task task_in current_user db))
       ∧ (∀ project_update,
            ProjectService.update_project project_id project_update db = (Ok None, db))
       ∧ ProjectService.delete_project project_id db = (Ok false, db))
  ∧ (∀ task_id,
       tasks db !! task_id = None →
       not_found "Task not found" (TasksRouter.read_task task_id current_user db)
       ∧ (∀ task_in,
            not_found "Task not found"
              (TasksRouter.update_task task_id task_in current_user db))
       ∧ not_found "Task not found" (TasksRouter.delete_task task_id current_user db)
       ∧ (∀ task_update user_id,
            TaskService.update_task task_id task_update user_id db = (Ok None, db))
       ∧ (∀ user_id, TaskService.delete_task task_id user_id db = (Ok false, db))).
Proof.
  intros not_found. subst not_found. cbn beta.
  split; [|split]; intros id Hnone;
    repeat match goal with
           | |- _ ∧ _ => split
           | |- ∀ _, _ => intros ?
           end;
    subst;
    unfold WorkspacesRouter.read_workspace, WorkspacesRouter.update_workspace,
      WorkspacesRouter.delete_workspace, WorkspacesRouter.add_workspace_member,
      WorkspacesRouter.remove_workspace_member, WorkspaceService.add_member,
      WorkspaceService.update_workspace, WorkspaceService.delete_workspace,
      ProjectsRouter.create_project,
      ProjectsRouter.read_project, ProjectsRouter.update_project,
      ProjectsRouter.delete_project, ProjectsRouter.add_project_member,
      ProjectsRouter.remove_project_member, ProjectService.add_member,
      ProjectService.update_project, ProjectService.delete_project,
      TasksRouter.create_task,
      TasksRouter.read_task, TasksRouter.update_task, TasksRouter.delete_task,
      TaskService.update_task, TaskService.delete_task;
    rewrite bind_session, (first_by_id_None _ _ Hnone); rewrite ?bind_first_None;
    reflexivity.
Qed.

(** Nobody, the superuser included, can delete workspace 7 of [sample_db]. *)
Lemma missing_rows_are_not_found_witness :
  WorkspacesRouter.delete_workspace 7 (9, super) sample_db
  = (Raise (HTTPException 404 "Workspace not found"), sample_db).
Proof.
  destruct (missing_rows_are_not_found sample_db (9, super)) as (Hworkspace & _).
  by destruct (Hworkspace 7 eq_refl) as (_ & _ & Hdelete & _).
Defined.

(** ** The listings of the services *)

Lemma elem_of_map_to_list_pair {A} (tbl : gmap Z A) (x : Z * A) :
  x ∈ map_to_list tbl ↔ tbl !! x.1 = Some x.2.
Proof. destruct x. apply elem_of_map_to_list. Qed.

Lemma offset_limit_lists_rows {A} (tbl : gmap Z A) (P : Z * A → Prop)
    (skip limit : Z) (l : list (Z * A)) :
  l `sublist_of` map_to_list tbl →
  (∀ x, x ∈ l ↔ tbl !! x.1 = Some x.2 ∧ P x) →
  lists_rows tbl P skip limit (offset_limit skip limit l).
Proof.
  intros Hsub Hl. split; [|apply offset_limit_Raise].
  intros [Hskip Hlimit]. rewrite offset_limit_Ok by done.
  eexists. split; [done|]. split; [|split; [|split]].
  - rewrite length_take. lia.
  - eapply sublist_NoDup; [apply (NoDup_map_to_list tbl)|].
    etrans; [apply sublist_take|]. etrans; [apply sublist_drop|]. done.
  - intros x Hin. apply Hl. eapply subseteq_drop, subseteq_take, Hin.
  - intros -> Hsize x Hstored HP.
    change (Z.to_nat 0) with 0%nat. rewrite drop_0, take_ge; [by apply Hl|].
    apply sublist_length in Hsub. rewrite length_map_to_list in Hsub. lia.
Qed.

Lemma status_filter_true status t :
  TaskService.status_filter status t = true ↔ status_is status t.
Proof.
  unfold TaskService.status_filter, status_is. destruct status as [s|].
  - rewrite bool_decide_eq_true. split; [by intros ? ? [= <-]|eauto].
  - split; [by intros _ ? [=]|done].
Qed.

(** X22.  Every listing of the services returns, for a window whose [skip]
    and [limit] are between 0 and the largest bigint, at most [limit] rows,
    none twice, each of them a stored row that passes the filters of the
    call; with such a window from 0 that holds the table it returns all of
    those; for any other window it fails with the error of the database.
    The filters are: none
    ([get_all_workspaces], [get_all_projects]); the workspace
    ([get_projects_by_workspace]); the status when one is given
    ([get_all_tasks]); the project, the status when given and the assignee
    when given and not 0 ([get_tasks_by_project]); the assignee and the
    status when given ([get_tasks_by_assignee]). *)
Theorem service_listings (db : DB) (skip limit : Z) :
  lists_rows (workspaces db) (λ _, True) skip limit
    (WorkspaceService.get_all_workspaces db skip limit)
  ∧ lists_rows (projects db) (λ _, True) skip limit
      (ProjectService.get_all_projects db skip limit)
  ∧ (∀ workspace_id,
       lists_rows (projects db) (λ p, Project.workspace_id p.2 = workspace_id) skip limit
         (ProjectService.get_projects_by_workspace db workspace_id skip limit))
  ∧ (∀ status,
       lists_rows (tasks db) (status_is status) skip limit
         (TaskService.get_all_tasks db status skip limit))
  ∧ (∀ project_id status assignee_id,
       lists_rows (tasks db)
         (λ t, Task.project_id t.2 = project_id ∧ status_is status t
               ∧ assignee_is assignee_id t) skip limit
         (TaskService.get_tasks_by_project db project_id status assignee_id skip limit))
  ∧ (∀ assignee_id status,
       lists_rows (tasks db)
         (λ t, Task.assignee_id t.2 = Some assignee_id ∧ status_is status t) skip limit
         (TaskService.get_tasks_by_assignee db assignee_id status skip limit)).
Proof.
  split; [|split; [|split; [|split; [|split]]]].
  - apply offset_limit_lists_rows; [done..|].
    intros x. rewrite elem_of_map_to_list_pair. tauto.
  - apply offset_limit_lists_rows; [done..|].
    intros x. rewrite elem_of_map_to_list_pair. tauto.
  - intros workspace_id. apply offset_limit_lists_rows; [done..|apply sublist_filter|].
    intros x. rewrite list_elem_of_filter, elem_of_map_to_list_pair. tauto.
  - intros status. apply offset_limit_lists_rows; [done..|apply sublist_filter|].
    intros x. rewrite list_elem_of_filter, elem_of_map_to_list_pair, status_filter_true.
    tauto.
  - intros project_id status assignee_id. unfold TaskService.get_tasks_by_project.
    assert (Hassignee : ∀ t,
              assignee_is assignee_id t
              ↔ match truthy_int assignee_id with
                | Some a => Task.assignee_id t.2 = Some a
                | None => True
                end).
    { intros t. unfold assignee_is. destruct assignee_id as [a|]; cbn [truthy_int].
      - destruct (Z.eqb_spec a 0) as [->|Hne].
        + split; [done|]. by intros _ ? [= <-].
        + split; [eauto|]. by intros ? ? [= <-].
      - split; [done|]. by intros _ ? [=]. }
    destruct (truthy_int assignee_id) as [a|] eqn:Ha.
    + apply offset_limit_lists_rows; [done..| |].
      * etrans; [apply sublist_filter|]. etrans; apply sublist_filter.
      * intros x.
        rewrite !list_elem_of_filter, elem_of_map_to_list_pair, status_filter_true, Hassignee.
        tauto.
    + apply offset_limit_lists_rows; [done..| |].
      * etrans; apply sublist_filter.
      * intros x.
        rewrite !list_elem_of_filter, elem_of_map_to_list_pair, status_filter_true, Hassignee.
        tauto.
  - intros assignee_id status. apply offset_limit_lists_rows; [done..| |].
    + etrans; apply sublist_filter.
    + intros x.
      rewrite !list_elem_of_filter, elem_of_map_to_list_pair, status_filter_true. tauto.
Qed.

(** The tasks of project 1 of [sample_db] in the window (0, 100): task 1 is
    among them. *)
Lemma service_listings_witness :
  ∃ rows,
    TaskService.get_tasks_by_project sample_db 1 (Some TODO) (Some 2) 0 100 = Ok rows
    ∧ (1, sample_task) ∈ rows.
Proof.
  destruct (service_listings sample_db 0 100) as (_ & _ & _ & _ & Hproject & _).
  destruct (proj1 (Hproject 1 (Some TODO) (Some 2)))
    as (rows & Hrows & _ & _ & _ & Hall); [by vm_compute|].
  exists rows. split; [exact Hrows|].
  apply Hall; [reflexivity|by vm_compute|reflexivity|].
  split; [reflexivity|]. split.
  - by intros s [= <-].
  - by intros a [= <-] _.
Defined.

(** ** The listings of the handlers *)

Lemma joined_with_Some {B} (o : option B) (C : B → Prop) :
  joined_with o C ↔ ∃ b, o = Some b ∧ C b.
Proof.
  destruct o as [b|]; cbn.
  - split; [eauto|]. by intros (? & [= <-] & ?).
  - split; [done|]. by intros (? & [=] & ?).
Qed.

Lemma project_join_filter db (C : (Z * Project.t) * (Z * Workspace.t) → Prop)
    `{!∀ x, Decision (C x)} (l : list (Z * Project.t)) :
  (filter C (p ← l;
             match first_by_id (workspaces db) (Project.workspace_id p.2) with
             | Some w => [(p, w)]
             | None => []
             end)).*1
  = filter (λ p, joined_with (first_by_id (workspaces db) (Project.workspace_id p.2))
                   (λ w, C (p, w))) l.
Proof.
  induction l as [|p l IH]; [done|].
  cbn [mbind list_bind]. rewrite filter_app, fmap_app, IH. clear IH.
  rewrite (filter_cons (λ p, joined_with _ _)).
  destruct (first_by_id (workspaces db) (Project.workspace_id p.2)) as [w|] eqn:Hw.
  - rewrite filter_cons, filter_nil. cbn [joined_with joined_with_dec].
    by destruct (decide (C (p, w))).
  - by rewrite filter_nil.
Qed.

Lemma task_join_filter db uid (l : list (Z * Task.t)) :
  (filter (λ tpw, TasksRouter.access_filter db uid tpw = true)
     (TasksRouter.join_project_workspace db l)).*1.*1
  = filter (λ t, joined_with (first_by_id (projects db) (Task.project_id t.2))
                   (λ p, joined_with
                           (first_by_id (workspaces db) (Project.workspace_id p.2))
                           (λ w, TasksRouter.access_filter db uid (t, p, w) = true))) l.
Proof.
  unfold TasksRouter.join_project_workspace.
  induction l as [|t l IH]; [done|].
  cbn [mbind list_bind]. rewrite filter_app, !fmap_app, IH. clear IH.
  rewrite (filter_cons (λ t, joined_with _ _)).
  destruct (first_by_id (projects db) (Task.project_id t.2)) as [p|] eqn:Hp.
  - cbn [joined_with joined_with_dec].
    destruct (first_by_id (workspaces db) (Project.workspace_id p.2)) as [w|] eqn:Hw.
    + rewrite filter_cons, filter_nil. cbn [joined_with joined_with_dec].
      by destruct (decide (TasksRouter.access_filter db uid (t, p, w) = true)).
    + by rewrite filter_nil.
  - by rewrite filter_nil.
Qed.

Lemma workspace_filter_true workspace_id p :
  ProjectsRouter.workspace_filter workspace_id p = true
  ↔ ∀ w, workspace_id = Some w → w ≠ 0 → Project.workspace_id p.2 = w.
Proof.
  unfold ProjectsRouter.workspace_filter. destruct workspace_id as [w|]; cbn [truthy_int].
  - destruct (Z.eqb_spec w 0) as [->|Hne].
    + split; [|done]. by intros _ ? [= <-].
    + rewrite bool_decide_eq_true. split; [by intros ? ? [= <-]|eauto].
  - split; [|done]. by intros _ ? [=].
Qed.

Lemma explicit_filters_true project_id status assignee_id t :
  TasksRouter.explicit_filters project_id status assignee_id t = true
  ↔ (∀ p, project_id = Some p → p ≠ 0 → Task.project_id t.2 = p)
    ∧ status_is status t ∧ assignee_is assignee_id t.
Proof.
  unfold TasksRouter.explicit_filters, status_is, assignee_is.
  rewrite !andb_true_iff.
  assert (H1 : match truthy_int project_id with
               | Some p => bool_decide (Task.project_id t.2 = p)
               | None => true
               end = true
               ↔ ∀ p, project_id = Some p → p ≠ 0 → Task.project_id t.2 = p).
  { destruct project_id as [p|]; cbn [truthy_int].
    - destruct (Z.eqb_spec p 0) as [->|Hne].
      + split; [|done]. by intros _ ? [= <-].
      + rewrite bool_decide_eq_true. split; [by intros ? ? [= <-]|eauto].
    - split; [|done]. by intros _ ? [=]. }
  assert (H2 : match status with
               | Some s => bool_decide (Task.status t.2 = s)
               | None => true
               end = true
               ↔ ∀ s, status = Some s → Task.status t.2 = s).
  { destruct status as [s|].
    - rewrite bool_decide_eq_true. split; [by intros ? ? [= <-]|eauto].
    - split; [|done]. by intros _ ? [=]. }
  assert (H3 : match truthy_int assignee_id with
               | Some a => bool_decide (Task.assignee_id t.2 = Some a)
               | None => true
               end = true
               ↔ ∀ a, assignee_id = Some a → a ≠ 0 → Task.assignee_id t.2 = Some a).
  { destruct assignee_id as [a|]; cbn [truthy_int].
    - destruct (Z.eqb_spec a 0) as [->|Hne].
      + split; [|done]. by intros _ ? [= <-].
      + rewrite bool_decide_eq_true. split; [by intros ? ? [= <-]|eauto].
    - split; [|done]. by intros _ ? [=]. }
  rewrite H1, H2, H3. tauto.
Qed.

(** X23.  The three listing handlers.  For a stored actor and a window whose
    [skip] and [limit] are between 0 and the largest bigint, each returns at
    most [limit] rows, none twice, each of them a stored row that qualifies,
    and with such a window from 0 that holds the table all the rows that
    qualify; for any other window it fails with the error of the database.
    A row
    qualifies when it passes the filters of the query (a filter on an id
    applies when the id is given and not 0) and the actor is a superuser or
    may see it: a workspace as its owner or member; a project as its member
    or as the owner or a member of its stored workspace; a task as its
    assignee or creator, as a member of its stored project or as the owner
    or a member of the stored workspace of that project. *)
Theorem handler_listings (db : DB) (current_user : Z * User.t) (skip limit : Z) :
  is_Some (users db !! current_user.1) →
  let uid := current_user.1 in
  let su := User.is_superuser current_user.2 = true in
  lists_rows (workspaces db)
    (λ w, su ∨ Workspace.owner_id w.2 = uid ∨ (w.1, uid) ∈ workspace_members db)
    skip limit (WorkspacesRouter.read_workspaces skip limit current_user db).1
  ∧ (∀ workspace_id,
       lists_rows (projects db)
         (λ p, (∀ w, workspace_id = Some w → w ≠ 0 → Project.workspace_id p.2 = w)
               ∧ (su ∨ ∃ workspace,
                         workspaces db !! Project.workspace_id p.2 = Some workspace
                         ∧ ((p.1, uid) ∈ project_members db
                            ∨ Workspace.owner_id workspace = uid
                            ∨ (Project.workspace_id p.2, uid) ∈ workspace_members db)))
         skip limit
         (ProjectsRouter.read_projects skip limit workspace_id current_user db).1)
  ∧ (∀ project_id status assignee_id,
       lists_rows (tasks db)
         (λ t, ((∀ p, project_id = Some p → p ≠ 0 → Task.project_id t.2 = p)
                ∧ status_is status t ∧ assignee_is assignee_id t)
               ∧ (su ∨ ∃ project workspace,
                         projects db !! Task.project_id t.2 = Some project
                         ∧ workspaces db !! Project.workspace_id project = Some workspace
                         ∧ (Task.assignee_id t.2 = Some uid
                            ∨ Task.created_by_id t.2 = uid
                            ∨ (Task.project_id t.2, uid) ∈ project_members db
                            ∨ Workspace.owner_id workspace = uid
                            ∨ (Project.workspace_id project, uid) ∈ workspace_members db)))
         skip limit
         (TasksRouter.read_tasks skip limit project_id status assignee_id
            current_user db).1).
Proof.
  intros Hu uid su. subst uid su.
  assert (Hmem : ∀ assoc i,
            in_members assoc db i current_user.1 = true ↔ (i, current_user.1) ∈ assoc).
  { intros assoc i. rewrite in_members_true by done. apply bool_decide_eq_true. }
  split; [|split].
  - unfold WorkspacesRouter.read_workspaces. rewrite bind_session.
    destruct (User.is_superuser current_user.2) eqn:Hsu; cbn [lift fst].
    + apply offset_limit_lists_rows; [done..|].
      intros x. rewrite elem_of_map_to_list_pair. tauto.
    + apply offset_limit_lists_rows; [done..|apply sublist_filter|].
      intros x. rewrite list_elem_of_filter, elem_of_map_to_list_pair, Hmem.
      split; [tauto|]. intros [? [[=]|?]]. tauto.
  - intros workspace_id. unfold ProjectsRouter.read_projects. rewrite bind_session.
    destruct (User.is_superuser current_user.2) eqn:Hsu; cbn [lift fst].
    + apply offset_limit_lists_rows; [done..|apply sublist_filter|].
      intros x. rewrite list_elem_of_filter, elem_of_map_to_list_pair, workspace_filter_true.
      tauto.
    + rewrite project_join_filter.
      apply offset_limit_lists_rows; [done..| |].
      * etrans; apply sublist_filter.
      * intros [pid p].
        rewrite !list_elem_of_filter, elem_of_map_to_list_pair, workspace_filter_true.
        cbn [fst snd]. split.
        -- rewrite joined_with_Some. intros (Hf & ([wid w] & Hw & Hcond) & Hp).
           apply first_by_id_inv in Hw as [Hwid Hw]. cbn [fst snd] in *. subst wid.
           rewrite !Hmem in Hcond. split; [done|]. split; [done|]. right. by exists w.
        -- intros (Hp & Hf & [[=]|(w & Hw & Hcond)]). split; [done|]. split; [|done].
           apply joined_with_Some. exists (Project.workspace_id p, w). split; [by apply first_by_id_Some|].
           cbn [fst snd]. by rewrite !Hmem.
  - intros project_id status assignee_id. unfold TasksRouter.read_tasks.
    rewrite bind_session.
    destruct (User.is_superuser current_user.2) eqn:Hsu; cbn [negb lift fst].
    + apply offset_limit_lists_rows; [done..|apply sublist_filter|].
      intros x. rewrite list_elem_of_filter, elem_of_map_to_list_pair, explicit_filters_true.
      tauto.
    + rewrite task_join_filter.
      apply offset_limit_lists_rows; [done..| |].
      * etrans; apply sublist_filter.
      * intros [tid t].
        rewrite !list_elem_of_filter, elem_of_map_to_list_pair, explicit_filters_true.
        cbn [fst snd]. split.
        -- rewrite joined_with_Some.
           intros (([pid p] & Hp & ([wid w] & Hw & Hacc)%joined_with_Some) & Hf & Ht).
           apply first_by_id_inv in Hp as [Hpid Hp], Hw as [Hwid Hw].
           cbn [fst snd] in *. subst pid wid.
           split; [done|]. split; [done|]. right. exists p, w.
           split; [done|]. split; [done|].
           unfold TasksRouter.access_filter in Hacc. cbn [fst snd] in Hacc.
           rewrite !orb_true_iff, !Hmem, !bool_decide_eq_true, opt_eqb_true in Hacc.
           tauto.
        -- intros (Ht & Hf & [[=]|(p & w & Hp & Hw & Hcond)]).
           split; [|done].
           apply joined_with_Some. exists (Task.project_id t, p).
           split; [by apply first_by_id_Some|].
           apply joined_with_Some. exists (Project.workspace_id p, w).
           split; [by apply first_by_id_Some|].
           unfold TasksRouter.access_filter. cbn [fst snd].
           rewrite !orb_true_iff, !Hmem, !bool_decide_eq_true, opt_eqb_true. tauto.
Qed.

(** User 2 is the assignee of task 1 of [sample_db] and nothing else: the
    task is in the listing. *)
Lemma handler_listings_witness :
  ∃ rows,
    (TasksRouter.read_tasks 0 100 None None None (2, plain) sample_db).1 = Ok rows
    ∧ (1, sample_task) ∈ rows.
Proof.
  destruct (handler_listings sample_db (2, plain) 0 100) as (_ & _ & Htasks);
    [by exists plain|].
  destruct (proj1 (Htasks None None None)) as (rows & Hrows & _ & _ & _ & Hall);
    [by vm_compute|].
  exists rows. split; [exact Hrows|].
  apply Hall; [reflexivity|by vm_compute|reflexivity|].
  split.
  - split; [by intros ? [=]|]. split; [by intros ? [=]|by intros ? [=]].
  - right. exists sample_project, sample_workspace.
    split; [reflexivity|]. split; [reflexivity|]. by left.
Defined.

(** ** Helpers ([app/utils/helpers.py]) *)

Example helpers_samples :
  sanitize_string (Some (str "  hello world  ")) 255 = Some (str "hello world")
  ∧ sanitize_string (Some (str "ab cd")) 3 = Some (str "ab ")
  ∧ sanitize_string (Some (str "   ")) 255 = None
  ∧ sanitize_string (Some (str "")) 255 = Some (str "")
  ∧ sanitize_string (Some (str "abcdef")) (-2) = Some (str "abcd")
  ∧ generate_slug ascii_lower (str "Hello, World!") = str "hello-world"
  ∧ generate_slug ascii_lower (str "***") = str "untitled"
  ∧ is_valid_username (str "bob_42") = true
  ∧ is_valid_username (str "ab") = false
  ∧ is_valid_username (str "bob smith") = false
  ∧ is_valid_email (str "a.b@example.co.uk") = true
  ∧ is_valid_email (str "a@b.c") = false
  ∧ is_valid_email (str "a@b") = false.
Proof. repeat split; vm_compute; reflexivity. Qed.

(** X24.  [paginate_query_params] normalizes once and for all: applying it
    to its own result changes nothing, and a window that is already within
    the bounds is returned as it is.  The window it returns has a [skip]
    that is not negative and a [limit] between 1 and 1000; [skip] is not
    bounded above.  So the database accepts the returned window exactly when
    the given [skip] is no larger than the largest bigint, and then gives at
    most 1000 rows of any listing; for a larger [skip] the listing still
    fails with the error of the database. *)
Theorem paginate_query_params_normalizes {A} (skip limit : Z) (rows : list A) :
  let window := paginate_query_params skip limit in
  paginate_query_params window.1 window.2 = window
  ∧ (0 ≤ skip → 1 ≤ limit ≤ 1000 → window = (skip, limit))
  ∧ 0 ≤ window.1 ∧ 1 ≤ window.2 ≤ 1000
  ∧ (in_window window.1 window.2 ↔ skip ≤ bigint_max)
  ∧ (skip ≤ bigint_max →
     ∃ out,
       offset_limit window.1 window.2 rows = Ok out
       ∧ (length out ≤ 1000)%nat
       ∧ out `sublist_of` rows)
  ∧ (bigint_max < skip → offset_limit window.1 window.2 rows = Raise DataError).
Proof.
  unfold paginate_query_params. cbn [fst snd].
  assert (Hmax : 1000 ≤ bigint_max) by (by vm_compute).
  assert (Hwindow : in_window (Z.max 0 skip) (Z.max 1 (Z.min limit 1000))
                    ↔ skip ≤ bigint_max) by (unfold in_window; lia).
  split; [|split; [|split; [|split; [|split; [|split]]]]].
  - f_equal; lia.
  - intros Hskip Hlimit. f_equal; lia.
  - lia.
  - lia.
  - exact Hwindow.
  - intros [Hskip Hlimit]%Hwindow. rewrite offset_limit_Ok by done.
    eexists. split; [done|]. split.
    + rewrite length_take. lia.
    + etrans; [apply sublist_take|apply sublist_drop].
  - intros Hskip. apply offset_limit_Raise. rewrite Hwindow. lia.
Qed.

(** *** Stripping *)

Lemma lstrip_spec chars s :
  ∃ w, s = w ++ lstrip chars s
       ∧ Forall (λ c, chars c = true) w
       ∧ ∀ c, head (lstrip chars s) = Some c → chars c = false.
Proof.
  induction s as [|c s (w & Hs & Hw & Hhead)]; cbn [lstrip].
  - exists []. split; [done|]. split; [done|]. by intros ? [=].
  - destruct (chars c) eqn:Hc.
    + exists (c :: w). split; [by rewrite Hs at 1|]. split; [by constructor|done].
    + exists []. split; [done|]. split; [done|]. by intros ? [= <-].
Qed.

Lemma lstrip_nil chars s : lstrip chars s = [] ↔ Forall (λ c, chars c = true) s.
Proof.
  induction s as [|c s IH]; cbn [lstrip]; [done|].
  destruct (chars c) eqn:Hc.
  - rewrite IH. split; [by constructor|by inv 1].
  - split; [done|]. inv 1. congruence.
Qed.

Lemma strip_spec chars s :
  ∃ w1 w2,
    s = w1 ++ strip chars s ++ w2
    ∧ Forall (λ c, chars c = true) w1
    ∧ Forall (λ c, chars c = true) w2
    ∧ (∀ c, head (strip chars s) = Some c → chars c = false)
    ∧ (∀ c, last (strip chars s) = Some c → chars c = false).
Proof.
  unfold strip, rstrip.
  destruct (lstrip_spec chars s) as (w1 & Hs & Hw1 & Hhead).
  destruct (lstrip_spec chars (reverse (lstrip chars s))) as (w2 & Hr & Hw2 & Hlast).
  exists w1, (reverse w2). split; [|split; [done|split; [|split]]].
  - rewrite <- reverse_app, <- Hr, reverse_involutive. done.
  - by apply Forall_reverse.
  - intros c Hc.
    set (t := lstrip chars (reverse (lstrip chars s))) in *.
    destruct (decide (t = [])) as [Ht|Ht]; [by rewrite Ht in Hc|].
    apply Hhead.
    assert (Hmid : lstrip chars s = reverse t ++ reverse w2).
    { by rewrite <- reverse_app, <- Hr, reverse_involutive. }
    rewrite Hmid. destruct (reverse t) eqn:Hrev; [|done].
    apply (f_equal reverse) in Hrev. rewrite reverse_involutive in Hrev. done.
  - intros c Hc. apply Hlast. by rewrite last_reverse in Hc.
Qed.

Lemma strip_nil chars s : strip chars s = [] ↔ Forall (λ c, chars c = true) s.
Proof.
  unfold strip, rstrip. split.
  - intros H. apply (f_equal reverse) in H. rewrite reverse_involutive in H.
    change (reverse []) with (@nil N) in H. apply lstrip_nil in H.
    apply Forall_reverse in H. rewrite reverse_involutive in H.
    destruct (lstrip_spec chars s) as (w & Hs & Hw & _). rewrite Hs.
    apply Forall_app. split; [done|]. done.
  - intros H. apply lstrip_nil in H. rewrite H. done.
Qed.

Lemma slice_to_prefix {A} (stop : Z) (s : list A) : slice_to stop s `prefix_of` s.
Proof. unfold slice_to. case_match; apply prefix_take. Qed.

Lemma slice_to_length {A} (stop : Z) (s : list A) :
  0 ≤ stop → Z.of_nat (length (slice_to stop s)) ≤ stop.
Proof.
  intros Hstop. unfold slice_to. destruct (Z.leb_spec 0 stop); [|lia].
  rewrite length_take. lia.
Qed.

(** X25.  [sanitize_string] returns [None] for [None] and the empty string
    for the empty string.  For any other text, a result is never empty: it
    is a prefix of the text without its leading and trailing whitespace, so
    it starts with no whitespace; it has at most [max_length] characters
    when that is not negative, and it is the whole stripped text when that
    fits.  The function returns [None] exactly when the text is all
    whitespace or the truncation leaves nothing. *)
Theorem sanitize_string_result (text : py_str) (max_length : Z) :
  text ≠ [] →
  let stripped := strip isspace text in
  sanitize_string None max_length = None
  ∧ sanitize_string (Some []) max_length = Some []
  ∧ (∀ r, sanitize_string (Some text) max_length = Some r →
       r ≠ []
       ∧ r `prefix_of` stripped
       ∧ (∀ c, head r = Some c → isspace c = false)
       ∧ (0 ≤ max_length → Z.of_nat (length r) ≤ max_length)
       ∧ (Z.of_nat (length stripped) ≤ max_length → r = stripped))
  ∧ (sanitize_string (Some text) max_length = None
     ↔ Forall (λ c, isspace c = true) text
       ∨ max_length = 0
       ∨ Z.of_nat (length stripped) ≤ - max_length).
Proof.
  intros Htext stripped. split; [done|]. split; [done|].
  destruct (strip_spec isspace text) as (w1 & w2 & Hs & Hw1 & Hw2 & Hhead & Hlast).
  fold stripped in Hs, Hhead, Hlast.
  assert (Hrun : sanitize_string (Some text) max_length
                 = match (if max_length <? Z.of_nat (length stripped)
                          then slice_to max_length stripped else stripped) with
                   | [] => None
                   | t => Some t
                   end).
  { destruct text; [done|]. unfold sanitize_string. cbn zeta. fold stripped.
    by destruct (if _ <? _ then _ else _). }
  rewrite Hrun. clear Hrun. split.
  - intros r Hr.
    destruct (Z.ltb_spec max_length (Z.of_nat (length stripped))) as [Hlong|Hfits].
    + destruct (slice_to max_length stripped) as [|c t] eqn:Hslice; [done|].
      injection Hr as <-. rewrite <- Hslice.
      split; [by rewrite Hslice|]. split; [apply slice_to_prefix|].
      split; [|split; [apply slice_to_length|lia]].
      intros c' Hc'. apply Hhead.
      destruct (slice_to_prefix max_length stripped) as [k Hk].
      rewrite Hk. rewrite Hslice in Hc' |- *. done.
    + destruct stripped as [|c t] eqn:Hstripped; [done|]. injection Hr as <-.
      split; [done|]. split; [done|]. split; [done|]. split; [lia|done].
  - assert (Hall : Forall (λ c, isspace c = true) text ↔ stripped = [])
      by (symmetry; apply strip_nil).
    rewrite Hall.
    destruct (Z.ltb_spec max_length (Z.of_nat (length stripped))) as [Hlong|Hfits].
    + unfold slice_to. destruct (Z.leb_spec 0 max_length) as [Hpos|Hneg].
      * destruct (take (Z.to_nat max_length) stripped) as [|c t] eqn:Htake.
        -- split; [|done]. intros _. right; left.
           apply (f_equal length) in Htake. rewrite length_take in Htake.
           cbn in Htake. lia.
        -- split; [done|]. intros [Hnil|[H0|Hle]].
           ++ by rewrite Hnil, take_nil in Htake.
           ++ by rewrite H0 in Htake.
           ++ apply (f_equal length) in Htake. rewrite length_take in Htake.
              cbn in Htake. lia.
      * destruct (take (length stripped - Z.to_nat (- max_length)) stripped)
          as [|c t] eqn:Htake.
        -- split; [|done]. intros _.
           apply (f_equal length) in Htake. rewrite length_take in Htake.
           cbn in Htake. destruct (decide (stripped = [])) as [?|Hne]; [by left|].
           right; right. destruct stripped; [done|]. cbn in *. lia.
        -- split; [done|]. intros [Hnil|[H0|Hle]].
           ++ by rewrite Hnil, take_nil in Htake.
           ++ lia.
           ++ apply (f_equal length) in Htake. rewrite length_take in Htake.
              cbn in Htake. lia.
    + destruct stripped as [|c t] eqn:Hstripped.
      * split; [by left|done].
      * split; [done|]. intros [?|[H0|Hle]]; [done|cbn in *; lia..].
Qed.

(** A text in blanks, and a text that is only blanks. *)
Lemma sanitize_string_result_witness :
  sanitize_string (Some (str "  Alpha  ")) 255 = Some (str "Alpha")
  ∧ sanitize_string (Some (str "   ")) 255 = None.
Proof.
  destruct (sanitize_string_result (str "   ") 255) as (_ & _ & _ & Hnone); [done|].
  destruct (sanitize_string_result (str "  Alpha  ") 255) as (_ & _ & Hsome & _); [done|].
  split.
  - destruct (sanitize_string (Some (str "  Alpha  ")) 255) as [r|] eqn:Hr; [|done].
    destruct (Hsome r eq_refl) as (_ & _ & _ & _ & Hall).
    rewrite Hall; [reflexivity|by vm_compute].
  - apply Hnone. left. by repeat constructor.
Defined.

(** A window within the bounds is kept. *)
Lemma paginate_query_params_normalizes_witness :
  paginate_query_params 20 50 = (20, 50).
Proof.
  destruct (paginate_query_params_normalizes 20 50 (@nil Z)) as (_ & Hkept & _).
  apply Hkept; lia.
Defined.

(** *** Slugs *)

Lemma re_sub_many_spec class in_run s :
  let out := re_sub_many class (str "-") in_run s in
  Forall (λ c, class c = false ∨ c = 45%N) out
  ∧ (in_run = true → ∀ c, head out = Some c → class c = false)
  ∧ (∀ i, out !! i = Some 45%N → class 45%N = true → out !! S i ≠ Some 45%N).
Proof.
  revert in_run. induction s as [|c s IH]; intros in_run; cbn zeta.
  - cbn. split; [done|]. split; [by intros _ ? [=]|done].
  - cbn [re_sub_many]. destruct (class c) eqn:Hc.
    + destruct (IH true) as (Hall & Hhead & Hadj). destruct in_run.
      * cbn [app]. split; [done|]. split; [intros _; exact (Hhead eq_refl)|done].
      * change (str "-" ++ ?l) with (45%N :: l).
        split; [constructor; [by right|done]|]. split; [done|].
        intros [|i] Hi H45.
        -- change (re_sub_many class (str "-") true s !! 0%nat ≠ Some 45%N).
           intros Hnext.
           assert (class 45%N = false); [|congruence].
           apply (Hhead eq_refl). etrans; [apply head_lookup|exact Hnext].
        -- change (re_sub_many class (str "-") true s !! S i ≠ Some 45%N).
           apply Hadj; [exact Hi|exact H45].
    + destruct (IH false) as (Hall & Hhead & Hadj).
      split; [constructor; [by left|done]|]. split; [by intros _ ? [= <-]|].
      intros [|i] Hi H45.
      * injection Hi as ->. congruence.
      * change (re_sub_many class (str "-") false s !! S i ≠ Some 45%N).
        apply Hadj; [exact Hi|exact H45].
Qed.

Lemma re_sub_many_all class in_run s :
  Forall (λ c, class c = true) s →
  Forall (λ c, c = 45%N) (re_sub_many class (str "-") in_run s).
Proof.
  intros Hs. revert in_run.
  induction Hs as [|c l Hc _ IH]; intros in_run; cbn [re_sub_many]; [done|].
  rewrite Hc. apply Forall_app. split; [|apply IH].
  destruct in_run; [constructor|]. by repeat constructor.
Qed.

Lemma lookup_middle_section {A} (w1 m w2 : list A) i x :
  m !! i = Some x → (w1 ++ m ++ w2) !! (length w1 + i)%nat = Some x.
Proof.
  intros Hm. rewrite lookup_app_r by lia.
  replace (length w1 + i - length w1)%nat with i by lia.
  by apply lookup_app_l_Some.
Qed.

(** X26.  [generate_slug], whatever the lowercase mapping does: the slug is
    never empty and has at most 50 characters; each of them is a lowercase
    letter a to z, a digit or a hyphen; it does not begin with a hyphen and
    no two hyphens are adjacent; and a slug of fewer than 50 characters does
    not end with a hyphen.  A text that has no letter a to z and no digit
    after the lowercase mapping gets the slug [untitled]. *)
Theorem generate_slug_shape (lower : py_str → py_str) (text : py_str) :
  let slug := generate_slug lower text in
  let alnum c := in_range "a" "z" c || in_range "0" "9" c in
  slug ≠ []
  ∧ (length slug ≤ 50)%nat
  ∧ Forall (λ c, alnum c = true ∨ c = 45%N) slug
  ∧ head slug ≠ Some 45%N
  ∧ (∀ i, slug !! i = Some 45%N → slug !! S i ≠ Some 45%N)
  ∧ ((length slug < 50)%nat → last slug ≠ Some 45%N)
  ∧ (Forall (λ c, alnum c = false) (lower text) → slug = str "untitled").
Proof.
  intros slug alnum. subst slug. unfold generate_slug.
  set (class := λ c, negb (in_range "a" "z" c || in_range "0" "9" c)).
  set (out := re_sub_many class (str "-") false (lower text)).
  destruct (re_sub_many_spec class false (lower text)) as (Hall & _ & Hadj).
  fold out in Hall, Hadj.
  destruct (strip_spec (one_of "-") out) as (w1 & w2 & Hout & Hw1 & Hw2 & Hhead & Hlast).
  set (stripped := strip (one_of "-") out) in *.
  assert (Hhyphen : ∀ c, one_of "-" c = true ↔ c = 45%N).
  { intros c. unfold one_of. rewrite bool_decide_eq_true.
    change (str "-") with [45%N]. apply list_elem_of_singleton. }
  assert (Hclass : ∀ c, class c = false ↔ alnum c = true).
  { intros c. subst class alnum. cbn beta. apply negb_false_iff. }
  assert (Hstripped : Forall (λ c, alnum c = true ∨ c = 45%N) stripped).
  { rewrite Hout in Hall. apply Forall_app in Hall as [_ Hall].
    apply Forall_app in Hall as [Hall _].
    eapply Forall_impl; [exact Hall|]. intros c [Hc|Hc]; [left; by apply Hclass|by right]. }
  assert (Hadjacent : ∀ i, stripped !! i = Some 45%N → stripped !! S i ≠ Some 45%N).
  { intros i Hi Hnext.
    apply (Hadj (length w1 + i)%nat).
    - rewrite Hout. by apply lookup_middle_section.
    - reflexivity.
    - rewrite Hout. replace (S (length w1 + i)) with (length w1 + S i)%nat by lia.
      by apply lookup_middle_section. }
  destruct stripped as [|c t].
  - split; [done|]. split; [cbn; lia|]. split; [by repeat constructor|].
    split; [done|]. split; [|split; [done|done]].
    intros i Hi. exfalso. revert Hi.
    do 8 (destruct i as [|i]; [done|]). done.
  - cbv iota. unfold slice_to. change (0 <=? 50) with true. cbv iota.
    change (Z.to_nat 50) with 50%nat.
    set (stripped := c :: t) in *.
    assert (Hne : stripped ≠ []) by done.
    split; [|split; [|split; [|split; [|split; [|split]]]]].
    + done.
    + rewrite length_take. lia.
    + by apply Forall_take.
    + intros Hh. cbn in Hh. injection Hh as Hh.
      specialize (Hhead c eq_refl). rewrite Hh in Hhead.
      by rewrite (proj2 (Hhyphen 45%N)) in Hhead.
    + intros i Hi Hnext.
      apply lookup_take_Some in Hi as [Hi _]. apply lookup_take_Some in Hnext as [Hnext _].
      by apply (Hadjacent i).
    + intros Hlen Hl. rewrite length_take in Hlen.
      rewrite take_ge in Hl by lia.
      specialize (Hlast 45%N Hl). by rewrite (proj2 (Hhyphen 45%N)) in Hlast.
    + intros Hnone. exfalso.
      assert (Hruns : ∀ b, Forall (λ c, c = 45%N)
                             (re_sub_many class (str "-") b (lower text))).
      { intros b. apply re_sub_many_all.
        eapply Forall_impl; [exact Hnone|]. intros c' Hc'. by apply negb_true_iff. }
      specialize (Hruns false). fold out in Hruns. rewrite Hout in Hruns.
      apply Forall_app in Hruns as [_ Hruns]. apply Forall_app in Hruns as [Hruns _].
      apply Forall_cons in Hruns as [Hc _]. specialize (Hhead c eq_refl).
      apply Hhyphen in Hc. congruence.
Qed.

(** A text of symbols only. *)
Lemma generate_slug_shape_witness :
  generate_slug ascii_lower (str "*** !!! ***") = str "untitled".
Proof.
  destruct (generate_slug_shape ascii_lower (str "*** !!! ***"))
    as (_ & _ & _ & _ & _ & _ & Hnone).
  apply Hnone. by repeat constructor.
Defined.

(** *** Patterns *)

Lemma many_spec class min max k at_start s :
  many class min max k at_start s = true
  ↔ ∃ w s',
      s = w ++ s'
      ∧ Forall (λ c, class c = true) w
      ∧ (min ≤ length w)%nat
      ∧ (∀ m, max = Some m → (length w ≤ m)%nat)
      ∧ k (at_start && bool_decide (w = [])) s' = true.
Proof.
  revert min max at_start. induction s as [|c s IH]; intros min max at_start.
  - cbn [many orb]. split.
    + destruct min; [|done]. intros Hk. exists [], [].
      split; [done|]. split; [done|]. split; [done|]. split; [cbn; lia|].
      by rewrite andb_true_r.
    + intros (w & s' & Hs & _ & Hmin & _ & Hk).
      symmetry in Hs. apply app_eq_nil in Hs as [-> ->].
      cbn in Hmin. destruct min; [|lia]. by rewrite andb_true_r in Hk.
  - cbn [many]. rewrite orb_true_iff. split.
    + intros [Hmore|Hstop].
      * assert (max ≠ Some 0%nat) as Hmax by (by intros ->).
        assert (class c && many class (pred min) (pred <$> max) k false s = true) as Hm.
        { destruct max as [[|m]|]; done. }
        apply andb_true_iff in Hm as [Hc (w & s' & -> & Hw & Hmin & Hmx & Hk)%IH].
        exists (c :: w), s'. split; [done|]. split; [by constructor|].
        split; [cbn; lia|]. split.
        -- intros m ->. cbn. destruct m as [|m]; [done|].
           specialize (Hmx m eq_refl). lia.
        -- by rewrite andb_false_r.
      * destruct min; [|done]. exists [], (c :: s).
        split; [done|]. split; [done|]. split; [done|]. split; [cbn; lia|].
        by rewrite andb_true_r.
    + intros (w & s' & Hs & Hw & Hmin & Hmx & Hk). destruct w as [|c' w].
      * right. cbn in Hs, Hmin. subst s'. destruct min; [|lia].
        by rewrite andb_true_r in Hk.
      * left. cbn in Hs. injection Hs as <- ->. apply Forall_cons in Hw as [Hc Hw].
        assert (class c && many class (pred min) (pred <$> max) k false (w ++ s') = true)
          as Hm.
        { rewrite Hc. cbn [andb]. apply IH. exists w, s'.
          split; [done|]. split; [done|]. cbn in Hmin. split; [lia|]. split.
          - intros m Hm. destruct max as [mx|]; [|done]. cbn in Hm. injection Hm as <-.
            specialize (Hmx mx eq_refl). cbn in Hmx. lia.
          - by rewrite andb_false_r in Hk. }
        destruct max as [[|m]|]; [|done..].
        specialize (Hmx 0%nat eq_refl). cbn in Hmx. lia.
Qed.

Lemma re_match_Bol pattern s : re_match (Bol :: pattern) true s = re_match pattern true s.
Proof. done. Qed.
Lemma re_match_Many class min max pattern at_start s :
  re_match (Many class min max :: pattern) at_start s
  = many class min max (re_match pattern) at_start s.
Proof. done. Qed.

Lemma eol_spec at_start s :
  re_match [Eol] at_start s = true ↔ s = [] ∨ s = [10%N].
Proof.
  cbn [re_match]. destruct s as [|c [|c' s]].
  - split; [by left|done].
  - rewrite andb_true_r, N.eqb_eq. split; [intros ->; by right|].
    by intros [?|[= ->]].
  - split; [done|]. by intros [?|?].
Qed.

Lemma in_range_spec lo hi l h c :
  str lo = [l] → str hi = [h] → in_range lo hi c = true ↔ (l ≤ c ≤ h)%N.
Proof.
  intros Hlo Hhi. unfold in_range. rewrite Hlo, Hhi.
  rewrite andb_true_iff, !N.leb_le. done.
Qed.

Lemma str_app_newline (w s' : py_str) :
  s' = [] ∨ s' = [10%N] → w ++ s' = w ∨ w ++ s' = w ++ [10%N].
Proof. intros [->| ->]; [left; apply app_nil_r|by right]. Qed.

(** X27.  [is_valid_username] accepts exactly the names of 3 to 30
    characters, each an ASCII letter, a digit or an underscore, and those
    names followed by one newline: [$] also matches before a newline that
    ends the string. *)
Theorem is_valid_username_spec (username : py_str) :
  let word (c : N) : Prop :=
    (97 ≤ c ≤ 122 ∨ 65 ≤ c ≤ 90 ∨ 48 ≤ c ≤ 57 ∨ c = 95)%N in
  is_valid_username username = true
  ↔ ∃ name,
      (username = name ∨ username = name ++ [10%N])
      ∧ (3 ≤ length name ≤ 30)%nat
      ∧ Forall word name.
Proof.
  intros word. unfold is_valid_username. cbn zeta.
  rewrite re_match_Bol, re_match_Many.
  set (class := λ c, _ || one_of "_" c).
  assert (Hclass : ∀ c, class c = true ↔ word c).
  { intros c. subst class word. cbn beta.
    rewrite !orb_true_iff.
    rewrite (in_range_spec "a" "z" 97 122), (in_range_spec "A" "Z" 65 90),
      (in_range_spec "0" "9" 48 57) by done.
    unfold one_of. rewrite bool_decide_eq_true. change (str "_") with [95%N].
    rewrite list_elem_of_singleton. tauto. }
  rewrite many_spec. split.
  - intros (w & s' & -> & Hw & Hmin & Hmax & Hend%eol_spec).
    exists w. split; [by apply str_app_newline|]. split; [specialize (Hmax _ eq_refl); lia|].
    eapply Forall_impl; [exact Hw|]. intros c Hc. by apply Hclass.
  - intros (name & Hs & [Hmin Hmax] & Hname).
    exists name, (if decide (username = name) then [] else [10%N]).
    split; [|split; [|split; [done|split]]].
    + destruct (decide _) as [->|Hne]; [by rewrite app_nil_r|]. by destruct Hs.
    + eapply Forall_impl; [exact Hname|]. intros c Hc. by apply Hclass.
    + by intros m [= <-].
    + apply eol_spec. destruct (decide _); auto.
Qed.

(** X28.  [is_valid_email] accepts exactly the strings
    [local@domain.tld], or such a string followed by one newline, where
    [local] is not empty and made of ASCII letters, digits and [._%+-],
    [domain] is not empty and made of ASCII letters, digits, dots and
    hyphens, and [tld] has at least two characters, all ASCII letters. *)
Theorem is_valid_email_spec (email : py_str) :
  let letter (c : N) : Prop := (97 ≤ c ≤ 122 ∨ 65 ≤ c ≤ 90)%N in
  let digit (c : N) : Prop := (48 ≤ c ≤ 57)%N in
  let local_char (c : N) : Prop := letter c ∨ digit c ∨ c ∈ str "._%+-" in
  let domain_char (c : N) : Prop := letter c ∨ digit c ∨ c ∈ str ".-" in
  is_valid_email email = true
  ↔ ∃ local domain tld,
      (email = local ++ str "@" ++ domain ++ str "." ++ tld
       ∨ email = local ++ str "@" ++ domain ++ str "." ++ tld ++ [10%N])
      ∧ local ≠ [] ∧ Forall local_char local
      ∧ domain ≠ [] ∧ Forall domain_char domain
      ∧ (2 ≤ length tld)%nat ∧ Forall letter tld.
Proof.
  intros letter digit local_char domain_char. unfold is_valid_email. cbn zeta.
  set (L := λ c, _ || one_of "._%+-" c).
  set (D := λ c, _ || one_of ".-" c).
  set (T := λ c, in_range "a" "z" c || in_range "A" "Z" c).
  assert (HL : ∀ c, L c = true ↔ local_char c).
  { intros c. subst L local_char letter digit. cbn beta. rewrite !orb_true_iff.
    rewrite (in_range_spec "a" "z" 97 122), (in_range_spec "A" "Z" 65 90),
      (in_range_spec "0" "9" 48 57) by done.
    unfold one_of. rewrite bool_decide_eq_true. tauto. }
  assert (HD : ∀ c, D c = true ↔ domain_char c).
  { intros c. subst D domain_char letter digit. cbn beta. rewrite !orb_true_iff.
    rewrite (in_range_spec "a" "z" 97 122), (in_range_spec "A" "Z" 65 90),
      (in_range_spec "0" "9" 48 57) by done.
    unfold one_of. rewrite bool_decide_eq_true. tauto. }
  assert (HT : ∀ c, T c = true ↔ letter c).
  { intros c. subst T letter. cbn beta. rewrite !orb_true_iff.
    rewrite (in_range_spec "a" "z" 97 122), (in_range_spec "A" "Z" 65 90) by done.
    tauto. }
  assert (Hchr : ∀ ch code pattern b s,
            str ch = [code] →
            re_match (Chr ch :: pattern) b s = true
            ↔ ∃ s', s = code :: s' ∧ re_match pattern false s' = true).
  { intros ch code pattern b s Hch. cbn [re_match]. destruct s as [|c s].
    - split; [done|]. by intros (? & [=] & _).
    - unfold one_of. rewrite Hch, andb_true_iff, bool_decide_eq_true,
        list_elem_of_singleton.
      split; [intros [-> ?]; eauto|]. by intros (? & [= -> ->] & ?). }
  rewrite re_match_Bol, re_match_Many, many_spec. split.
  - intros (local & s1 & -> & Hlocal & Hl1 & _ & H1).
    apply (Hchr "@" 64%N) in H1 as (s2 & -> & H2); [|done].
    rewrite re_match_Many in H2.
    apply many_spec in H2 as (domain & s3 & -> & Hdomain & Hd1 & _ & H3).
    apply (Hchr "." 46%N) in H3 as (s4 & -> & H4); [|done].
    rewrite re_match_Many in H4.
    apply many_spec in H4 as (tld & s5 & -> & Htld & Ht2 & _ & Hend%eol_spec).
    exists local, domain, tld.
    split; [|split; [|split; [|split; [|split; [|split]]]]].
    + change (str "@" ++ ?x) with (64%N :: x). change (str "." ++ ?x) with (46%N :: x).
      destruct Hend as [->| ->]; [left; by rewrite app_nil_r|by right].
    + intros ->. cbn in Hl1. lia.
    + eapply Forall_impl; [exact Hlocal|]. intros c Hc. by apply HL.
    + intros ->. cbn in Hd1. lia.
    + eapply Forall_impl; [exact Hdomain|]. intros c Hc. by apply HD.
    + done.
    + eapply Forall_impl; [exact Htld|]. intros c Hc. by apply HT.
  - intros (local & domain & tld & Hs & Hl & Hlocal & Hd & Hdomain & Ht & Htld).
    set (tail := if decide (email = local ++ str "@" ++ domain ++ str "." ++ tld)
                 then [] else [10%N]).
    assert (Hemail : email = local ++ 64%N :: domain ++ 46%N :: tld ++ tail).
    { subst tail. destruct (decide _) as [->|Hne]; [by rewrite app_nil_r|].
      by destruct Hs. }
    exists local, (64%N :: domain ++ 46%N :: tld ++ tail).
    split; [done|]. split; [eapply Forall_impl; [exact Hlocal|]; intros c Hc; by apply HL|].
    split; [destruct local; [done|cbn; lia]|]. split; [done|].
    apply (Hchr "@" 64%N); [done|]. eexists. split; [done|].
    rewrite re_match_Many. apply many_spec. exists domain, (46%N :: tld ++ tail).
    split; [done|]. split; [eapply Forall_impl; [exact Hdomain|]; intros c Hc; by apply HD|].
    split; [destruct domain; [done|cbn; lia]|]. split; [done|].
    apply (Hchr "." 46%N); [done|]. eexists. split; [done|].
    rewrite re_match_Many. apply many_spec. exists tld, tail.
    split; [done|]. split; [eapply Forall_impl; [exact Htld|]; intros c Hc; by apply HT|].
    split; [done|]. split; [done|].
    apply eol_spec. subst tail. destruct (decide _); auto.
Qed.

(** A name followed by a newline passes. *)
Lemma is_valid_username_spec_witness :
  is_valid_username (str "bob_42" ++ [10%N]) = true.
Proof.
  apply is_valid_username_spec. exists (str "bob_42").
  split; [by right|]. split; [cbn; lia|].
  change (str "bob_42") with [98; 111; 98; 95; 52; 50]%N.
  repeat (constructor;
          [first [left; lia | right; left; lia | right; right; left; lia
                 | right; right; right; reflexivity]|]).
  constructor.
Defined.

(** An address followed by a newline passes. *)
Lemma is_valid_email_spec_witness :
  is_valid_email (str "ann@example.org" ++ [10%N]) = true.
Proof.
  apply is_valid_email_spec. exists (str "ann"), (str "example"), (str "org").
  split; [by right|]. split; [done|].
  change (str "ann") with [97; 110; 110]%N.
  change (str "example") with [101; 120; 97; 109; 112; 108; 101]%N.
  change (str "org") with [111; 114; 103]%N.
  split; [repeat (constructor; [left; left; lia|]); constructor|].
  split; [done|].
  split; [repeat (constructor; [left; left; lia|]); constructor|].
  split; [cbn; lia|].
  repeat (constructor; [left; lia|]); constructor.
Defined.

(** *** The projects and tasks of a member *)

Lemma membership_join_one (p : Z * Project.t) (uid : Z) (rs : list (Z * Z)) :
  NoDup rs →
  (filter (λ pr : (Z * Project.t) * (Z * Z), pr.2.2 = uid)
     (r ← rs; if bool_decide (p.1 = r.1) then [(p, r)] else [])).*1
  = if decide ((p.1, uid) ∈ rs) then [p] else [].
Proof.
  induction 1 as [|r rs Hr Hnd IH]; [done|].
  cbn [mbind list_bind]. rewrite filter_app, fmap_app, IH. clear IH.
  destruct (decide (r = (p.1, uid))) as [->|Hne].
  - cbn [fst]. rewrite bool_decide_true by done.
    rewrite filter_cons_True by done. rewrite filter_nil.
    rewrite decide_False by done.
    rewrite decide_True by apply list_elem_of_here. done.
  - assert (filter (λ pr : (Z * Project.t) * (Z * Z), pr.2.2 = uid)
              (if bool_decide (p.1 = r.1) then [(p, r)] else []) = []) as ->.
    { case_bool_decide as Heq; [|done]. rewrite filter_cons_False; [done|].
      cbn [snd]. intros Huid. apply Hne. destruct r. cbn in *. congruence. }
    cbn [fmap list_fmap app].
    destruct (decide ((p.1, uid) ∈ rs)) as [Hin|Hnot].
    + rewrite decide_True by (by apply list_elem_of_further). done.
    + rewrite decide_False; [done|]. intros [Heq|Hin]%elem_of_cons; congruence.
Qed.

Lemma membership_join db uid (l : list (Z * Project.t)) :
  (filter (λ pr : (Z * Project.t) * (Z * Z), pr.2.2 = uid)
     (p ← l; r ← elements (project_members db);
      if bool_decide (p.1 = r.1) then [(p, r)] else [])).*1
  = filter (λ p, (p.1, uid) ∈ project_members db) l.
Proof.
  induction l as [|p l IH]; [done|].
  cbn [mbind list_bind]. rewrite filter_app, fmap_app, IH. clear IH.
  rewrite membership_join_one by apply NoDup_elements.
  rewrite filter_cons.
  destruct (decide ((p.1, uid) ∈ elements (project_members db))) as [Hin|Hnot].
  - rewrite decide_True by (by apply elem_of_elements). done.
  - rewrite decide_False; [done|]. by rewrite <- elem_of_elements.
Qed.

(** X29.  [ProjectService.get_projects_by_user] lists the projects of which
    the user is a member: for a window whose [skip] and [limit] are between
    0 and the largest bigint, at most [limit] stored projects, none twice,
    each with a membership row of the user, and all of them when the window
    starts at 0 and holds the table; for any other window it fails with the
    error of the database.  Access through the workspace does not count. *)
Theorem get_projects_by_user_lists_memberships (db : DB) (user_id skip limit : Z) :
  lists_rows (projects db) (λ p, (p.1, user_id) ∈ project_members db) skip limit
    (ProjectService.get_projects_by_user db user_id skip limit).
Proof.
  unfold ProjectService.get_projects_by_user. cbn zeta.
  rewrite membership_join.
  apply offset_limit_lists_rows; [apply sublist_filter|].
  intros x. rewrite list_elem_of_filter, elem_of_map_to_list_pair. tauto.
Qed.

(** User 2 of [member_db] has access to project 1 through workspace 1 and
    is no member of it: the listing is empty. *)
Lemma get_projects_by_user_lists_memberships_witness :
  ProjectService.has_access member_db 1 2 = true
  ∧ ProjectService.get_projects_by_user member_db 2 0 100 = Ok [].
Proof.
  split; [reflexivity|].
  destruct (proj1 (get_projects_by_user_lists_memberships member_db 2 0 100))
    as (rows & Hrows & _ & _ & Hin & _); [by vm_compute|].
  rewrite Hrows. f_equal. destruct rows as [|p rows]; [done|].
  destruct (Hin p) as [_ Hmember]; [apply list_elem_of_here|].
  exfalso. change (project_members member_db) with ({[ (1, 1) ]} : gset (Z * Z)) in Hmember.
  apply elem_of_singleton in Hmember. discriminate Hmember.
Defined.

Lemma match_nonempty {A B} (l : list A) (a b : B) :
  l ≠ [] → match l with [] => a | _ => b end = b.
Proof. by destruct l. Qed.

(** X30.  [TaskService.get_tasks_by_user_access], for a user who is a member
    of at most 100 projects (the page of projects that the service reads):
    for a window whose [skip] and [limit] are between 0 and the largest
    bigint it returns at most [limit] tasks, none twice, each a stored task
    with the status asked for, if any, whose project is stored and has the
    user as a member; and all of them when the window starts at 0 and holds
    the table.  For any other window it fails with the error of the
    database, unless the user is a member of no stored project: then it
    returns the empty list without a query on the tasks.  A task that the
    user may read as its assignee or creator, or through the workspace, is
    not listed on that ground. *)
Theorem get_tasks_by_user_access_lists_member_projects
    (db : DB) (user_id : Z) (status : option TaskStatus) (skip limit : Z) :
  (length (filter (λ p, (p.1, user_id) ∈ project_members db) (map_to_list (projects db)))
   ≤ 100)%nat →
  let r := TaskService.get_tasks_by_user_access db user_id status skip limit in
  (in_window skip limit →
   is_page (tasks db)
     (λ t, is_Some (projects db !! Task.project_id t.2)
           ∧ (Task.project_id t.2, user_id) ∈ project_members db
           ∧ status_is status t)
     skip limit r)
  ∧ (¬ in_window skip limit →
     (∀ project_id,
        is_Some (projects db !! project_id) →
        (project_id, user_id) ∈ project_members db →
        r = Raise DataError)
     ∧ ((∀ project_id,
           is_Some (projects db !! project_id) →
           (project_id, user_id) ∉ project_members db) →
        r = Ok [])).
Proof.
  intros Hpage r. subst r. unfold TaskService.get_tasks_by_user_access.
  unfold ProjectService.get_projects_by_user. cbn zeta. rewrite membership_join.
  set (mine := filter _ (map_to_list (projects db))) in *.
  rewrite offset_limit_all; [|lia|by vm_compute]. cbn [mbind Res_bind].
  assert (Hids : ∀ i, i ∈ mine.*1
                      ↔ is_Some (projects db !! i) ∧ (i, user_id) ∈ project_members db).
  { intros i. rewrite list_elem_of_fmap. subst mine. split.
    - intros ([i' p] & -> & [Hm Hp]%list_elem_of_filter).
      apply elem_of_map_to_list in Hp. cbn [fst] in *. eauto.
    - intros [[p Hp] Hm]. exists (i, p). split; [done|].
      apply list_elem_of_filter. split; [done|]. by apply elem_of_map_to_list. }
  destruct (decide (mine.*1 = [])) as [Hnil|Hne].
  - rewrite Hnil in Hids |- *. split.
    + intros [_ [Hlimit _]].
      exists []. split; [done|]. split; [cbn; lia|]. split; [constructor|]. split.
      * by intros x ?%elem_of_nil.
      * intros _ _ x _ (Hp & Hm & _). exfalso.
        eapply elem_of_nil. apply Hids. eauto.
    + intros _. split; [|done]. intros project_id Hp Hm. exfalso.
      eapply elem_of_nil. apply Hids. eauto.
  - rewrite match_nonempty by done.
    match goal with
    | |- context [offset_limit skip limit ?l] =>
      destruct (offset_limit_lists_rows (tasks db)
                  (λ t, is_Some (projects db !! Task.project_id t.2)
                        ∧ (Task.project_id t.2, user_id) ∈ project_members db
                        ∧ status_is status t) skip limit l) as [Hin Hout]
    end.
    + etrans; apply sublist_filter.
    + intros x.
      rewrite !list_elem_of_filter, elem_of_map_to_list_pair, status_filter_true, Hids.
      tauto.
    + split; [exact Hin|]. intros Hwindow. split; [by intros; apply Hout|].
      intros Hnone. exfalso. apply Hne.
      destruct (mine.*1) as [|i ids] eqn:Hmine; [done|].
      destruct (proj1 (Hids i)) as [Hp Hm]; [apply list_elem_of_here|].
      by destruct (Hnone i Hp).
Qed.

(** User 1 is a member of project 1 of [sample_db] and gets its task. *)
Lemma get_tasks_by_user_access_lists_member_projects_witness :
  ∃ rows,
    TaskService.get_tasks_by_user_access sample_db 1 None 0 100 = Ok rows
    ∧ (1, sample_task) ∈ rows.
Proof.
  destruct (get_tasks_by_user_access_lists_member_projects sample_db 1 None 0 100)
    as [Hpage _]; [vm_compute; lia|].
  destruct Hpage as (rows & Hrows & _ & _ & _ & Hall); [by vm_compute|].
  exists rows. split; [exact Hrows|].
  apply Hall; [reflexivity|by vm_compute|reflexivity|].
  split; [by exists sample_project|]. split; [|by intros ? [=]].
  apply (bool_decide_unpack _). by vm_compute.
Defined.
